(** * kikuchipy: format dispatch and chunk planning

    A shallow embedding of [kikuchipy/io/_io.py] (plugin selection, footprint
    matching, signal-class resolution, [load] and [_save]) and of
    [kikuchipy/signals/util/_dask.py] (chunk planning and rechunking),
    followed by the properties proved about them.

    Python values are modelled as follows.
    - [str] and [bytes] are [string]s of code points below 256 (the range that
      [bytes.decode("latin-1")] produces).
    - [int] is [Z]; a NumPy [int64] scalar is a [Z] wrapped by [wrap64].
    - A byte budget ([int | float]) is a rational number [Q]: every finite
      float is one.
    - [dict] is a [gmap]; tuples and lists are [list]s.
    - A raised exception is the [Raise] outcome of the [result] monad. *)

From Stdlib Require Import ZArith QArith Qround Ascii String List Bool Lia.
From stdpp Require Import base option list gmap strings fin_maps.

#[local] Set Warnings "-register-all".
#[local] Open Scope string_scope.
#[local] Open Scope Z_scope.

(** ** Python: exceptions and the error monad *)

Module Py.

(** The exception classes the modelled code can raise. *)
Inductive exn_class :=
  | IOError | ValueError | TypeError | AttributeError | KeyError
  | IndexError | ZeroDivisionError | OverflowError | PluginError.

(** What an error message reports (the interpolated values of the f-string). *)
Inductive exn_msg :=
  | NoFilenameMatches (filename : string)
  | CouldNotRead (filename : string)
  | OnlyRecordByImage
  | DataTypeNotUnderstood (dtype_name : string)
  | SignalDimensionMustBe (signal_dimension : Z)
  | NoSignalsMatch (dtype : string) (signal_dimension : Z) (signal_type : string)
  | ExtNotSupported (ext : string)
  | CannotWriteThisData (formats : list string)
  | OverwriteParameter
  | LastDimensionsDiffer
  | NoAttribute (obj attr : string)
  | Other (what : string).

Record exn := Exn { exn_cls : exn_class; exn_about : exn_msg }.

Inductive result (A : Type) :=
  | Ok (a : A)
  | Raise (e : exn).
Arguments Ok {A} a.
Arguments Raise {A} e.

Definition bind {A B} (m : result A) (k : A -> result B) : result B :=
  match m with
  | Ok a => k a
  | Raise e => Raise e
  end.

#[export] Instance result_ret : MRet result := fun _ a => Ok a.
#[export] Instance result_bind : MBind result := fun _ _ k m => bind m k.

Definition is_ok {A} (r : result A) : bool :=
  match r with Ok _ => true | Raise _ => false end.

(** ** Python: strings *)

Definition code (c : ascii) : N := N_of_ascii c.

(** [str.lower] on one code point below 256: [A-Z] and the Latin-1 capitals
    [0xC0-0xDE] (without the multiplication sign [0xD7]) move up by 32. *)
Definition lower_char (c : ascii) : ascii :=
  let n := code c in
  if ((65 <=? n) && (n <=? 90)
      || (192 <=? n) && (n <=? 222) && negb (n =? 215))%N
  then ascii_of_N (n + 32) else c.

Fixpoint lower (s : string) : string :=
  match s with
  | EmptyString => EmptyString
  | String c s' => String (lower_char c) (lower s')
  end.

(** [str.isspace] on one code point below 256. *)
Definition is_space (c : ascii) : bool :=
  let n := code c in
  ((9 <=? n) && (n <=? 13) || (28 <=? n) && (n <=? 32)
   || (n =? 133) || (n =? 160))%N.

(** [str.lstrip()] *)
Fixpoint lstrip (s : string) : string :=
  match s with
  | EmptyString => EmptyString
  | String c s' => if is_space c then lstrip s' else s
  end.

(** [s.split(sep)] for a one-character separator: never the empty list. *)
Fixpoint split (sep : ascii) (s : string) : list string :=
  match s with
  | EmptyString => [EmptyString]
  | String c s' =>
      if Ascii.eqb c sep then EmptyString :: split sep s'
      else match split sep s' with
           | h :: t => String c h :: t
           | [] => [String c EmptyString]
           end
  end.

(** [sub in s] for two strings. *)
Fixpoint contains (sub s : string) : bool :=
  String.prefix sub s
  || match s with
     | EmptyString => false
     | String _ s' => contains sub s'
     end.

(** [x in l] for a list of strings. *)
Definition str_in (x : string) (l : list string) : bool :=
  existsb (String.eqb x) l.

(** [s.rfind(c)]: the index of the last [c], counted from [i]. *)
Fixpoint rfind_from (i : Z) (c : ascii) (s : string) : Z :=
  match s with
  | EmptyString => -1
  | String d s' =>
      let r := rfind_from (i + 1) c s' in
      if 0 <=? r then r else if Ascii.eqb c d then i else -1
  end.
Definition rfind (c : ascii) (s : string) : Z := rfind_from 0 c s.

Definition slice_to (n : Z) (s : string) : string :=
  String.substring 0 (Z.to_nat n) s.
Definition slice_from (n : Z) (s : string) : string :=
  String.substring (Z.to_nat n) (String.length s - Z.to_nat n)%nat s.

End Py.
Export Py.

(** ** Python: sequences and numbers *)

Module Seq.

(** [range(a, b)] *)
Definition py_range (a b : Z) : list Z :=
  (fun i => a + Z.of_nat i) <$> seq 0 (Z.to_nat (b - a)).

(** [l[i]] for a list or tuple: negative indices count from the end. *)
Definition py_index {A} (l : list A) (i : Z) : result A :=
  let n := Z.of_nat (length l) in
  let j := if i <? 0 then i + n else i in
  if (0 <=? j) && (j <? n) then
    match l !! Z.to_nat j with
    | Some x => Ok x
    | None => Raise (Exn IndexError (Other "index out of range"))
    end
  else Raise (Exn IndexError (Other "index out of range")).

(** [l[:-k]] and [l[-k:]] for [k > 0]. *)
Definition all_but_last {A} (k : nat) (l : list A) : list A :=
  take (length l - k) l.
Definition last_n {A} (k : nat) (l : list A) : list A :=
  drop (length l - k) l.

(** [d[k]] for a dict. *)
Definition py_getitem {V} (d : gmap Z V) (k : Z) : result V :=
  match d !! k with
  | Some v => Ok v
  | None => Raise (Exn KeyError (Other "key"))
  end.

(** The loop [for x in l: acc.append(f x)], stopping at the first raise. *)
Fixpoint for_each {A B} (f : A -> result B) (l : list A) : result (list B) :=
  match l with
  | [] => Ok []
  | x :: l' => y ← f x; ys ← for_each f l'; Ok (y :: ys)
  end.

(** A NumPy [int64] scalar: two's complement wrap-around. *)
Definition wrap64 (z : Z) : Z := (z + 2 ^ 63) mod 2 ^ 64 - 2 ^ 63.

(** [np.prod] of a tuple of ints: an [int64] product. *)
Definition np_prod (l : list Z) : Z :=
  foldl (fun acc x => wrap64 (acc * x)) 1 l.

(** [np.argmin]: the index of the first smallest element. *)
Fixpoint argmin_from (best_i best i : Z) (l : list Z) : Z :=
  match l with
  | [] => best_i
  | x :: l' =>
      if x <? best then argmin_from i x (i + 1) l'
      else argmin_from best_i best (i + 1) l'
  end.
Definition np_argmin (l : list Z) : result Z :=
  match l with
  | [] => Raise (Exn ValueError (Other "argmin of an empty sequence"))
  | x :: l' => Ok (argmin_from 0 x 1 l')
  end.

(** [x < y] between numbers. *)
Definition Qlt_b (x y : Q) : bool := negb (Qle_bool y x).

End Seq.
Export Seq.

(** ** signals/util/_dask.py *)

Module Dask.

(** [np.dtype]: what the planners read of it. *)
Record dtype := { dtype_name : string; itemsize : Z }.

(** A value of [chunks_dict]: the string ["auto"] or an int, where [-1]
    stands for the whole axis. *)
Inductive chunk_directive :=
  | Auto
  | Edge (c : Z).

#[export] Instance chunk_directive_eq_dec : EqDecision chunk_directive.
Proof. solve_decision. Defined.

Definition whole : chunk_directive := Edge (-1).

(** The [chunk_bytes] argument: [int | float | str | None]. *)
Inductive byte_limit :=
  | LimNone
  | LimNum (q : Q)
  | LimStr (s : string).

(** What the planners read of a signal: its data and its axes manager. *)
Record signal_data := {
  data_shape_of : list Z;
  data_dtype : dtype;
  navigation_dimension : Z;
  signal_dimension : Z
}.

(** A Dask array: its chunk tuple per axis, [chunks], and its dtype.
    [chunksize] and [shape] are derived as Dask derives them. *)
Record dask_array := { chunks : list (list Z); array_dtype : dtype }.

Definition chunksize (a : dask_array) : list Z :=
  foldr Z.max 0 <$> chunks a.
Definition shape (a : dask_array) : list Z :=
  foldr Z.add 0 <$> chunks a.

(** [{i: v for i in keys}] and [d.update({i: v for i in keys})] *)
Definition set_all {V} (v : V) (keys : list Z) (d : gmap Z V) : gmap Z V :=
  foldl (fun d i => <[i := v]> d) d keys.

(** [if signal is not None: arg = signal.attr] *)
Definition from_signal {A} (attr : signal_data -> A) (signal : option signal_data)
    (arg : option A) : option A :=
  match signal with Some s => Some (attr s) | None => arg end.

(** The dict that [get_chunking] hands to [normalize_chunks]. *)
Definition get_chunking_dict (nav_dim sig_dim : Z) (chunk_shape : option Z)
  : gmap Z chunk_directive :=
  let nav := match chunk_shape with None => Auto | Some c => Edge c end in
  let chunks_dict := set_all nav (py_range 0 nav_dim) ∅ in
  set_all whole (py_range nav_dim (nav_dim + sig_dim)) chunks_dict.

(** The test of [_reduce_chunks] on the smaller navigation chunk extent [c]:
    [c * np.prod(chunksize[-2:]) * 4 < chunk_bytes], an [int64] product. *)
Definition merge_fits (c : Z) (chunksize : list Z) (chunk_bytes : Q) : bool :=
  Qlt_b (inject_Z (wrap64 (wrap64 (c * np_prod (last_n 2 chunksize)) * 4)))
        chunk_bytes.

(** The dict that [_reduce_chunks] hands to [normalize_chunks]. *)
Definition _reduce_chunks_dict (dask_array : dask_array) (chunk_bytes : Q)
  : result (gmap Z chunk_directive) :=
  let chunksize := chunksize dask_array in
  let nav_chunksize := all_but_last 2 chunksize in
  let nav_ndim := Z.of_nat (length nav_chunksize) in
  let chunks_dict := set_all Auto (py_range 0 nav_ndim) ∅ in
  let chunks_dict := set_all whole (py_range nav_ndim (nav_ndim + 2)) chunks_dict in
  if nav_ndim =? 2 then
    idx_min ← np_argmin nav_chunksize;
    c ← py_index nav_chunksize idx_min;
    if merge_fits c chunksize chunk_bytes
    then Ok (<[idx_min := whole]> chunks_dict)
    else Ok chunks_dict
  else Ok chunks_dict.

(** The closing loop of [_reduce_chunks]. *)
Definition pick_chunks (chunks_dict : gmap Z chunk_directive)
    (old_chunks chunks : list (list Z)) (i : Z) : result (list Z) :=
  d ← py_getitem chunks_dict i;
  if decide (d = Edge (-1)) then py_index old_chunks i else py_index chunks i.

Section Planner.

(** Dask's [da.core.normalize_chunks(chunks, shape, limit, dtype)], an
    external collaborator of both planners. *)
Variable normalize_chunks :
  gmap Z chunk_directive -> option (list Z) -> byte_limit -> dtype ->
  result (list (list Z)).

Definition get_chunking
    (signal : option signal_data) (data_shape : option (list Z))
    (nav_dim sig_dim : option Z) (chunk_shape : option Z)
    (chunk_bytes : byte_limit) (dtype : option dtype)
  : result (list (list Z)) :=
  let data_shape := from_signal data_shape_of signal data_shape in
  let nav_dim := from_signal navigation_dimension signal nav_dim in
  let sig_dim := from_signal signal_dimension signal sig_dim in
  dtype ← match dtype, signal with
          | Some d, _ => Ok d
          | None, Some s => Ok (data_dtype s)
          | None, None => Raise (Exn AttributeError (NoAttribute "NoneType" "data"))
          end;
  nav_dim ← match nav_dim with
            | Some n => Ok n
            | None => Raise (Exn TypeError (Other "range(None)"))
            end;
  sig_dim ← match sig_dim with
            | Some n => Ok n
            | None => Raise (Exn TypeError (Other "int + None"))
            end;
  normalize_chunks (get_chunking_dict nav_dim sig_dim chunk_shape)
                   data_shape chunk_bytes dtype.

Definition _reduce_chunks
    (dask_array : dask_array) (chunk_bytes : Q) (dtype_out : dtype)
  : result (list (list Z)) :=
  chunks_dict ← _reduce_chunks_dict dask_array chunk_bytes;
  new ← normalize_chunks chunks_dict (Some (shape dask_array))
                         (LimNum chunk_bytes) dtype_out;
  let old_chunks := chunks dask_array in
  for_each (pick_chunks chunks_dict old_chunks new)
           (py_range 0 (Z.of_nat (length (chunksize dask_array)))).

End Planner.

(** The condition of the rechunking special case in the words of the
    specification: the bytes of one chunk once the navigation axis with the
    smaller current chunk extent is merged into a single block, that is the
    whole extent of that axis times the current chunk extent of the other
    navigation axis times the two signal extents times the element width. *)
Definition spec_merged_chunk_bytes (a : dask_array) (dtype_out : dtype) : result Z :=
  let nav_chunksize := all_but_last 2 (chunksize a) in
  idx_min ← np_argmin nav_chunksize;
  merged ← py_index (shape a) idx_min;
  other ← py_index nav_chunksize (1 - idx_min);
  Ok (merged * other * foldr Z.mul 1 (last_n 2 (chunksize a)) * itemsize dtype_out).

(** *** The decomposition chunk balancer *)

(** A NumPy or Dask array as [_rechunk_learning_results] reads it. *)
Record ndarray := { nd_shape : list Z; nd_itemsize : Z }.

Definition nbytes (a : ndarray) : Z := foldr Z.mul 1 (nd_shape a) * nd_itemsize a.

(** An entry of [sizes]: the Python int it starts as, or the [float64] with
    an integral value that [np.floor] leaves there. *)
Inductive num :=
  | PyInt (z : Z)
  | NpFloat (z : Z).

Definition num_val (n : num) : Z :=
  match n with PyInt z | NpFloat z => z end.

(** One pass of the loop body: [np.argmax] picks the first largest entry,
    [np.floor(x / 2)] replaces it. *)
Definition halve_larger (sizes : num * num) : num * num :=
  let '(s0, s1) := sizes in
  if num_val s1 <=? num_val s0 then (NpFloat (num_val s0 / 2), s1)
  else (s0, NpFloat (num_val s1 / 2)).

(** [while (sizes[0] + sizes[1]) >= suggested_size: ...] run for at most [fuel]
    passes; [None] when the condition still holds after them. *)
Fixpoint halve_loop (fuel : nat) (suggested_size : Q) (sizes : num * num)
  : option (num * num) :=
  if Qlt_b (inject_Z (num_val sizes.1 + num_val sizes.2)) suggested_size
  then Some sizes
  else match fuel with
       | O => None
       | S fuel' => halve_loop fuel' suggested_size (halve_larger sizes)
       end.

(** [mbytes_chunk * 2**20] *)
Definition suggested_size (mbytes_chunk : Q) : Q :=
  (mbytes_chunk * inject_Z (2 ^ 20))%Q.

(** [sizes = [factors_size, loadings_size]] *)
Definition start_sizes (factors loadings : ndarray) : num * num :=
  (PyInt (nbytes factors), PyInt (nbytes loadings)).

(** The loop has been left: the two sizes sum to less than the budget. *)
Definition below (suggested_size : Q) (sizes : num * num) : Prop :=
  (inject_Z (num_val sizes.1 + num_val sizes.2) < suggested_size)%Q.

(** A bound on the passes the loop can still make: what is left of the two
    sizes above zero. *)
Definition slack (sizes : num * num) : nat :=
  Z.to_nat (Z.max 0 (num_val sizes.1) + Z.max 0 (num_val sizes.2)).

(** [int(np.ceil(size / part))] *)
Definition split_count (size : Z) (part : num) : result Z :=
  match part with
  | PyInt 0 => Raise (Exn ZeroDivisionError (Other "division by zero"))
  | NpFloat 0 =>
      if size =? 0 then Raise (Exn ValueError (Other "cannot convert float NaN to integer"))
      else Raise (Exn OverflowError (Other "cannot convert float infinity to integer"))
  | PyInt z | NpFloat z => Ok (Qceiling (inject_Z size / inject_Z z))
  end.

(** [int(length / count)] for an int [count] *)
Definition edge_length (length count : Z) : result Z :=
  if count =? 0 then Raise (Exn ZeroDivisionError (Other "division by zero"))
  else Ok (Z.quot length count).

(** [None] when the loop outlasts [fuel]. The budget and the quotients
    [total_size / suggested_size] and [size / part] are exact rationals here,
    where the code computes them in [float64]: the chunk counts can differ
    where a quotient lies within rounding of a whole number; the loop
    compares and halves whole numbers and is the same in both. *)
Definition _rechunk_learning_results
    (fuel : nat) (factors loadings : ndarray) (mbytes_chunk : Q)
  : option (result (list (Z * Z))) :=
  match py_index (nd_shape factors) (-1), py_index (nd_shape loadings) (-1) with
  | Raise e, _ | Ok _, Raise e => Some (Raise e)
  | Ok f_last, Ok l_last =>
    if negb (f_last =? l_last) then Some (Raise (Exn ValueError LastDimensionsDiffer))
    else
    let learning_results_shape := (nd_shape factors ++ nd_shape loadings)%list in
    let suggested_size := suggested_size mbytes_chunk in
    let factors_size := nbytes factors in
    let loadings_size := nbytes loadings in
    let total_size := factors_size + loadings_size in
    if Qeq_bool suggested_size 0
    then Some (Raise (Exn ZeroDivisionError (Other "division by zero")))
    else
    let num_chunks := Qceiling (inject_Z total_size / suggested_size) in
    if Qle_bool (inject_Z factors_size) suggested_size then
      Some (n2 ← py_index learning_results_shape 2;
            if (num_chunks =? 0) && (n2 =? 0)
            then Raise (Exn ValueError (Other "cannot convert float NaN to integer"))
            else if num_chunks =? 0
            then Raise (Exn OverflowError (Other "cannot convert float infinity to integer"))
            else Ok [(-1, -1); (Z.quot n2 num_chunks, -1)])
    else
      match halve_loop fuel suggested_size (start_sizes factors loadings) with
      | None => None
      | Some sizes =>
          Some (factors_chunks ← split_count factors_size sizes.1;
                loadings_chunks ← split_count loadings_size sizes.2;
                n0 ← py_index learning_results_shape 0;
                e0 ← edge_length n0 factors_chunks;
                n2 ← py_index learning_results_shape 2;
                e2 ← edge_length n2 loadings_chunks;
                Ok [(e0, -1); (e2, -1)])
      end
  end.

End Dask.

(** ** io/_io.py *)

Module IO.

(** *** Data *)

(** Python values as they occur in metadata dicts, keyword arguments and the
    structure map of an HDF5 file. *)
Inductive pyval :=
  | PNone
  | PBool (b : bool)
  | PInt (z : Z)
  | PStr (s : string)
  | PList (l : list pyval)
  | PDict (d : gmap string pyval).

(** What [dataset[()]] returns: a string, raw bytes, a number, or an array. *)
Inductive h5value :=
  | HStr (s : string)
  | HBytes (s : string)
  | HNumber (z : Z)
  | HArray (l : list h5value).

(** An HDF5 object: a group with its members in the order [group.items()]
    yields them, or a dataset. *)
Inductive h5obj :=
  | H5Group (members : list (string * h5obj))
  | H5Dataset (value : h5value).

(** [plugin.writes]: [False], [True] or a list of
    [(signal_dimension, navigation_dimension)] pairs. *)
Inductive write_capability :=
  | WritesFalse
  | WritesTrue
  | WritesShapes (l : list (Z * Z)).

(** The array of a signal record, as far as [_dict2signal] reads it. *)
Record array_data := { array_dtype_name : string; array_shape : list Z }.

(** The dictionary a plugin reader returns for one signal. *)
Record signal_dict := {
  sd_data : option array_data;
  sd_metadata : option (gmap string pyval);
  sd_original_metadata : option (gmap string pyval)
}.

(** A registered signal class. *)
Record signal_class := {
  class_name : string;
  _lazy : bool;
  _dtype : string;
  _signal_dimension : Z;
  _signal_type : string;
  _alias_signal_types : list string
}.

(** [signal.tmp_parameters] *)
Record tmp_parameters := {
  folder : option string;
  filename_of : option string;
  extension : option string
}.

(** A constructed signal: its class, the dictionary it was built from, its
    axes manager and its bookkeeping fields. *)
Record signal := {
  signal_cls : signal_class;
  signal_args : signal_dict;
  made_lazy : bool;
  am_signal_dimension : Z;
  am_navigation_dimension : Z;
  tmp : tmp_parameters
}.

(** A format plugin: a module of [kikuchipy.io.plugins]. [footprint] and
    [manufacturer] are attributes a plugin may lack ([hasattr]).
    [file_reader] and [file_writer] stand for the functions of the plugin
    together with the files they act on: what a reader parses of a file is
    part of the reader and not modelled. *)
Record plugin := {
  format_name : string;
  file_extensions : list string;
  default_extension : Z;
  writes : write_capability;
  footprint : option (list string);
  manufacturer : option string;
  file_reader : string -> bool -> gmap string pyval -> result (list signal_dict);
  file_writer : string -> signal -> gmap string pyval -> result unit
}.

(** The operating system and the user, as [load] and [_save] consult them. *)
Record os_env := {
  isfile : string -> bool;
  glob : string -> list string;
  is_hdf5 : string -> bool;
  h5py_File : string -> result (list (string * h5obj));
  abspath : string -> string;
  _get_input_bool : string -> bool;
  overwrite_method : string -> bool
}.

(** *** Footprint matching *)

Fixpoint _hdf5group2dict_obj (key : string) (val : h5obj) {struct val} : pyval :=
  match val with
  | H5Group members =>
      PDict (foldl (fun d kv =>
                      let key_lower := lower (lstrip kv.1) in
                      <[key_lower := _hdf5group2dict_obj kv.1 kv.2]> d)
                   ∅ members)
  | H5Dataset _ =>
      if String.eqb (lower (lstrip key)) "manufacturer" then PStr key else PInt 1
  end.

Definition _hdf5group2dict (group : list (string * h5obj)) : gmap string pyval :=
  foldl (fun d kv =>
           let key_lower := lower (lstrip kv.1) in
           <[key_lower := _hdf5group2dict_obj kv.1 kv.2]> d)
        ∅ group.

Definition not_iterable {A} : result A :=
  Raise (Exn TypeError (Other "argument is not iterable")).
Definition bad_index {A} : result A :=
  Raise (Exn TypeError (Other "indices must be integers")).

(** [key in obj] *)
Definition py_in (key : string) (obj : pyval) : result bool :=
  match obj with
  | PDict d => Ok (bool_decide (is_Some (d !! key)))
  | PStr s => Ok (contains key s)
  | PList l =>
      Ok (existsb (fun v => match v with PStr s => String.eqb s key | _ => false end) l)
  | PNone | PBool _ | PInt _ => not_iterable
  end.

(** [obj[key]] for a string [key] *)
Definition py_item (obj : pyval) (key : string) : result pyval :=
  match obj with
  | PDict d =>
      match d !! key with
      | Some v => Ok v
      | None => Raise (Exn KeyError (Other key))
      end
  | _ => bad_index
  end.

(** [_exists(obj, chain)]: the entry at the end of [chain], or [None]. *)
Fixpoint _exists (obj : pyval) (chain : list string) : result (option pyval) :=
  match chain with
  | [] => Raise (Exn IndexError (Other "pop from empty list"))
  | key :: chain =>
      present ← py_in key obj;
      if present : bool then
        v ← py_item obj key;
        match chain with
        | [] => Ok (Some v)
        | _ :: _ => _exists v chain
        end
      else Ok None
  end.

(** The lookup of one footprint path: [_exists(d, fp.lower().split("/"))]. *)
Definition footprint_lookup (d : gmap string pyval) (fp : string)
  : result (option pyval) :=
  _exists (PDict d) (split "/" (lower fp)).

(** The inner loop of the structural pass: [n_matches] for one plugin. *)
Fixpoint count_matches (d : gmap string pyval) (fps : list string) (n_matches : Z)
  : result Z :=
  match fps with
  | [] => Ok n_matches
  | fp :: fps =>
      r ← footprint_lookup d fp;
      count_matches d fps (if r is Some _ then n_matches + 1 else n_matches)
  end.

(** Walking down nested dicts along a path, without Python's errors. *)
Fixpoint walk (obj : pyval) (chain : list string) : option pyval :=
  match chain with
  | [] => Some obj
  | key :: chain =>
      match obj with
      | PDict d => d !! key ≫= fun v => walk v chain
      | _ => None
      end
  end.

(** A footprint path resolves to a present entry of the structure map, in
    the words of the specification and without the code's lookup: split at
    the slashes and lower-cased, its segments lead through the nested maps to
    an entry. *)
Definition resolves (d : gmap string pyval) (fp : string) : Prop :=
  is_Some (walk (PDict d) (split "/" (lower fp))).

(** Every declared footprint path of the plugin resolves. *)
Definition fully_present (d : gmap string pyval) (p : plugin) : Prop :=
  Forall (resolves d) (default [] (footprint p)).

(** The code's lookups of the plugin's footprint paths all return: none of
    them raises. *)
Definition lookups_return (d : gmap string pyval) (p : plugin) : Prop :=
  Forall (fun fp => is_ok (footprint_lookup d fp) = true) (default [] (footprint p)).

(** The structural pass over [plugins_with_footprints]. *)
Fixpoint structural_pass (d : gmap string pyval) (ps : list plugin)
  : result (option plugin) :=
  match ps with
  | [] => Ok None
  | p :: ps =>
      let fps := default [] (footprint p) in
      n_matches ← count_matches d fps 0;
      let n_desired_matches := Z.of_nat (length fps) in
      if n_matches =? n_desired_matches then Ok (Some p)
      else structural_pass d ps
  end.

(** [f[val][()]] on the root group. *)
Definition read_dataset (f : list (string * h5obj)) (val : pyval) : result h5value :=
  match val with
  | PStr key =>
      match List.find (fun kv => String.eqb kv.1 key) f with
      | Some (_, H5Dataset v) => Ok v
      | Some (_, H5Group _) => Raise (Exn TypeError (Other "a group has no value"))
      | None => Raise (Exn KeyError (Other key))
      end
  | _ => Raise (Exn TypeError (Other "accessing a group is done with bytes or str"))
  end.

(** The unwrapping and decoding of the manufacturer value. *)
Definition unwrap_manufacturer (man : h5value) : h5value :=
  let man := match man with HArray [x] => x | _ => man end in
  match man with HBytes s => HStr s | _ => man end.

(** [man.lower()] *)
Definition man_lower (man : h5value) : result string :=
  match man with
  | HStr s => Ok (lower s)
  | _ => Raise (Exn AttributeError (NoAttribute "man" "lower"))
  end.

(** The loop over [plugins_with_manufacturer]. *)
Fixpoint manufacturer_loop (man : h5value) (ps : list plugin) : result (option plugin) :=
  match ps with
  | [] => Ok None
  | p :: ps =>
      m ← man_lower man;
      if bool_decide (Some m = manufacturer p) then Ok (Some p)
      else manufacturer_loop man ps
  end.

(** The manufacturer pass: the loop over [d.items()] acts on the one key
    ["manufacturer"], if the dict has it. *)
Definition manufacturer_pass (f : list (string * h5obj)) (d : gmap string pyval)
    (plugins_with_manufacturer : list plugin) : result (option plugin) :=
  match d !! "manufacturer" with
  | Some val =>
      man ← read_dataset f val;
      manufacturer_loop (unwrap_manufacturer man) plugins_with_manufacturer
  | None => Ok None
  end.

Definition has_footprint (p : plugin) : bool := bool_decide (is_Some (footprint p)).
Definition has_manufacturer (p : plugin) : bool := bool_decide (is_Some (manufacturer p)).

Definition _plugin_from_footprints (os : os_env) (filename : string)
    (plugins : list plugin) : result (option plugin) :=
  f ← h5py_File os filename;
  let d := _hdf5group2dict f in
  let plugins_with_footprints := List.filter has_footprint plugins in
  let plugins_with_manufacturer := List.filter has_manufacturer plugins_with_footprints in
  matching_plugin ← manufacturer_pass f d plugins_with_manufacturer;
  match matching_plugin with
  | None => structural_pass d plugins_with_footprints
  | Some p => Ok (Some p)
  end.

(** *** Signal-class resolution *)

(** The check on [dtype.name] that normalises the data type to ["real"]. *)
Definition dtype_understood (dtype_name : string) : bool :=
  contains "float" dtype_name || contains "int" dtype_name
  || contains "void" dtype_name || contains "bool" dtype_name
  || contains "object" dtype_name.

(** The three list comprehensions of [_assign_signal_subclass], in order. *)
Definition dtype_dim_type_matches (subclasses : list signal_class)
    (dtype : string) (signal_dimension : Z) (signal_type : string) (lazy : bool)
  : list signal_class :=
  let signals := List.filter (fun v => Bool.eqb (_lazy v) lazy) subclasses in
  let dtype_matches := List.filter (fun s => String.eqb (_dtype s) dtype) signals in
  let dtype_dim_matches :=
    List.filter (fun s => _signal_dimension s =? signal_dimension) dtype_matches in
  List.filter (fun s => String.eqb signal_type (_signal_type s)
                        || str_in signal_type (_alias_signal_types s))
              dtype_dim_matches.

Section Resolver.

(** [find_subclasses(kikuchipy.signals, BaseSignal)]: the registered signal
    classes, in the order the dict yields them. *)
Variable subclasses : list signal_class.

Definition _assign_signal_subclass (dtype_name : string) (signal_dimension : Z)
    (signal_type : string) (lazy : bool) : result signal_class :=
  if negb (dtype_understood dtype_name)
  then Raise (Exn ValueError (DataTypeNotUnderstood dtype_name))
  else
  let dtype := "real" in
  if signal_dimension <? 0
  then Raise (Exn ValueError (SignalDimensionMustBe signal_dimension))
  else
  match dtype_dim_type_matches subclasses dtype signal_dimension signal_type lazy with
  | [s] => Ok s
  | _ => Raise (Exn ValueError (NoSignalsMatch dtype signal_dimension signal_type))
  end.

(** [record_by == "image"] *)
Definition is_image (record_by : pyval) : bool :=
  match record_by with PStr s => String.eqb s "image" | _ => false end.

(** The check of [md["Signal"]["record_by"]]: the metadata afterwards. *)
Definition check_record_by (md : gmap string pyval) : result (gmap string pyval) :=
  match md !! "Signal" with
  | None => Ok md
  | Some sig =>
      present ← py_in "record_by" sig;
      if present : bool then
        record_by ← py_item sig "record_by";
        if negb (is_image record_by)
        then Raise (Exn ValueError OnlyRecordByImage)
        else match sig with
             | PDict s => Ok (<["Signal" := PDict (delete "record_by" s)]> md)
             | _ => bad_index
             end
      else Ok md
  end.

(** The lookup of [md["Signal"]["signal_type"]]. *)
Definition read_signal_type (md : gmap string pyval) : result pyval :=
  match md !! "Signal" with
  | None => Ok (PStr "")
  | Some sig =>
      present ← py_in "signal_type" sig;
      if present : bool then py_item sig "signal_type" else Ok (PStr "")
  end.

(** The conversion up to the call of the class: the checks of the record,
    the class from [_assign_signal_subclass], and the signal the class is
    called with the record for. What the constructor does with the record,
    and where it raises, is HyperSpy's and not modelled: the statements about
    [_dict2signal] are about every signal it returns. *)
Definition _dict2signal (signal_dict : signal_dict) (lazy : bool) : result signal :=
  '(signal_type, signal_dict) ←
    match sd_metadata signal_dict with
    | None => Ok (PStr "", signal_dict)
    | Some md =>
        md ← check_record_by md;
        signal_type ← read_signal_type md;
        Ok (signal_type,
            {| sd_data := sd_data signal_dict;
               sd_metadata := Some md;
               sd_original_metadata := sd_original_metadata signal_dict |})
    end;
  data ← match sd_data signal_dict with
         | Some data => Ok data
         | None => Raise (Exn KeyError (Other "data"))
         end;
  (* a signal type that is no string equals no class's type or alias *)
  cls ← match signal_type with
        | PStr signal_type =>
            _assign_signal_subclass (array_dtype_name data) 2 signal_type lazy
        | _ =>
            if negb (dtype_understood (array_dtype_name data))
            then Raise (Exn ValueError (DataTypeNotUnderstood (array_dtype_name data)))
            else Raise (Exn ValueError (NoSignalsMatch "real" 2 "<not a string>"))
        end;
  Ok {| signal_cls := cls;
        signal_args := signal_dict;
        made_lazy := _lazy cls;
        am_signal_dimension := _signal_dimension cls;
        am_navigation_dimension :=
          Z.of_nat (length (array_shape data)) - _signal_dimension cls;
        tmp := {| folder := None; filename_of := None; extension := None |} |}.

End Resolver.

(** *** Paths: [os.path.splitext] and [os.path.split] (POSIX) *)

Definition chars (s : string) : list ascii := list_ascii_of_string s.

Definition splitext (p : string) : string * string :=
  let sepIndex := rfind "/" p in
  let dotIndex := rfind "." p in
  if sepIndex <? dotIndex then
    (* skip all leading dots *)
    let name := chars (slice_to (dotIndex - (sepIndex + 1)) (slice_from (sepIndex + 1) p)) in
    if existsb (fun c => negb (Ascii.eqb c ".")) name
    then (slice_to dotIndex p, slice_from dotIndex p)
    else (p, "")
  else (p, "").

(** [s.rstrip(c)] *)
Fixpoint rstrip_char (c : ascii) (s : string) : string :=
  match s with
  | EmptyString => EmptyString
  | String d s' =>
      let r := rstrip_char c s' in
      if String.eqb r "" && Ascii.eqb d c then "" else String d r
  end.

Definition path_split (p : string) : string * string :=
  let i := rfind "/" p + 1 in
  let head := slice_to i p in
  let tail := slice_from i p in
  let head :=
    if existsb (fun c => negb (Ascii.eqb c "/")) (chars head)
    then rstrip_char "/" head else head in
  (head, tail).

(** [s.replace(".", "")] *)
Definition remove_dots (s : string) : string :=
  string_of_list_ascii (List.filter (fun c => negb (Ascii.eqb c ".")) (chars s)).

(** *** Loading *)

(** What [load] returns: a bare signal for one record, a list otherwise. *)
Inductive load_out :=
  | One (s : signal)
  | Many (l : list signal).

Section Dispatch.

Variable os : os_env.
(** The module-level list [plugins]. *)
Variable plugins : list plugin.
Variable subclasses : list signal_class.

Definition set_tmp (s : signal) (t : tmp_parameters) : signal :=
  {| signal_cls := signal_cls s; signal_args := signal_args s;
     made_lazy := made_lazy s; am_signal_dimension := am_signal_dimension s;
     am_navigation_dimension := am_navigation_dimension s; tmp := t |}.

(** The loop over [signal_dicts]; it rebinds [filename] on every pass. *)
Fixpoint load_loop (signal_dicts : list signal_dict) (lazy : bool) (filename : string)
  : result (list signal) :=
  match signal_dicts with
  | [] => Ok []
  | sd :: rest =>
      s ← _dict2signal subclasses sd lazy;
      let '(directory, filename) := path_split (abspath os filename) in
      let '(filename, extension) := splitext filename in
      let s := set_tmp s {| folder := Some directory;
                            filename_of := Some filename;
                            extension := Some (remove_dots extension) |} in
      out ← load_loop rest lazy filename;
      Ok (s :: out)
  end.

(** The readers whose extensions contain the file's. *)
Definition readers_for (filename : string) : list plugin :=
  let extension := slice_from 1 (splitext filename).2 in
  List.filter (fun plugin => str_in (lower extension) (file_extensions plugin)) plugins.

Definition load (filename : string) (lazy : bool) (kwargs : gmap string pyval)
  : result load_out :=
  if negb (isfile os filename) && (length (glob os filename) =? 0)%nat
  then Raise (Exn IOError (NoFilenameMatches filename))
  else
  let readers := readers_for filename in
  reader ←
    match readers with
    | [] => Raise (Exn IOError (CouldNotRead filename))
    | r0 :: _ =>
        if (1 <? length readers)%nat && is_hdf5 os filename
        then _plugin_from_footprints os filename readers
        else Ok (Some r0)
    end;
  signal_dicts ←
    match reader with
    | Some reader => file_reader reader filename lazy kwargs
    | None => Raise (Exn AttributeError (NoAttribute "NoneType" "file_reader"))
    end;
  out ← load_loop signal_dicts lazy filename;
  match out with
  | [s] => Ok (One s)
  | _ => Ok (Many out)
  end.

(** *** Saving *)

(** The [overwrite] argument: [None], a bool, or any other value. *)
Inductive overwrite_arg :=
  | OvNone
  | OvBool (b : bool)
  | OvOther (v : pyval).

(** [overwrite is True] *)
Definition is_True (overwrite : overwrite_arg) : bool :=
  match overwrite with OvBool true => true | _ => false end.

(** The effects of [_save] on the world outside the signal. *)
Inductive event :=
  | EnsureDirectory (filename : string)
  | AskAddScan (filename : string)
  | AskOverwrite (filename : string)
  | FileWriter (format : string) (filename : string) (kwargs : gmap string pyval).

(** How a call of [_save] ends: normally or with an exception, the signal
    afterwards, and the effects in the order they happened. *)
Record save_outcome := {
  outcome : result unit;
  signal_after : signal;
  events : list event
}.

(** The truth value of [plugin.writes]. *)
Definition writes_truthy (p : plugin) : bool :=
  match writes p with
  | WritesFalse => false
  | WritesTrue => true
  | WritesShapes l => negb (bool_decide (l = []))
  end.

Definition shape_in (sd nd : Z) (l : list (Z * Z)) : bool :=
  existsb (fun x => (x.1 =? sd) && (x.2 =? nd)) l.

(** [plugin.writes is True or plugin.writes is not False and (sd, nd) in
    plugin.writes] *)
Definition can_write (sd nd : Z) (p : plugin) : bool :=
  match writes p with
  | WritesTrue => true
  | WritesFalse => false
  | WritesShapes l => shape_in sd nd l
  end.

(** The target extension and file name: ["h5"] is appended to a name
    without extension. *)
Definition save_target (filename : string) : string * string :=
  let ext := slice_from 1 (splitext filename).2 in
  if String.eqb ext "" then ("h5", filename ++ "." ++ "h5")%string
  else (ext, filename).

Definition find_writer (ext : string) : option plugin :=
  List.find (fun plugin => str_in (lower ext) (file_extensions plugin)
                           && writes_truthy plugin) plugins.

(** The block that decides about adding a scan to an existing h5ebsd file:
    the new [overwrite], the new [kwargs], and the question asked. *)
Definition add_scan_block (writer : plugin) (filename : string) (is_file : bool)
    (overwrite : overwrite_arg) (add_scan : option bool) (kwargs : gmap string pyval)
  : overwrite_arg * gmap string pyval * list event :=
  if String.eqb (format_name writer) "kikuchipy_h5ebsd"
     && negb (is_True overwrite) && is_file
  then
    let '(add_scan, asked) :=
      match add_scan with
      | None => (_get_input_bool os filename, [AskAddScan filename])
      | Some b => (b, [])
      end in
    let overwrite := if add_scan : bool then OvBool true else overwrite in
    (overwrite, <["add_scan" := PBool add_scan]> kwargs, asked)
  else (overwrite, kwargs, []).

(** The write decision: [write], with the question asked, or the
    [ValueError]. *)
Definition write_decision (filename : string) (is_file : bool)
    (overwrite : overwrite_arg) : result bool * list event :=
  match overwrite with
  | OvNone => (Ok (overwrite_method os filename), [AskOverwrite filename])
  | OvBool true => (Ok true, [])
  | OvBool false => (Ok (negb is_file), [])
  | OvOther _ => (Raise (Exn ValueError OverwriteParameter), [])
  end.

(** What [_save] has settled when it comes to write: the extension, the
    file name, the writer, the keyword arguments and the decision. *)
Record write_plan := {
  wp_ext : string;
  wp_filename : string;
  wp_writer : plugin;
  wp_kwargs : gmap string pyval;
  wp_write : bool
}.

(** [_save] up to the write decision, with the effects so far. *)
Definition save_plan (filename : string) (signal : signal) (overwrite : overwrite_arg)
    (add_scan : option bool) (kwargs : gmap string pyval)
  : result write_plan * list event :=
  let '(ext, filename) := save_target filename in
  match find_writer ext with
  | None => (Raise (Exn ValueError (ExtNotSupported ext)), [])
  | Some writer =>
      let sd := am_signal_dimension signal in
      let nd := am_navigation_dimension signal in
      if negb (can_write sd nd writer) then
        let writing_plugins := List.filter (can_write sd nd) plugins in
        (Raise (Exn ValueError (CannotWriteThisData (format_name <$> writing_plugins))), [])
      else
      let is_file := isfile os filename in
      let '(overwrite, kwargs, asked1) :=
        add_scan_block writer filename is_file overwrite add_scan kwargs in
      let '(write, asked2) := write_decision filename is_file overwrite in
      let effects := (EnsureDirectory filename :: asked1 ++ asked2)%list in
      match write with
      | Raise e => (Raise e, effects)
      | Ok write =>
          (Ok {| wp_ext := ext; wp_filename := filename; wp_writer := writer;
                 wp_kwargs := kwargs; wp_write := write |}, effects)
      end
  end.

Definition _save (filename : string) (signal : signal) (overwrite : overwrite_arg)
    (add_scan : option bool) (kwargs : gmap string pyval) : save_outcome :=
  match save_plan filename signal overwrite add_scan kwargs with
  | (Raise e, effects) =>
      {| outcome := Raise e; signal_after := signal; events := effects |}
  | (Ok plan, effects) =>
      if wp_write plan then
        let filename := wp_filename plan in
        let writer := wp_writer plan in
        let written :=
          (effects ++ [FileWriter (format_name writer) filename (wp_kwargs plan)])%list in
        match file_writer writer filename signal (wp_kwargs plan) with
        | Raise e => {| outcome := Raise e; signal_after := signal; events := written |}
        | Ok _ =>
            let '(directory, name) := path_split (abspath os filename) in
            {| outcome := Ok ();
               signal_after :=
                 set_tmp signal {| folder := Some directory;
                                   filename_of := Some (splitext name).1;
                                   extension := Some (wp_ext plan) |};
               events := written |}
        end
      else {| outcome := Ok (); signal_after := signal; events := effects |}
  end.

(** The plugin's file writer was called. *)
Definition is_file_writer (e : event) : bool :=
  match e with FileWriter _ _ _ => true | _ => false end.
Definition writer_called (o : save_outcome) : bool := existsb is_file_writer (events o).

End Dispatch.

End IO.

(** ** Concrete instances

    The planners and the dispatcher are parametric in Dask's normaliser, in
    the plugin list, in the registered signal classes and in the operating
    system. The instances below are used to run them on concrete inputs. *)

Module Samples.
Import Dask IO.

(** [blockdims_from_blockshape] on one axis: blocks of length [c] and the
    remainder. *)
Definition blocks (s c : Z) : list Z :=
  (replicate (Z.to_nat (s / c)) c ++ (if s mod c =? 0 then [] else [s mod c]))%list.

(** A stand-in for [normalize_chunks], to instantiate statements that hold
    for every normaliser: a whole axis ([-1], or no entry in the dict) is one
    block and an explicit edge cuts blocks of that length, as in Dask; an
    automatic axis is cut into unit blocks, the one split that every byte
    budget admits, which is not the split Dask chooses. *)
Definition normalize_chunks_unit (chunks : gmap Z chunk_directive)
    (shape : option (list Z)) (limit : byte_limit) (dtype : dtype)
  : result (list (list Z)) :=
  match shape with
  | None => Raise (Exn TypeError (Other "shape is None"))
  | Some shape =>
      Ok (imap (fun i s =>
                  match chunks !! Z.of_nat i with
                  | Some Auto => blocks s 1
                  | Some (Edge c) => if c =? -1 then [s] else blocks s c
                  | None => [s]
                  end) shape)
  end.

Definition uint8 : dtype := {| dtype_name := "uint8"; itemsize := 1 |}.
Definition float32 : dtype := {| dtype_name := "float32"; itemsize := 4 |}.

(** A (3, 4) scan of 60 x 60 patterns, stored in two chunks along the first
    navigation axis. *)
Definition scan_3x4 : dask_array :=
  {| chunks := [[2; 1]; [4]; [60]; [60]]; array_dtype := uint8 |}.

(** A (2, 2) scan of 10 x 10 patterns in one chunk. *)
Definition scan_2x2 : dask_array :=
  {| chunks := [[2]; [2]; [10]; [10]]; array_dtype := uint8 |}.

(** Component patterns and loadings of a decomposition: 3600 detector
    pixels and 10000 scan points by 100 components, as [float32]. *)
Definition factors_100 : ndarray := {| nd_shape := [3600; 100]; nd_itemsize := 4 |}.
Definition loadings_100 : ndarray := {| nd_shape := [10000; 100]; nd_itemsize := 4 |}.

Definition no_writer (format : string) : string -> signal -> gmap string pyval -> result unit :=
  fun _ _ _ => Raise (Exn AttributeError (NoAttribute format "file_writer")).

(** One 60 x 60 pattern record with the metadata of an EBSD scan. *)
Definition ebsd_metadata (record_by : option pyval) : gmap string pyval :=
  let sig := <["signal_type" := PStr "EBSD"]> ∅ in
  let sig := match record_by with Some v => <["record_by" := v]> sig | None => sig end in
  <["Signal" := PDict sig]> (<["General" := PDict (<["title" := PStr "patterns"]> ∅)]> ∅).

Definition ebsd_record (record_by : option pyval) : signal_dict :=
  {| sd_data := Some {| array_dtype_name := "uint8"; array_shape := [3; 3; 60; 60] |};
     sd_metadata := Some (ebsd_metadata record_by);
     sd_original_metadata := Some ∅ |}.

(** The plugin of [plugins/emsoft_ecp_master_pattern.py]; what its reader
    parses is outside the model. *)
Definition emsoft_ecp_master_pattern : plugin :=
  {| format_name := "emsoft_ecp_master_pattern";
     file_extensions := ["h5"; "hdf5"];
     default_extension := 0;
     writes := WritesFalse;
     footprint := Some ["emdata/ecpmaster"];
     manufacturer := None;
     file_reader := fun _ _ _ => Ok [];
     file_writer := no_writer "emsoft_ecp_master_pattern" |}.

(** Modelled from the spec: the plugin module [kikuchipy_h5ebsd], the
    system's own container format, is not among the sources. It reads and
    writes [h5] files of signals with two signal dimensions, and its files
    carry a manufacturer marker used for self-identification. *)
Definition kikuchipy_h5ebsd : plugin :=
  {| format_name := "kikuchipy_h5ebsd";
     file_extensions := ["h5"; "hdf5"; "h5ebsd"];
     default_extension := 0;
     writes := WritesShapes [(2, 2); (2, 1); (2, 0)];
     footprint := Some ["manufacturer"; "version"];
     manufacturer := Some "kikuchipy";
     file_reader := fun _ _ _ => Ok [ebsd_record (Some (PStr "image"))];
     file_writer := fun _ _ _ => Ok () |}.

Definition plugins : list plugin := [emsoft_ecp_master_pattern; kikuchipy_h5ebsd].

(** The example of the specification: a plugin that declares the footprint
    [["a/b", "c"]], and a container that has only [a/b]. *)
Definition two_paths : plugin :=
  {| format_name := "two_paths";
     file_extensions := ["h5"];
     default_extension := 0;
     writes := WritesFalse;
     footprint := Some ["a/b"; "c"];
     manufacturer := None;
     file_reader := fun _ _ _ => Ok [];
     file_writer := no_writer "two_paths" |}.
Definition only_a_b : list (string * h5obj) :=
  [ ("A", H5Group [("B", H5Dataset (HNumber 0))]) ].
Definition a_b_and_c : list (string * h5obj) :=
  [ ("A", H5Group [("B", H5Dataset (HNumber 0))]); ("C", H5Dataset (HNumber 0)) ].

(** Two of the registered signal classes, as the tests name them. *)
Definition EBSD : signal_class :=
  {| class_name := "EBSD"; _lazy := false; _dtype := "real"; _signal_dimension := 2;
     _signal_type := "EBSD"; _alias_signal_types := ["electron_backscatter_diffraction"] |}.
Definition LazyEBSD : signal_class :=
  {| class_name := "LazyEBSD"; _lazy := true; _dtype := "real"; _signal_dimension := 2;
     _signal_type := "EBSD"; _alias_signal_types := ["electron_backscatter_diffraction"] |}.

Definition subclasses : list signal_class := [EBSD; LazyEBSD].

(** A (3, 3) scan of 60 x 60 patterns held in memory, not yet saved. *)
Definition ebsd_signal : signal :=
  {| signal_cls := EBSD;
     signal_args := ebsd_record None;
     made_lazy := false;
     am_signal_dimension := 2;
     am_navigation_dimension := 2;
     tmp := {| folder := None; filename_of := None; extension := None |} |}.

(** Three HDF5 files: an empty container, a kikuchipy file that also holds
    the EMsoft group, and a file with half of the kikuchipy footprint. *)
Definition empty_h5 : list (string * h5obj) := [].
Definition marked_h5 : list (string * h5obj) :=
  [ ("EMData", H5Group [("ECPmaster", H5Group [])]);
    ("manufacturer", H5Dataset (HArray [HBytes "kikuchipy"]));
    ("Scan 1", H5Group []) ].
Definition partial_h5 : list (string * h5obj) :=
  [ ("Version", H5Dataset (HStr "0.1")) ].

(** A file system holding these files and a renamed one, and a user who
    declines every question. *)
Definition files : list string :=
  ["/data/empty.h5"; "/data/marked.h5"; "/data/partial.h5"; "/data/unsupported.h4"].

Definition os : os_env :=
  {| isfile := fun f => str_in f files;
     glob := fun _ => [];
     is_hdf5 := fun f => str_in f files;
     h5py_File := fun f =>
       if String.eqb f "/data/empty.h5" then Ok empty_h5
       else if String.eqb f "/data/marked.h5" then Ok marked_h5
       else if String.eqb f "/data/partial.h5" then Ok partial_h5
       else Raise (Exn IOError (Other "unable to open file"));
     abspath := fun p => p;
     _get_input_bool := fun _ => false;
     overwrite_method := fun f => negb (str_in f files) |}.

End Samples.

(** ** signals/util/_dask.py: arrays of signals and of learning results *)

Module Lazy.
Import Dask.

(** [signal.data]: a NumPy array in memory, or a Dask array. *)
Inductive signal_array :=
  | InMemory (shape : list Z) (dtype : dtype)
  | OnDask (a : dask_array).

(** What [get_dask_array] reads of a signal. *)
Record signal := {
  data : signal_array;
  is_lazy : bool;
  nav_dimension : Z;
  sig_dimension : Z
}.

(** The keyword arguments [get_dask_array] pops: the truth value of
    [rechunk] (absent: [False]), [chunk_shape] and [chunk_bytes]
    (absent: [None] here, what the default is decided at the use). *)
Record chunk_kwargs := {
  kw_rechunk : bool;
  kw_chunk_shape : option Z;
  kw_chunk_bytes : option byte_limit
}.

Definition dtype_of (x : signal_array) : dtype :=
  match x with InMemory _ dt => dt | OnDask a => array_dtype a end.

(** [x.astype(dtype)] *)
Definition astype (x : signal_array) (dt : dtype) : signal_array :=
  match x with
  | InMemory s _ => InMemory s dt
  | OnDask a => OnDask {| chunks := chunks a; array_dtype := dt |}
  end.

(** Dask accepts a chunk tuple for an array when the blocks of every axis
    add up to the extent of the axis, and raises a [ValueError] otherwise. *)
Definition with_chunks (shape : list Z) (dt : dtype) (new_chunks : list (list Z))
  : result dask_array :=
  if bool_decide ((foldr Z.add 0 <$> new_chunks) = shape)
  then Ok {| chunks := new_chunks; array_dtype := dt |}
  else Raise (Exn ValueError (Other "chunks do not add up to shape")).

(** The signal as [get_chunking] reads it. *)
Definition as_signal_data (s : signal) (shape : list Z) (dt : dtype) : signal_data :=
  {| data_shape_of := shape; data_dtype := dt;
     navigation_dimension := nav_dimension s; signal_dimension := sig_dimension s |}.

Section Arrays.

Variable normalize_chunks :
  gmap Z chunk_directive -> option (list Z) -> byte_limit -> dtype ->
  result (list (list Z)).

(** [_reduce_chunks] for a [chunk_bytes] of any type: a number goes the way
    of [_reduce_chunks]; anything else fails in the comparison of the
    two-axes case and is handed to Dask as the limit otherwise. *)
Definition reduce_chunks_with (a : dask_array) (chunk_bytes : byte_limit)
    (dtype_out : dtype) : result (list (list Z)) :=
  match chunk_bytes with
  | LimNum q => _reduce_chunks normalize_chunks a q dtype_out
  | _ =>
      if Z.of_nat (length (all_but_last 2 (chunksize a))) =? 2
      then Raise (Exn TypeError (Other "'<' not supported between these types"))
      else
        chunks_dict ← _reduce_chunks_dict a 0;
        new ← normalize_chunks chunks_dict (Some (shape a)) chunk_bytes dtype_out;
        for_each (pick_chunks chunks_dict (chunks a) new)
                 (py_range 0 (Z.of_nat (length (chunksize a))))
  end.

Definition get_dask_array (signal : signal) (dtype : option dtype)
    (kwargs : chunk_kwargs) : result signal_array :=
  let dtype := match dtype with None => dtype_of (data signal) | Some d => d end in
  dask_array ←
    match data signal with
    | OnDask a =>
        if kw_rechunk kwargs then
          new_chunks ← reduce_chunks_with a
                         (default (LimNum 8000000) (kw_chunk_bytes kwargs)) dtype;
          a' ← with_chunks (shape a) (array_dtype a) new_chunks;
          Ok (OnDask a')
        else Ok (OnDask a)
    | InMemory s dt =>
        if is_lazy signal then
          if kw_rechunk kwargs
          then Raise (Exn AttributeError (NoAttribute "numpy.ndarray" "chunksize"))
          else Ok (InMemory s dt)
        else
          chunks ← get_chunking normalize_chunks (Some (as_signal_data signal s dt))
                     None None None (kw_chunk_shape kwargs)
                     (default LimNone (kw_chunk_bytes kwargs)) (Some dtype);
          a ← with_chunks s dt chunks;
          Ok (OnDask a)
    end;
  Ok (astype dask_array dtype).

End Arrays.

(** *** Overlap between chunks *)

(** [l[:k]] *)
Definition py_take {A} (k : Z) (l : list A) : list A :=
  if k <? 0 then take (length l - Z.to_nat (- k)) l else take (Z.to_nat k) l.

(** [~np.equal(a, b)] on two tuples of ints, with NumPy's broadcasting of a
    tuple of length one. *)
Definition np_not_equal (a b : list Z) : result (list bool) :=
  if (length a =? length b)%nat
  then Ok (zip_with (fun x y => negb (x =? y)) a b)
  else match a, b with
       | [x], _ => Ok ((fun y => negb (x =? y)) <$> b)
       | _, [y] => Ok ((fun x => negb (x =? y)) <$> a)
       | _, _ => Raise (Exn ValueError (Other "operands could not be broadcast together"))
       end.

(** The dict comprehension over [enumerate(window.n_neighbours)]. *)
Fixpoint overlap_loop (is_chunked : list bool) (i : Z) (n_neighbours : list Z)
    (overlap_depth : gmap Z Z) : result (gmap Z Z) :=
  match n_neighbours with
  | [] => Ok overlap_depth
  | n :: rest =>
      c ← py_index is_chunked i;
      overlap_loop is_chunked (i + 1) rest
                   (if c : bool then <[i := n]> overlap_depth else overlap_depth)
  end.

(** [window] is read for its [n_neighbours], [axes_manager] for its signal
    dimension and its navigation shape. *)
Definition _get_chunk_overlap_depth (n_neighbours : list Z) (signal_dimension : Z)
    (navigation_shape : list Z) (chunksize : list Z) : result (gmap Z Z) :=
  let sig_dim := signal_dimension in
  let nav_shape := reverse navigation_shape in
  is_chunked ← np_not_equal (py_take (- sig_dim) chunksize) nav_shape;
  overlap_loop is_chunked 0 n_neighbours ∅.

(** *** Learning results *)

(** The [components] argument: [None], an int, or a list of ints. *)
Inductive components :=
  | AllComponents
  | FirstComponents (n : Z)
  | TheseComponents (l : list Z).

(** A factors or loadings array: NumPy or Dask, and the chunks handed to its
    [rechunk], if that was called. *)
Record learning_array := {
  la_array : ndarray;
  la_dask : bool;
  la_rechunked : option (Z * Z)
}.

(** The length of [range(n)[:stop]] *)
Definition slice_length (n : Z) (stop : option Z) : Z :=
  match stop with
  | None => n
  | Some c => if c <? 0 then Z.max (n + c) 0 else Z.min c n
  end.

(** [a[:, components]] or [a[:, :components]]: the shape afterwards. *)
Definition keep_components (shape : list Z) (components : components)
  : result (list Z) :=
  match shape with
  | d0 :: d1 :: rest =>
      match components with
      | AllComponents => Ok (d0 :: slice_length d1 None :: rest)
      | FirstComponents c => Ok (d0 :: slice_length d1 (Some c) :: rest)
      | TheseComponents l =>
          if forallb (fun i => (- d1 <=? i) && (i <? d1)) l
          then Ok (d0 :: Z.of_nat (length l) :: rest)
          else Raise (Exn IndexError (Other "index is out of bounds for axis 1"))
      end
  | _ => Raise (Exn IndexError (Other "too many indices for array"))
  end.

(** The type change and the selection of components, for one array. *)
Definition prepare (a : learning_array) (components : components) (dtype_out : dtype)
  : result learning_array :=
  s ← keep_components (nd_shape (la_array a)) components;
  Ok {| la_array := {| nd_shape := s; nd_itemsize := itemsize dtype_out |};
        la_dask := la_dask a; la_rechunked := la_rechunked a |}.

Definition rechunked (a : learning_array) (chunks : Z * Z) : learning_array :=
  {| la_array := la_array a; la_dask := la_dask a; la_rechunked := Some chunks |}.

(** [None] when the loop of [_rechunk_learning_results] outlasts [fuel]. *)
Definition _update_learning_results (fuel : nat) (factors loadings : learning_array)
    (components : components) (dtype_out : dtype)
  : option (result (learning_array * learning_array)) :=
  match prepare factors components dtype_out with
  | Raise e => Some (Raise e)
  | Ok factors =>
      match prepare loadings components dtype_out with
      | Raise e => Some (Raise e)
      | Ok loadings =>
          if la_dask factors && la_dask loadings then
            match _rechunk_learning_results fuel (la_array factors) (la_array loadings)
                                            100 with
            | None => None
            | Some (Raise e) => Some (Raise e)
            | Some (Ok chunks) =>
                Some (c0 ← py_index chunks 0;
                      c1 ← py_index chunks 1;
                      Ok (rechunked factors c0, rechunked loadings c1))
            end
          else Some (Ok (factors, loadings))
      end
  end.

End Lazy.

(** ** io/_io.py: the extensions of the writers *)

Module Registry.
Import IO.

(** The loop that fills the module-level set [default_write_ext]. *)
Fixpoint default_write_ext_from (plugins : list plugin) (acc : gset string)
  : result (gset string) :=
  match plugins with
  | [] => Ok acc
  | plugin :: rest =>
      if writes_truthy plugin then
        e ← py_index (file_extensions plugin) (default_extension plugin);
        default_write_ext_from rest ({[ e ]} ∪ acc)
      else default_write_ext_from rest acc
  end.

Definition default_write_ext (plugins : list plugin) : result (gset string) :=
  default_write_ext_from plugins ∅.

End Registry.

(** ** More concrete instances *)

Module MoreSamples.
Import Dask IO.

(** An EDAX file that also holds the EMsoft group, and a file whose
    manufacturer entry is a number. *)
Definition edax_h5 : list (string * h5obj) :=
  [ ("Manufacturer", H5Dataset (HBytes "EDAX"));
    ("EMData", H5Group [("ECPmaster", H5Group [])]) ].
Definition numbered_h5 : list (string * h5obj) :=
  [ ("Manufacturer", H5Dataset (HNumber 7)) ].

(** A file with the two footprint paths [a/b] and [c], and with a dataset
    where EMsoft files have the group [EMData]. *)
Definition dataset_in_the_way : list (string * h5obj) :=
  [ ("EMData", H5Dataset (HNumber 0));
    ("A", H5Group [("B", H5Dataset (HNumber 0))]);
    ("C", H5Dataset (HNumber 0)) ].

(** The file system of [Samples.os] where every HDF5 file has the content
    [f]. *)
Definition os_holding (f : list (string * h5obj)) : os_env :=
  {| isfile := isfile Samples.os;
     glob := glob Samples.os;
     is_hdf5 := is_hdf5 Samples.os;
     h5py_File := fun _ => Ok f;
     abspath := abspath Samples.os;
     _get_input_bool := _get_input_bool Samples.os;
     overwrite_method := overwrite_method Samples.os |}.

(** The EBSD signal as [load] returns it from [/data/marked.h5]. *)
Definition loaded_signal : IO.signal :=
  set_tmp Samples.ebsd_signal
          {| folder := Some "/data"; filename_of := Some "marked";
             extension := Some "h5" |}.

(** The sample scan as a lazy signal and as a signal in memory. *)
Definition lazy_scan : Lazy.signal :=
  {| Lazy.data := Lazy.OnDask Samples.scan_3x4; Lazy.is_lazy := true;
     Lazy.nav_dimension := 2; Lazy.sig_dimension := 2 |}.
Definition memory_scan : Lazy.signal :=
  {| Lazy.data := Lazy.InMemory [3; 4; 60; 60] Samples.uint8; Lazy.is_lazy := false;
     Lazy.nav_dimension := 2; Lazy.sig_dimension := 2 |}.

Definition no_kwargs : Lazy.chunk_kwargs :=
  {| Lazy.kw_rechunk := false; Lazy.kw_chunk_shape := None;
     Lazy.kw_chunk_bytes := None |}.
Definition rechunk_kwargs : Lazy.chunk_kwargs :=
  {| Lazy.kw_rechunk := true; Lazy.kw_chunk_shape := None;
     Lazy.kw_chunk_bytes := None |}.
Definition chunk_shape_2 : Lazy.chunk_kwargs :=
  {| Lazy.kw_rechunk := false; Lazy.kw_chunk_shape := Some 2;
     Lazy.kw_chunk_bytes := None |}.

(** The sample decomposition as lazy learning results. *)
Definition lazy_factors : Lazy.learning_array :=
  {| Lazy.la_array := Samples.factors_100; Lazy.la_dask := true;
     Lazy.la_rechunked := None |}.
Definition lazy_loadings : Lazy.learning_array :=
  {| Lazy.la_array := Samples.loadings_100; Lazy.la_dask := true;
     Lazy.la_rechunked := None |}.

(** Its first ten components as [float32], with the chunks asked for. *)
Definition ten_factors : Lazy.learning_array :=
  {| Lazy.la_array := {| nd_shape := [3600; 10]; nd_itemsize := 4 |};
     Lazy.la_dask := true; Lazy.la_rechunked := Some (-1, -1) |}.
Definition ten_loadings : Lazy.learning_array :=
  {| Lazy.la_array := {| nd_shape := [10000; 10]; nd_itemsize := 4 |};
     Lazy.la_dask := true; Lazy.la_rechunked := Some (10000, -1) |}.

End MoreSamples.

(** * Properties *)

Import Dask IO.

(** ** Comparisons of budgets *)

Lemma Qlt_b_true (x y : Q) : Qlt_b x y = true <-> (x < y)%Q.
Proof.
  unfold Qlt_b. rewrite negb_true_iff. split.
  - intros H. apply Qnot_le_lt. intros Hle. apply Qle_bool_iff in Hle. congruence.
  - intros H. destruct (Qle_bool y x) eqn:E; [|done].
    apply Qle_bool_iff in E. exfalso. eapply Qlt_not_le; eauto.
Qed.

Lemma Qlt_b_false (x y : Q) : Qlt_b x y = false <-> (y <= x)%Q.
Proof. unfold Qlt_b. rewrite negb_false_iff. apply Qle_bool_iff. Qed.

Lemma suggested_size_pos (mbytes_chunk : Q) :
  (0 < mbytes_chunk)%Q -> (0 < suggested_size mbytes_chunk)%Q.
Proof.
  intros H. unfold suggested_size.
  apply Qmult_lt_0_compat; [exact H | reflexivity].
Qed.

(** ** The decomposition chunk balancer *)

(** While the loop runs under a positive budget, a pass takes at least one
    byte off the slack. *)
Lemma halve_larger_slack (suggested_size : Q) (sizes : num * num) :
  (0 < suggested_size)%Q ->
  Qlt_b (inject_Z (num_val sizes.1 + num_val sizes.2)) suggested_size = false ->
  (S (slack (halve_larger sizes)) <= slack sizes)%nat.
Proof.
  intros Hpos Hge. apply Qlt_b_false in Hge.
  assert (Hsum : 0 < num_val sizes.1 + num_val sizes.2).
  { pose proof (Qlt_le_trans _ _ _ Hpos Hge) as H.
    unfold Qlt, inject_Z in H. simpl in H. lia. }
  destruct sizes as [s0 s1]. unfold halve_larger, slack. simpl in *.
  destruct (Z.leb_spec (num_val s1) (num_val s0)); simpl.
  - pose proof (Z.div_lt (num_val s0) 2). pose proof (Z.div_pos (num_val s0) 2). lia.
  - pose proof (Z.div_lt (num_val s1) 2). pose proof (Z.div_pos (num_val s1) 2). lia.
Qed.

Lemma halve_loop_enough (suggested_size : Q) (fuel : nat) :
  (0 < suggested_size)%Q ->
  forall sizes, (slack sizes <= fuel)%nat ->
  exists sizes', halve_loop fuel suggested_size sizes = Some sizes'
                 /\ below suggested_size sizes'.
Proof.
  intros Hpos. induction fuel as [|fuel IH]; intros sizes Hfuel; simpl.
  - destruct (Qlt_b _ _) eqn:E.
    + exists sizes. split; [done|]. by apply Qlt_b_true.
    + pose proof (halve_larger_slack _ _ Hpos E). lia.
  - destruct (Qlt_b _ _) eqn:E.
    + exists sizes. split; [done|]. by apply Qlt_b_true.
    + apply IH. pose proof (halve_larger_slack _ _ Hpos E). lia.
Qed.

(** More fuel does not change a finished run. *)
Lemma halve_loop_more (suggested_size : Q) (fuel : nat) :
  forall sizes sizes', halve_loop fuel suggested_size sizes = Some sizes' ->
  halve_loop (S fuel) suggested_size sizes = Some sizes'.
Proof.
  induction fuel as [|fuel IH]; intros sizes sizes'.
  - simpl. destruct (Qlt_b _ _); [done | discriminate].
  - intros H. simpl in H.
    change (halve_loop (S (S fuel)) suggested_size sizes)
      with (if Qlt_b (inject_Z (num_val sizes.1 + num_val sizes.2)) suggested_size
            then Some sizes
            else halve_loop (S fuel) suggested_size (halve_larger sizes)).
    destruct (Qlt_b _ _); [done|]. by apply IH.
Qed.

Lemma halve_loop_le (suggested_size : Q) (fuel fuel' : nat) sizes sizes' :
  (fuel <= fuel')%nat ->
  halve_loop fuel suggested_size sizes = Some sizes' ->
  halve_loop fuel' suggested_size sizes = Some sizes'.
Proof.
  induction 1 as [|fuel' _ IH]; [done|].
  intros H. apply halve_loop_more, IH, H.
Qed.

(** Once the loop finishes, the function returns or raises. *)
Lemma rechunk_returns (fuel : nat) (factors loadings : ndarray) (mbytes_chunk : Q) sizes :
  halve_loop fuel (suggested_size mbytes_chunk) (start_sizes factors loadings) = Some sizes ->
  exists r, _rechunk_learning_results fuel factors loadings mbytes_chunk = Some r.
Proof.
  intros H. unfold _rechunk_learning_results.
  destruct (py_index (nd_shape factors) (-1)); [|eauto].
  destruct (py_index (nd_shape loadings) (-1)); [|eauto].
  destruct (negb _); [eauto|].
  destruct (Qeq_bool _ _); [eauto|].
  destruct (Qle_bool _ _); [eauto|].
  rewrite H. eauto.
Qed.

(** C9. Under a strictly positive megabyte budget the loop of
    [_rechunk_learning_results] that floor-halves the larger of the two byte
    sizes ends: with as many passes as the start sizes have bytes, and with
    any larger number, it stops in one and the same state, where the two
    sizes sum to less than the budget, and the function then returns or
    raises. This holds for every pair of arrays, so also for those with equal
    trailing extents. *)
Theorem rechunk_loop_terminates (factors loadings : ndarray) (mbytes_chunk : Q) :
  (0 < mbytes_chunk)%Q ->
  exists sizes,
    below (suggested_size mbytes_chunk) sizes
    /\ forall fuel, (slack (start_sizes factors loadings) <= fuel)%nat ->
         halve_loop fuel (suggested_size mbytes_chunk) (start_sizes factors loadings)
           = Some sizes
         /\ exists r, _rechunk_learning_results fuel factors loadings mbytes_chunk = Some r.
Proof.
  intros Hpos. apply suggested_size_pos in Hpos.
  destruct (halve_loop_enough _ _ Hpos (start_sizes factors loadings) (le_n _))
    as (sizes & Hrun & Hbelow).
  exists sizes. split; [exact Hbelow|].
  intros fuel Hfuel.
  pose proof (halve_loop_le _ _ _ _ _ Hfuel Hrun) as Hrun'.
  split; [exact Hrun'|]. eapply rechunk_returns, Hrun'.
Qed.

Lemma rechunk_loop_terminates_witness :
  (0 < 1)%Q
  /\ exists sizes,
       below (suggested_size 1) sizes
       /\ forall fuel,
            (slack (start_sizes Samples.factors_100 Samples.loadings_100) <= fuel)%nat ->
            halve_loop fuel (suggested_size 1)
              (start_sizes Samples.factors_100 Samples.loadings_100) = Some sizes
            /\ exists r, _rechunk_learning_results fuel Samples.factors_100
                           Samples.loadings_100 1 = Some r.
Proof.
  split; [reflexivity|].
  apply (rechunk_loop_terminates Samples.factors_100 Samples.loadings_100 1).
  reflexivity.
Defined.

(** The run of the balancer on the sample decomposition: five passes of the
    loop, then 4 and 8 pieces. *)
Example rechunk_sample :
  _rechunk_learning_results 5 Samples.factors_100 Samples.loadings_100 1
  = Some (Ok [(900, -1); (1250, -1)]).
Proof. vm_compute. reflexivity. Qed.

(** A budget of zero is never met: the loop spends whatever fuel it gets. *)
Lemma halve_loop_zero_budget (fuel : nat) (s0 s1 : num) :
  0 <= num_val s0 -> 0 <= num_val s1 ->
  halve_loop fuel 0 (s0, s1) = None.
Proof.
  revert s0 s1. induction fuel as [|fuel IH]; intros s0 s1 H0 H1; simpl.
  - destruct (Qlt_b _ _) eqn:E; [|done].
    apply Qlt_b_true in E. unfold Qlt, inject_Z in E. simpl in E. lia.
  - destruct (Qlt_b _ _) eqn:E.
    + apply Qlt_b_true in E. unfold Qlt, inject_Z in E. simpl in E. lia.
    + unfold halve_larger. destruct (Z.leb_spec (num_val s1) (num_val s0)).
      * apply IH; simpl; [apply Z.div_pos; lia | done].
      * apply IH; simpl; [done | apply Z.div_pos; lia].
Qed.

(** ** Ranges, dicts and loops *)

Lemma elem_of_py_range (a b k : Z) : k ∈ py_range a b <-> a <= k < b.
Proof.
  unfold py_range. rewrite list_elem_of_fmap. split.
  - intros (i & -> & Hi). apply elem_of_seq in Hi. lia.
  - intros H. exists (Z.to_nat (k - a)). split; [lia|]. apply elem_of_seq. lia.
Qed.

Lemma lookup_py_range (a b : Z) (i : nat) :
  Z.of_nat i < b - a -> py_range a b !! i = Some (a + Z.of_nat i).
Proof.
  intros H. unfold py_range. rewrite list_lookup_fmap, lookup_seq_lt; [done | lia].
Qed.

Lemma lookup_set_all {V} (v : V) (keys : list Z) (d : gmap Z V) (k : Z) :
  set_all v keys d !! k = if decide (k ∈ keys) then Some v else d !! k.
Proof.
  unfold set_all. revert d. induction keys as [|x keys IH]; intros d; cbn [foldl].
  - rewrite decide_False; [done | apply not_elem_of_nil].
  - rewrite IH. destruct (decide (k ∈ keys)) as [Hin|Hnin].
    + rewrite decide_True; [done | by right].
    + destruct (decide (k = x)) as [->|Hne].
      * rewrite lookup_insert_eq, decide_True; [done | by left].
      * rewrite lookup_insert_ne by done.
        rewrite decide_False; [done|]. intros Hin. apply elem_of_cons in Hin. tauto.
Qed.

Lemma py_index_nat {A} (l : list A) (i : nat) (x : A) :
  py_index l (Z.of_nat i) = Ok x <-> l !! i = Some x.
Proof.
  unfold py_index.
  destruct (Z.ltb_spec (Z.of_nat i) 0) as [?|_]; [lia|].
  destruct (Z.leb_spec 0 (Z.of_nat i)) as [_|?]; [|lia]. simpl.
  rewrite Nat2Z.id.
  destruct (Z.ltb_spec (Z.of_nat i) (Z.of_nat (length l))) as [Hlt|Hge].
  - destruct (l !! i) eqn:E; split; intros H; try congruence.
  - rewrite (lookup_ge_None_2 l i) by lia. split; intros H; discriminate.
Qed.

Lemma for_each_lookup {A B} (f : A -> result B) (l : list A) (r : list B) :
  for_each f l = Ok r ->
  forall i x, l !! i = Some x -> exists y, f x = Ok y /\ r !! i = Some y.
Proof.
  revert r. induction l as [|a l IH]; intros r H i x Hi; [done|].
  simpl in H. unfold mbind, result_bind, bind in H.
  destruct (f a) as [y|e] eqn:Ea; [|discriminate].
  destruct (for_each f l) as [ys|e] eqn:El; [|discriminate].
  inversion H; subst r. destruct i as [|i]; simpl in *.
  - inversion Hi; subst. eauto.
  - eapply IH; eauto.
Qed.

Lemma for_each_length {A B} (f : A -> result B) (l : list A) (r : list B) :
  for_each f l = Ok r -> length r = length l.
Proof.
  revert r. induction l as [|a l IH]; intros r H; simpl in H.
  - by inversion H.
  - unfold mbind, result_bind, bind in H.
    destruct (f a); [|discriminate]. destruct (for_each f l); [|discriminate].
    inversion H; subst. simpl. f_equal. by apply IH.
Qed.

Lemma result_bind_ok {A B} (m : result A) (k : A -> result B) (a : A) :
  m = Ok a -> (m ≫= k) = k a.
Proof. by intros ->. Qed.

Ltac in_range := rewrite elem_of_py_range; lia.


(** ** The chunk planner *)

Lemma get_chunking_dict_signal (nav_dim sig_dim : Z) (chunk_shape : option Z) (k : Z) :
  nav_dim <= k < nav_dim + sig_dim ->
  get_chunking_dict nav_dim sig_dim chunk_shape !! k = Some whole.
Proof.
  intros H. unfold get_chunking_dict. rewrite lookup_set_all.
  rewrite decide_True; [done | by apply elem_of_py_range].
Qed.

Lemma get_chunking_dict_nav (nav_dim sig_dim : Z) (chunk_shape : option Z) (k : Z) :
  0 <= k < nav_dim ->
  get_chunking_dict nav_dim sig_dim chunk_shape !! k
  = Some (match chunk_shape with None => Auto | Some c => Edge c end).
Proof.
  intros H. unfold get_chunking_dict. rewrite !lookup_set_all.
  rewrite decide_False by (rewrite elem_of_py_range; lia).
  rewrite decide_True; [done | by apply elem_of_py_range].
Qed.

Section ChunkPlanner.

Variable normalize_chunks :
  gmap Z chunk_directive -> option (list Z) -> byte_limit -> dtype ->
  result (list (list Z)).

(** Dask's contract for an axis whose entry is [-1]: the result holds that
    axis in one block of its full extent. *)
Hypothesis normalize_whole :
  forall chunks_dict shape limit dtype chunks (i : nat) (n : Z),
    normalize_chunks chunks_dict (Some shape) limit dtype = Ok chunks ->
    chunks_dict !! Z.of_nat i = Some (Edge (-1)) ->
    shape !! i = Some n ->
    chunks !! i = Some [n].

(** C8. Whatever the shape, the split into navigation and signal axes, the
    data type and the chunk shape or byte budget, a chunk tuple that
    [get_chunking] returns holds every signal axis, that is every axis [i]
    with [nav_dim <= i < nav_dim + sig_dim], in a single block of the full
    extent of the axis. The planner gives these axes the entry [-1]; that
    Dask resolves [-1] to one block is the contract [normalize_whole]. *)
Theorem get_chunking_signal_axes_whole
    (signal : option signal_data) (data_shape : option (list Z))
    (nav_dim sig_dim chunk_shape : option Z) (chunk_bytes : byte_limit)
    (dtype : option dtype) (chunks : list (list Z)) :
  get_chunking normalize_chunks signal data_shape nav_dim sig_dim chunk_shape
               chunk_bytes dtype = Ok chunks ->
  exists nav sig,
    from_signal navigation_dimension signal nav_dim = Some nav
    /\ from_signal signal_dimension signal sig_dim = Some sig
    /\ forall shape (i : nat) (n : Z),
         from_signal data_shape_of signal data_shape = Some shape ->
         nav <= Z.of_nat i < nav + sig ->
         shape !! i = Some n ->
         chunks !! i = Some [n].
Proof.
  unfold get_chunking. intros H.
  unfold mbind, result_bind, bind in H.
  destruct (match dtype with Some d => _ | None => _ end) as [dt|]; [|discriminate].
  destruct (from_signal navigation_dimension signal nav_dim) as [nav|]; [|discriminate].
  destruct (from_signal signal_dimension signal sig_dim) as [sig|]; [|discriminate].
  exists nav, sig. split; [done|]. split; [done|].
  intros shape i n Hshape Hi Hn. rewrite Hshape in H.
  eapply normalize_whole; [exact H | | exact Hn].
  by apply get_chunking_dict_signal.
Qed.

End ChunkPlanner.

(** ** The rechunk planner *)

Section RechunkPlanner.

Variable normalize_chunks :
  gmap Z chunk_directive -> option (list Z) -> byte_limit -> dtype ->
  result (list (list Z)).

(** For an array of any rank: an axis that the plan leaves unchunked keeps
    its original chunk boundaries in the result. *)
Lemma reduce_chunks_reuses_old (a : dask_array) (chunk_bytes : Q) (dtype_out : dtype)
    (plan : gmap Z chunk_directive) (result : list (list Z)) :
  _reduce_chunks_dict a chunk_bytes = Ok plan ->
  _reduce_chunks normalize_chunks a chunk_bytes dtype_out = Ok result ->
  length result = length (chunks a)
  /\ forall i : nat, (i < length (chunks a))%nat ->
       plan !! Z.of_nat i = Some whole -> result !! i = chunks a !! i.
Proof.
  intros Hplan H. unfold _reduce_chunks in H. rewrite Hplan in H.
  unfold mbind, result_bind, bind in H.
  destruct (normalize_chunks _ _ _ _) as [new|]; [|discriminate].
  split.
  - apply for_each_length in H. rewrite H. unfold py_range, chunksize.
    rewrite !length_fmap, length_seq. lia.
  - intros i Hi Hwhole.
    destruct (for_each_lookup _ _ _ H i (Z.of_nat i)) as (y & Hy & Hr).
    { rewrite lookup_py_range; [done|]. unfold chunksize. rewrite length_fmap. lia. }
    unfold pick_chunks, py_getitem in Hy. rewrite Hwhole in Hy.
    unfold mbind, result_bind, bind in Hy. rewrite decide_True in Hy by done.
    apply py_index_nat in Hy. congruence.
Qed.

(** What the planner does where its own test holds. For an array with two
    navigation axes (rank 4): when [merge_fits] holds for the navigation axis
    with the smaller current chunk extent, the plan gives that axis and the
    signal axes the entry [-1] and leaves the other navigation axis
    automatic, Dask's normaliser balances under that plan and the budget, and
    the chunk tuple returned is the original one with only the balanced axis
    replaced. *)
Theorem reduce_chunks_forces_smaller_axis
    (a : dask_array) (chunk_bytes : Q) (dtype_out : dtype)
    (k0 k1 k2 k3 : list Z) (idx_min c : Z) :
  chunks a = [k0; k1; k2; k3] ->
  np_argmin (all_but_last 2 (chunksize a)) = Ok idx_min ->
  py_index (all_but_last 2 (chunksize a)) idx_min = Ok c ->
  merge_fits c (chunksize a) chunk_bytes = true ->
  exists plan,
    _reduce_chunks_dict a chunk_bytes = Ok plan
    /\ plan !! idx_min = Some whole
    /\ plan !! (1 - idx_min) = Some Auto
    /\ plan !! 2 = Some whole
    /\ plan !! 3 = Some whole
    /\ _reduce_chunks normalize_chunks a chunk_bytes dtype_out
       = (new ← normalize_chunks plan (Some (shape a)) (LimNum chunk_bytes) dtype_out;
          b ← py_index new (1 - idx_min);
          Ok (<[Z.to_nat (1 - idx_min) := b]> [k0; k1; k2; k3])).
Proof.
  intros Hk Hmin Hc Hfits.
  assert (Hcs : chunksize a = [foldr Z.max 0 k0; foldr Z.max 0 k1;
                               foldr Z.max 0 k2; foldr Z.max 0 k3]).
  { unfold chunksize. by rewrite Hk. }
  assert (Hidx : idx_min = 0 \/ idx_min = 1).
  { rewrite Hcs in Hmin. cbn in Hmin. destruct (_ <? _); inversion Hmin; auto. }
  assert (Hplan : _reduce_chunks_dict a chunk_bytes
                  = Ok (<[idx_min := whole]>
                          (set_all whole (py_range 2 4) (set_all Auto (py_range 0 2) ∅)))).
  { unfold _reduce_chunks_dict. rewrite Hcs in *. cbn [all_but_last length take Nat.sub] in *.
    change (Z.of_nat 2 =? 2) with true. cbv iota.
    rewrite (result_bind_ok _ _ _ Hmin), (result_bind_ok _ _ _ Hc), Hfits. done. }
  eexists. split; [exact Hplan|].
  split; [by rewrite lookup_insert_eq|].
  split.
  { rewrite lookup_insert_ne by lia. rewrite !lookup_set_all.
    rewrite decide_False by in_range. rewrite decide_True by in_range. done. }
  split.
  { rewrite lookup_insert_ne by lia. rewrite !lookup_set_all.
    rewrite decide_True by in_range. done. }
  split.
  { rewrite lookup_insert_ne by lia. rewrite !lookup_set_all.
    rewrite decide_True by in_range. done. }
  unfold _reduce_chunks. rewrite (result_bind_ok _ _ _ Hplan).
  destruct (normalize_chunks _ _ _ _) as [new|e]; [|done].
  cbn [mbind result_bind bind].
  rewrite Hcs, Hk. change (py_range 0 (Z.of_nat (length _))) with [0; 1; 2; 3].
  cbn [for_each]. unfold pick_chunks, py_getitem.
  destruct Hidx as [-> | ->].
  - rewrite lookup_insert_eq.
    rewrite !lookup_insert_ne by lia. rewrite !lookup_set_all.
    rewrite (decide_False (P := 1 ∈ py_range 2 4)) by in_range.
    rewrite (decide_True (P := 1 ∈ py_range 0 2)) by in_range.
    rewrite (decide_True (P := 2 ∈ py_range 2 4)) by in_range.
    rewrite (decide_True (P := 3 ∈ py_range 2 4)) by in_range.
    cbn.
    rewrite !(decide_True (P := whole = Edge (-1))) by done.
    rewrite (decide_False (P := Auto = Edge (-1))) by done.
    change (py_index [k0; k1; k2; k3] 0) with (Ok k0).
    change (py_index [k0; k1; k2; k3] 1) with (Ok k1).
    change (py_index [k0; k1; k2; k3] 2) with (Ok k2).
    change (py_index [k0; k1; k2; k3] 3) with (Ok k3).
    unfold mbind, result_bind, bind.
    change (1 - 0) with 1. by destruct (py_index new 1).
  - rewrite lookup_insert_eq.
    rewrite !lookup_insert_ne by lia. rewrite !lookup_set_all.
    rewrite (decide_False (P := 0 ∈ py_range 2 4)) by in_range.
    rewrite (decide_True (P := 0 ∈ py_range 0 2)) by in_range.
    rewrite (decide_True (P := 2 ∈ py_range 2 4)) by in_range.
    rewrite (decide_True (P := 3 ∈ py_range 2 4)) by in_range.
    cbn.
    rewrite !(decide_True (P := whole = Edge (-1))) by done.
    rewrite (decide_False (P := Auto = Edge (-1))) by done.
    change (py_index [k0; k1; k2; k3] 0) with (Ok k0).
    change (py_index [k0; k1; k2; k3] 1) with (Ok k1).
    change (py_index [k0; k1; k2; k3] 2) with (Ok k2).
    change (py_index [k0; k1; k2; k3] 3) with (Ok k3).
    unfold mbind, result_bind, bind.
    change (1 - 1) with 0. by destruct (py_index new 0).
Qed.

End RechunkPlanner.

(** The sample normaliser honours the contract for whole axes. *)
Lemma normalize_chunks_unit_whole
    (chunks_dict : gmap Z chunk_directive) (shape : list Z) (limit : byte_limit)
    (dtype : dtype) (chunks : list (list Z)) (i : nat) (n : Z) :
  Samples.normalize_chunks_unit chunks_dict (Some shape) limit dtype = Ok chunks ->
  chunks_dict !! Z.of_nat i = Some (Edge (-1)) ->
  shape !! i = Some n ->
  chunks !! i = Some [n].
Proof.
  intros H Hd Hn. unfold Samples.normalize_chunks_unit in H.
  inversion H; subst chunks.
  rewrite list_lookup_imap, Hn. simpl. by rewrite Hd.
Qed.

Lemma get_chunking_signal_axes_whole_witness :
  get_chunking Samples.normalize_chunks_unit None (Some [3; 4; 60; 60])
               (Some 2) (Some 2) (Some 2) (LimNum 30000000) (Some Samples.uint8)
  = Ok [[2; 1]; [2; 2]; [60]; [60]]
  /\ exists nav sig,
       from_signal navigation_dimension None (Some 2) = Some nav
       /\ from_signal signal_dimension None (Some 2) = Some sig
       /\ forall shape (i : nat) (n : Z),
            from_signal data_shape_of None (Some [3; 4; 60; 60]) = Some shape ->
            nav <= Z.of_nat i < nav + sig ->
            shape !! i = Some n ->
            [[2; 1]; [2; 2]; [60]; [60]] !! i = Some [n].
Proof.
  split; [vm_compute; reflexivity|].
  apply (get_chunking_signal_axes_whole Samples.normalize_chunks_unit
           normalize_chunks_unit_whole None (Some [3; 4; 60; 60])
           (Some 2) (Some 2) (Some 2) (LimNum 30000000) (Some Samples.uint8)).
  vm_compute. reflexivity.
Defined.

Lemma reduce_chunks_forces_smaller_axis_witness :
  chunks Samples.scan_3x4 = [[2; 1]; [4]; [60]; [60]]
  /\ np_argmin (all_but_last 2 (chunksize Samples.scan_3x4)) = Ok 0
  /\ py_index (all_but_last 2 (chunksize Samples.scan_3x4)) 0 = Ok 2
  /\ merge_fits 2 (chunksize Samples.scan_3x4) 8000000 = true
  /\ exists plan,
       _reduce_chunks_dict Samples.scan_3x4 8000000 = Ok plan
       /\ plan !! 0 = Some whole
       /\ plan !! (1 - 0) = Some Auto
       /\ plan !! 2 = Some whole
       /\ plan !! 3 = Some whole
       /\ _reduce_chunks Samples.normalize_chunks_unit Samples.scan_3x4 8000000
                         Samples.float32
          = (new ← Samples.normalize_chunks_unit plan (Some (shape Samples.scan_3x4))
                     (LimNum 8000000) Samples.float32;
             b ← py_index new (1 - 0);
             Ok (<[Z.to_nat (1 - 0) := b]> [[2; 1]; [4]; [60]; [60]])).
Proof.
  repeat (split; [vm_compute; reflexivity|]).
  apply (reduce_chunks_forces_smaller_axis Samples.normalize_chunks_unit
           Samples.scan_3x4 8000000 Samples.float32 [2; 1] [4] [60] [60] 0 2);
    vm_compute; reflexivity.
Defined.

(** The rechunking of the sample scan, with the sample normaliser in the
    place of Dask: the first navigation axis keeps its two original chunks,
    the second is the normaliser's. *)
Example reduce_chunks_sample :
  _reduce_chunks Samples.normalize_chunks_unit Samples.scan_3x4 8000000 Samples.float32
  = Ok [[2; 1]; [1; 1; 1; 1]; [60]; [60]].
Proof. vm_compute. reflexivity. Qed.

Lemma wrap64_small (z : Z) : - 2 ^ 63 <= z < 2 ^ 63 -> wrap64 z = z.
Proof.
  intros H. unfold wrap64. rewrite Z.mod_small; lia.
Qed.

Lemma wrap64_lt (z : Z) : wrap64 z < 2 ^ 63.
Proof.
  unfold wrap64. pose proof (Z.mod_pos_bound (z + 2 ^ 63) (2 ^ 64) ltac:(lia)). lia.
Qed.

Lemma max_le_sum (k : list Z) :
  Forall (fun x => 0 < x) k -> k <> [] ->
  1 <= foldr Z.max 0 k <= foldr Z.add 0 k.
Proof.
  induction 1 as [|x k Hx Hk IH]; [done|]. intros _. cbn [foldr].
  destruct k as [|y k']; [cbn; lia|].
  specialize (IH ltac:(done)). lia.
Qed.

(** For element widths of four bytes and more the condition of the
    specification implies the planner's test. *)
Lemma spec_condition_implies_test (a : dask_array) (dtype_out : dtype)
    (chunk_bytes : Q) (k0 k1 k2 k3 : list Z) (idx_min c bytes : Z) :
  chunks a = [k0; k1; k2; k3] ->
  Forall (fun k => k <> [] /\ Forall (fun x => 0 < x) k) [k0; k1; k2; k3] ->
  4 <= itemsize dtype_out ->
  np_argmin (all_but_last 2 (chunksize a)) = Ok idx_min ->
  py_index (all_but_last 2 (chunksize a)) idx_min = Ok c ->
  spec_merged_chunk_bytes a dtype_out = Ok bytes ->
  (inject_Z bytes < chunk_bytes)%Q ->
  merge_fits c (chunksize a) chunk_bytes = true.
Proof.
  intros Hk Hpos Hw Hmin Hc Hbytes Hlt.
  apply Forall_cons in Hpos as [[Hn0 Hp0] Hpos].
  apply Forall_cons in Hpos as [[Hn1 Hp1] Hpos].
  apply Forall_cons in Hpos as [[Hn2 Hp2] Hpos].
  apply Forall_cons in Hpos as [[Hn3 Hp3] _].
  pose proof (max_le_sum _ Hp0 Hn0) as B0. pose proof (max_le_sum _ Hp1 Hn1) as B1.
  pose proof (max_le_sum _ Hp2 Hn2) as B2. pose proof (max_le_sum _ Hp3 Hn3) as B3.
  unfold spec_merged_chunk_bytes in Hbytes.
  unfold merge_fits, chunksize, shape in *. rewrite Hk in *.
  cbn [fmap list_fmap all_but_last last_n length take drop Nat.sub] in *.
  set (m0 := foldr Z.max 0 k0) in *. set (m1 := foldr Z.max 0 k1) in *.
  set (m2 := foldr Z.max 0 k2) in *. set (m3 := foldr Z.max 0 k3) in *.
  set (s0 := foldr Z.add 0 k0) in *. set (s1 := foldr Z.add 0 k1) in *.
  rewrite Hmin in Hbytes. cbn [mbind result_bind bind] in Hbytes.
  assert (Hidx : idx_min = 0 /\ c = m0 /\ bytes = s0 * m1 * (m2 * (m3 * 1)) * itemsize dtype_out
                 \/ idx_min = 1 /\ c = m1 /\ bytes = s1 * m0 * (m2 * (m3 * 1)) * itemsize dtype_out).
  { cbn in Hmin. destruct (m1 <? m0); inversion Hmin; subst idx_min.
    - right. cbn in Hc, Hbytes. inversion Hc. inversion Hbytes. done.
    - left. cbn in Hc, Hbytes. inversion Hc. inversion Hbytes. done. }
  assert (HA : 1 <= m2 * m3) by nia.
  assert (Hle : 0 <= c * (m2 * m3) * 4 <= bytes /\ 1 <= c).
  { set (A := m2 * m3) in *.
    destruct Hidx as [(_ & -> & ->) | (_ & -> & ->)];
      replace (m2 * (m3 * 1)) with A by (unfold A; ring).
    - assert (m0 * A <= s0 * m1 * A) by (apply Z.mul_le_mono_nonneg_r; nia).
      assert (0 <= m0 * A) by nia. nia.
    - assert (m1 * A <= s1 * m0 * A) by (apply Z.mul_le_mono_nonneg_r; nia).
      assert (0 <= m1 * A) by nia. nia. }
  clear Hidx Hbytes Hc Hmin.
  apply Qlt_b_true. unfold np_prod. cbn [foldl]. rewrite Z.mul_1_l.
  destruct (Z_lt_ge_dec (c * (m2 * m3) * 4) (2 ^ 63)) as [Hs|Hb].
  - rewrite (wrap64_small m2) by nia.
    rewrite (wrap64_small (m2 * m3)) by nia.
    rewrite (wrap64_small (c * (m2 * m3))) by nia.
    rewrite (wrap64_small (c * (m2 * m3) * 4)) by nia.
    eapply Qle_lt_trans; [|exact Hlt]. rewrite <- Zle_Qle. lia.
  - eapply Qlt_trans; [|exact Hlt]. rewrite <- Zlt_Qlt.
    pose proof (wrap64_lt (wrap64 (c * wrap64 (wrap64 m2 * m3)) * 4)). lia.
Qed.

(** The scan of the tests as [float32], under a budget of 2000 bytes: the
    merged chunk has 1600 bytes and the test holds. *)
Example spec_condition_implies_test_sample :
  spec_merged_chunk_bytes Samples.scan_2x2 Samples.float32 = Ok 1600
  /\ merge_fits 2 (chunksize Samples.scan_2x2) 2000 = true.
Proof.
  split; [vm_compute; reflexivity|].
  apply (spec_condition_implies_test Samples.scan_2x2 Samples.float32 2000
           [2] [2] [10] [10] 0 2 1600); try (vm_compute; reflexivity).
  - repeat constructor; (discriminate || lia).
  - vm_compute. discriminate.
Qed.

(** The converse fails: the test can hold where the merged chunk is over
    the budget. For the sample scan as [float32] under 30000 bytes the test
    is 2 * 3600 * 4 = 28800 < 30000 and the first navigation axis is made
    whole, while the merged chunk has 3 * 4 * 3600 * 4 = 172800 bytes. *)
Example reduce_chunks_forced_over_budget :
  spec_merged_chunk_bytes Samples.scan_3x4 Samples.float32 = Ok 172800
  /\ merge_fits 2 (chunksize Samples.scan_3x4) 30000 = true
  /\ _reduce_chunks_dict Samples.scan_3x4 30000
     = Ok (<[0 := whole]> (set_all whole (py_range 2 4) (set_all Auto (py_range 0 2) ∅))).
Proof. repeat split; vm_compute; reflexivity. Qed.

(** C4. A (2, 2) scan of 10 x 10 [uint8] patterns in one chunk, rechunked
    for [uint8] output under a budget of 500 bytes. Merging the navigation
    axis with the smaller chunk extent into one block gives a chunk of
    2 * 2 * 10 * 10 * 1 = 400 bytes, under the budget. The planner does not
    force that axis: its test counts 4 bytes an element whatever [dtype_out]
    is, finds 2 * 100 * 4 = 800 < 500 false, and hands Dask ["auto"] for
    both navigation axes. The chunks returned for the two navigation axes
    are then Dask's, whatever Dask makes of the plan. *)
Theorem reduce_chunks_narrow_dtype_not_forced :
  spec_merged_chunk_bytes Samples.scan_2x2 Samples.uint8 = Ok 400
  /\ 400 < 500
  /\ np_argmin (all_but_last 2 (chunksize Samples.scan_2x2)) = Ok 0
  /\ py_index (all_but_last 2 (chunksize Samples.scan_2x2)) 0 = Ok 2
  /\ merge_fits 2 (chunksize Samples.scan_2x2) 500 = false
  /\ _reduce_chunks_dict Samples.scan_2x2 500
     = Ok (set_all whole (py_range 2 4) (set_all Auto (py_range 0 2) ∅))
  /\ forall normalize_chunks,
       _reduce_chunks normalize_chunks Samples.scan_2x2 500 Samples.uint8
       = (new ← normalize_chunks
                  (set_all whole (py_range 2 4) (set_all Auto (py_range 0 2) ∅))
                  (Some [2; 2; 10; 10]) (LimNum 500) Samples.uint8;
          b0 ← py_index new 0;
          b1 ← py_index new 1;
          Ok [b0; b1; [10]; [10]]).
Proof.
  split; [vm_compute; reflexivity|]. split; [lia|]. split; [vm_compute; reflexivity|].
  split; [vm_compute; reflexivity|]. split; [vm_compute; reflexivity|].
  assert (Hplan : _reduce_chunks_dict Samples.scan_2x2 500
                  = Ok (set_all whole (py_range 2 4) (set_all Auto (py_range 0 2) ∅)))
    by (vm_compute; reflexivity).
  split; [exact Hplan|]. intros normalize_chunks.
  unfold _reduce_chunks. rewrite Hplan. cbn [mbind result_bind bind].
  change (shape Samples.scan_2x2) with [2; 2; 10; 10].
  destruct (normalize_chunks _ _ _ _) as [new|e]; [|reflexivity].
  change (py_range 0 (Z.of_nat (length (chunksize Samples.scan_2x2)))) with [0; 1; 2; 3].
  cbn [for_each]. unfold pick_chunks, py_getitem.
  rewrite !lookup_set_all.
  rewrite (decide_False (P := 0 ∈ py_range 2 4)) by in_range.
  rewrite (decide_True (P := 0 ∈ py_range 0 2)) by in_range.
  rewrite (decide_False (P := 1 ∈ py_range 2 4)) by in_range.
  rewrite (decide_True (P := 1 ∈ py_range 0 2)) by in_range.
  rewrite (decide_True (P := 2 ∈ py_range 2 4)) by in_range.
  rewrite (decide_True (P := 3 ∈ py_range 2 4)) by in_range.
  cbn [mbind result_bind bind].
  rewrite !(decide_True (P := whole = Edge (-1))) by done.
  rewrite !(decide_False (P := Auto = Edge (-1))) by done.
  change (py_index (chunks Samples.scan_2x2) 2) with (Ok [10] : result (list Z)).
  change (py_index (chunks Samples.scan_2x2) 3) with (Ok [10] : result (list Z)).
  destruct (py_index new 0); [|reflexivity]. cbn [mbind result_bind bind].
  destruct (py_index new 1); reflexivity.
Qed.

(** ** Footprint matching *)

Lemma find_filter {A} (f g : A -> bool) (l : list A) :
  List.find f (List.filter g l) = List.find (fun x => g x && f x) l.
Proof.
  induction l as [|x l IH]; [done|]. simpl.
  destruct (g x); simpl; [by rewrite IH | done].
Qed.

Lemma find_ext {A} (f g : A -> bool) (l : list A) :
  (forall x, f x = g x) -> List.find f l = List.find g l.
Proof.
  intros H. induction l as [|x l IH]; [done|]. simpl. by rewrite H, IH.
Qed.

Lemma manufacturer_loop_find (s : string) (ps : list plugin) :
  manufacturer_loop (HStr s) ps
  = Ok (List.find (fun p => bool_decide (Some (lower s) = manufacturer p)) ps).
Proof.
  induction ps as [|p ps IH]; [done|]. simpl.
  destruct (bool_decide _); [done | exact IH].
Qed.

Lemma tagged_plugin (m : string) (p : plugin) :
  has_footprint p && (has_manufacturer p && bool_decide (Some m = manufacturer p))
  = has_footprint p && bool_decide (manufacturer p = Some m).
Proof.
  f_equal. unfold has_manufacturer.
  destruct (manufacturer p) as [t|].
  - destruct (decide (t = m)) as [->|Hne].
    + rewrite !bool_decide_eq_true_2; first done; by eauto.
    + rewrite andb_comm, bool_decide_eq_false_2 by congruence.
      symmetry. apply bool_decide_eq_false_2. congruence.
  - rewrite andb_comm, bool_decide_eq_false_2 by congruence.
    symmetry. apply bool_decide_eq_false_2. congruence.
Qed.

(** C5. When the structure map of the container has a manufacturer entry
    (a member of the root group named so, whatever its case and leading
    blanks) and the value stored there, unwrapped and decoded, is a string whose
    lowercase form is the manufacturer tag of some plugin with a footprint,
    the manufacturer pass selects the first such plugin of the candidate list
    and [_plugin_from_footprints] returns it. The structural pass runs only
    when the manufacturer pass selects nothing, so neither a structural match
    of another plugin nor an error of a structural lookup changes the
    result. *)
Theorem manufacturer_match_wins
    (os : os_env) (filename : string) (plugins : list plugin)
    (f : list (string * h5obj)) (val : pyval) (man : h5value) (s : string) (p : plugin) :
  h5py_File os filename = Ok f ->
  _hdf5group2dict f !! "manufacturer" = Some val ->
  read_dataset f val = Ok man ->
  unwrap_manufacturer man = HStr s ->
  List.find (fun q => has_footprint q && bool_decide (manufacturer q = Some (lower s)))
            plugins = Some p ->
  manufacturer_pass f (_hdf5group2dict f)
    (List.filter has_manufacturer (List.filter has_footprint plugins)) = Ok (Some p)
  /\ _plugin_from_footprints os filename plugins = Ok (Some p).
Proof.
  intros Hf Hd Hman Hs Hfind.
  assert (Hpass : manufacturer_pass f (_hdf5group2dict f)
            (List.filter has_manufacturer (List.filter has_footprint plugins))
          = Ok (Some p)).
  { unfold manufacturer_pass. rewrite Hd, Hman. cbn [mbind result_bind bind].
    rewrite Hs, manufacturer_loop_find, !find_filter. f_equal.
    rewrite <- Hfind. apply find_ext. intros q. apply tagged_plugin. }
  split; [exact Hpass|].
  unfold _plugin_from_footprints. rewrite Hf. cbn [mbind result_bind bind].
  by rewrite Hpass.
Qed.

Lemma split_nonempty (sep : ascii) (s : string) : split sep s <> [].
Proof.
  destruct s as [|c s]; simpl; [done|].
  destruct (Ascii.eqb c sep); [done|]. by destruct (split sep s).
Qed.

(** Where [_exists] finds an entry, it is the entry at the end of the path;
    and every entry at the end of a path of dicts is found. *)
Lemma exists_walk (chain : list string) :
  chain <> [] ->
  forall obj v, _exists obj chain = Ok (Some v) <-> walk obj chain = Some v.
Proof.
  induction chain as [|key chain IH]; [done|]. intros _ obj v.
  cbn [_exists walk]. destruct obj as [| | | |l|d]; cbn [py_in mbind result_bind bind];
    try (split; intros; discriminate).
  - destruct (contains key s); cbn; split; intros; discriminate.
  - destruct (existsb _ l); cbn; split; intros; discriminate.
  - destruct (d !! key) as [w|] eqn:E.
    + rewrite bool_decide_eq_true_2 by eauto. cbn. rewrite E.
      destruct chain as [|k chain]; [cbn; split; congruence|].
      apply IH. done.
    + rewrite bool_decide_eq_false_2 by (intros [? ?]; discriminate). cbn.
      split; intros; discriminate.
Qed.

(** The code's lookup finds an entry exactly where the path is present in
    the structure map. *)
Lemma resolves_walk (d : gmap string pyval) (fp : string) :
  (exists v, footprint_lookup d fp = Ok (Some v)) <-> resolves d fp.
Proof.
  unfold resolves, footprint_lookup.
  split; intros [v Hv]; exists v; by apply (exists_walk _ (split_nonempty _ _)).
Qed.

Lemma lookup_none_absent (d : gmap string pyval) (fp : string) :
  footprint_lookup d fp = Ok None -> ~ resolves d fp.
Proof.
  intros Hnone Hr. apply resolves_walk in Hr as [v Hv]. congruence.
Qed.

Lemma count_matches_spec (d : gmap string pyval) (fps : list string) :
  forall n m, count_matches d fps n = Ok m ->
  Forall (fun fp => is_ok (footprint_lookup d fp) = true) fps
  /\ n <= m <= n + Z.of_nat (length fps)
  /\ (m = n + Z.of_nat (length fps) -> Forall (resolves d) fps)
  /\ (m <> n + Z.of_nat (length fps) -> Exists (fun fp => ~ resolves d fp) fps).
Proof.
  induction fps as [|fp fps IH]; intros n m H; simpl in H.
  - inversion H; subst. simpl. repeat split; try lia; auto.
  - unfold mbind, result_bind, bind in H.
    destruct (footprint_lookup d fp) as [[v|]|] eqn:E; [| |discriminate].
    + destruct (IH _ _ H) as (Hok & Hb & Hall & Hex).
      cbn [length]. repeat split; try lia.
      * constructor; [by rewrite E | done].
      * intros Hm. constructor; [apply resolves_walk; by exists v | apply Hall; lia].
      * intros Hm. right. apply Hex. lia.
    + destruct (IH _ _ H) as (Hok & Hb & Hall & Hex).
      cbn [length]. repeat split; try lia.
      * constructor; [by rewrite E | done].
      * intros _. left. by apply lookup_none_absent.
Qed.

Lemma count_matches_full (d : gmap string pyval) (fps : list string) (n : Z) :
  Forall (resolves d) fps -> count_matches d fps n = Ok (n + Z.of_nat (length fps)).
Proof.
  intros H. revert n. induction H as [|fp fps Hfp _ IH]; intros n; simpl.
  - f_equal. lia.
  - apply resolves_walk in Hfp as [v Hv].
    rewrite Hv. cbn [mbind result_bind bind]. rewrite IH. f_equal. lia.
Qed.

Lemma count_matches_returns (d : gmap string pyval) (fps : list string) (n : Z) :
  Forall (fun fp => is_ok (footprint_lookup d fp) = true) fps ->
  exists m, count_matches d fps n = Ok m.
Proof.
  intros H. revert n. induction H as [|fp fps Hfp _ IH]; intros n; simpl; [eauto|].
  destruct (footprint_lookup d fp); [|discriminate]. apply IH.
Qed.

Lemma absent_not_full (d : gmap string pyval) (fps : list string) :
  Exists (fun fp => ~ resolves d fp) fps -> ~ Forall (resolves d) fps.
Proof.
  intros Hex Hall. apply Exists_exists in Hex as (fp & Hin & Hno).
  rewrite Forall_forall in Hall. by apply Hno, Hall.
Qed.

(** The structural pass is what [_plugin_from_footprints] returns when the
    manufacturer pass selects nothing. *)
Lemma plugin_from_footprints_structural (os : os_env) (filename : string)
    (plugins : list plugin) (f : list (string * h5obj)) :
  h5py_File os filename = Ok f ->
  manufacturer_pass f (_hdf5group2dict f)
    (List.filter has_manufacturer (List.filter has_footprint plugins)) = Ok None ->
  _plugin_from_footprints os filename plugins
  = structural_pass (_hdf5group2dict f) (List.filter has_footprint plugins).
Proof.
  intros Hf Hpass. unfold _plugin_from_footprints. rewrite Hf.
  cbn [mbind result_bind bind]. by rewrite Hpass.
Qed.

(** A plugin that the structural pass selects has every declared footprint
    path (lowercased, split on ["/"]) present in the structure map, and every
    plugin before it lacks one: a plugin whose footprint is only partly
    present is never selected. *)
Lemma structural_pass_selects_full (d : gmap string pyval) (ps : list plugin) (p : plugin) :
  structural_pass d ps = Ok (Some p) ->
  exists before after,
    ps = (before ++ p :: after)%list
    /\ fully_present d p
    /\ Forall (fun q => ~ fully_present d q) before.
Proof.
  induction ps as [|q ps IH]; intros H; simpl in H; [discriminate|].
  unfold mbind, result_bind, bind in H.
  destruct (count_matches d _ 0) as [m|] eqn:E; [|discriminate].
  destruct (count_matches_spec _ _ _ _ E) as (Hok & _ & Hall & Hex).
  destruct (Z.eqb_spec m (Z.of_nat (length (default [] (footprint q))))) as [Hm|Hm].
  - inversion H; subst q. exists [], ps. split; [done|]. split; [|constructor].
    apply Hall. lia.
  - destruct (IH H) as (before & after & -> & Hp & Hbefore).
    exists (q :: before), after. split; [done|]. split; [done|].
    constructor; [|done]. apply absent_not_full, Hex. lia.
Qed.

(** The structural pass selects [p] exactly when [p] is the first plugin of
    the list all of whose declared footprint paths are present in the
    structure map, and the lookups for every plugin before it return: where
    a lookup for an earlier plugin raises, the pass raises with it. *)
Lemma structural_pass_first_full (d : gmap string pyval) (ps : list plugin) (p : plugin) :
  structural_pass d ps = Ok (Some p)
  <-> exists before after,
        ps = (before ++ p :: after)%list
        /\ fully_present d p
        /\ Forall (fun q => lookups_return d q /\ ~ fully_present d q) before.
Proof.
  split.
  - induction ps as [|q ps IH]; intros H; simpl in H; [discriminate|].
    unfold mbind, result_bind, bind in H.
    destruct (count_matches d _ 0) as [m|] eqn:E; [|discriminate].
    destruct (count_matches_spec _ _ _ _ E) as (Hok & _ & Hall & Hex).
    destruct (Z.eqb_spec m (Z.of_nat (length (default [] (footprint q))))) as [Hm|Hm].
    + inversion H; subst q. exists [], ps. split; [done|]. split; [|constructor].
      apply Hall. lia.
    + destruct (IH H) as (before & after & -> & Hp & Hbefore).
      exists (q :: before), after. split; [done|]. split; [done|].
      constructor; [|done]. split; [done|]. apply absent_not_full, Hex. lia.
  - intros (before & after & -> & Hp & Hbefore).
    induction Hbefore as [|q before Hq _ IH]; simpl.
    + rewrite (count_matches_full _ _ _ Hp). cbn [mbind result_bind bind].
      by rewrite Z.eqb_refl.
    + destruct Hq as [Hok Hno].
      destruct (count_matches_returns d _ 0 Hok) as [m Hm]. rewrite Hm.
      cbn [mbind result_bind bind].
      destruct (count_matches_spec _ _ _ _ Hm) as (_ & _ & Hall & _).
      destruct (Z.eqb_spec m (Z.of_nat (length (default [] (footprint q))))) as [Heq|_];
        [|exact IH].
      exfalso. apply Hno, Hall. lia.
Qed.

(** A lookup that raises for one path of a plugin makes the structural pass
    raise when it comes to that plugin, whatever follows in the list. *)
Lemma structural_pass_raises (d : gmap string pyval) (p : plugin) (ps : list plugin) :
  ~ lookups_return d p -> exists e, structural_pass d (p :: ps) = Raise e.
Proof.
  intros Hno. cbn [structural_pass].
  destruct (count_matches d (default [] (footprint p)) 0) as [m|e] eqn:E.
  - exfalso. apply Hno. by destruct (count_matches_spec _ _ _ _ E) as (Hok & _).
  - by exists e.
Qed.

(** ** Signal-class resolution and signal construction *)

Lemma str_in_In (x : string) (l : list string) : str_in x l = true <-> In x l.
Proof.
  unfold str_in. rewrite existsb_exists. split.
  - intros (y & Hy & Heq). apply String.eqb_eq in Heq. by subst.
  - intros H. exists x. split; [done | apply String.eqb_refl].
Qed.

(** The three filters keep the classes that meet the four criteria. *)
Lemma matches_criteria (subclasses : list signal_class) (dtype : string)
    (signal_dimension : Z) (signal_type : string) (lazy : bool) (c : signal_class) :
  In c (dtype_dim_type_matches subclasses dtype signal_dimension signal_type lazy)
  <-> In c subclasses
      /\ _lazy c = lazy
      /\ _dtype c = dtype
      /\ _signal_dimension c = signal_dimension
      /\ (signal_type = _signal_type c \/ In signal_type (_alias_signal_types c)).
Proof.
  unfold dtype_dim_type_matches. rewrite !filter_In, orb_true_iff, str_in_In.
  rewrite String.eqb_eq, String.eqb_eq, Z.eqb_eq, Bool.eqb_true_iff. tauto.
Qed.

(** C7, as amended. For an input that passes the two checks that come first
    (a data type that is understood, a signal dimension that is not
    negative), the resolver returns a class exactly when the registered
    classes that match all four criteria are that one class; for no match and
    for more than one match it raises the [ValueError] that names the data
    type category, the dimension and the type string. *)
Theorem assign_signal_subclass_exactly_one (subclasses : list signal_class)
    (dtype_name : string) (signal_dimension : Z) (signal_type : string) (lazy : bool) :
  dtype_understood dtype_name = true ->
  0 <= signal_dimension ->
  (forall c, _assign_signal_subclass subclasses dtype_name signal_dimension signal_type lazy
             = Ok c
             <-> dtype_dim_type_matches subclasses "real" signal_dimension signal_type lazy
                 = [c])
  /\ (length (dtype_dim_type_matches subclasses "real" signal_dimension signal_type lazy)
      <> 1%nat ->
      _assign_signal_subclass subclasses dtype_name signal_dimension signal_type lazy
      = Raise (Exn ValueError (NoSignalsMatch "real" signal_dimension signal_type)))
  /\ (forall c,
        In c (dtype_dim_type_matches subclasses "real" signal_dimension signal_type lazy)
        <-> In c subclasses /\ _lazy c = lazy /\ _dtype c = "real"
            /\ _signal_dimension c = signal_dimension
            /\ (signal_type = _signal_type c \/ In signal_type (_alias_signal_types c))).
Proof.
  intros Hdt Hdim. unfold _assign_signal_subclass. rewrite Hdt. cbn [negb].
  destruct (Z.ltb_spec signal_dimension 0) as [?|_]; [lia|].
  split; [|split; [|intros c; apply matches_criteria]].
  - intros c. destruct (dtype_dim_type_matches _ _ _ _ _) as [|s [|s' l]];
      split; intros H; try discriminate; congruence.
  - destruct (dtype_dim_type_matches _ _ _ _ _) as [|s [|s' l]]; simpl; intros H;
      [done | lia | done].
Qed.

Lemma is_image_false (v : pyval) : is_image v = false <-> v <> PStr "image".
Proof.
  destruct v; simpl; try (split; [discriminate | done]).
  rewrite String.eqb_neq. split; congruence.
Qed.

Lemma check_record_by_dict (md s : gmap string pyval) :
  md !! "Signal" = Some (PDict s) ->
  check_record_by md
  = match s !! "record_by" with
    | None => Ok md
    | Some v =>
        if is_image v then Ok (<["Signal" := PDict (delete "record_by" s)]> md)
        else Raise (Exn ValueError OnlyRecordByImage)
    end.
Proof.
  intros H. unfold check_record_by. rewrite H. cbn [py_in mbind result_bind bind].
  destruct (s !! "record_by") as [v|] eqn:E.
  - rewrite bool_decide_eq_true_2 by eauto. cbn [py_item]. rewrite E.
    cbn [mbind result_bind bind]. by destruct (is_image v).
  - by rewrite bool_decide_eq_false_2 by (intros [? ?]; discriminate).
Qed.

Lemma bind_ok_inv {A B} (m : result A) (k : A -> result B) (b : B) :
  (m ≫= k) = Ok b -> exists a, m = Ok a /\ k a = Ok b.
Proof. destruct m as [a|e]; [eauto | discriminate]. Qed.

Lemma dict2signal_metadata (subclasses : list signal_class) (sd : signal_dict)
    (lazy : bool) (md md' : gmap string pyval) (sig : signal) :
  sd_metadata sd = Some md ->
  check_record_by md = Ok md' ->
  _dict2signal subclasses sd lazy = Ok sig ->
  sd_metadata (signal_args sig) = Some md'.
Proof.
  intros Hmd Hcheck H. unfold _dict2signal in H. rewrite Hmd, Hcheck in H.
  cbn [mbind result_bind bind] in H.
  apply bind_ok_inv in H as ([ty sd'] & Hty & H).
  apply bind_ok_inv in Hty as (ty' & _ & Hty). inversion Hty; subst ty' sd'.
  apply bind_ok_inv in H as (data & _ & H).
  apply bind_ok_inv in H as (cls & _ & H).
  by inversion H.
Qed.

(** C2, as amended. For a signal record whose metadata has a [Signal]
    mapping: a [record_by] value other than ["image"] raises the
    [ValueError]; with the value ["image"] the signal is built from metadata
    with the field removed; and without the field the check passes and the
    signal is built from the metadata as they are. *)
Theorem dict2signal_record_by (subclasses : list signal_class) (sd : signal_dict)
    (lazy : bool) (md s : gmap string pyval) :
  sd_metadata sd = Some md ->
  md !! "Signal" = Some (PDict s) ->
  (forall v, s !! "record_by" = Some v -> v <> PStr "image" ->
     _dict2signal subclasses sd lazy = Raise (Exn ValueError OnlyRecordByImage))
  /\ (s !! "record_by" = Some (PStr "image") ->
      forall sig, _dict2signal subclasses sd lazy = Ok sig ->
        sd_metadata (signal_args sig)
        = Some (<["Signal" := PDict (delete "record_by" s)]> md))
  /\ (s !! "record_by" = None ->
      check_record_by md = Ok md
      /\ forall sig, _dict2signal subclasses sd lazy = Ok sig ->
           sd_metadata (signal_args sig) = Some md).
Proof.
  intros Hmd Hsig. pose proof (check_record_by_dict md s Hsig) as Hcheck.
  split; [|split].
  - intros v Hv Hne. rewrite Hv in Hcheck. apply is_image_false in Hne.
    rewrite Hne in Hcheck. unfold _dict2signal. by rewrite Hmd, Hcheck.
  - intros Hv sig H. rewrite Hv in Hcheck. cbn in Hcheck.
    eapply dict2signal_metadata; eauto.
  - intros Hv. rewrite Hv in Hcheck. split; [done|].
    intros sig H. eapply dict2signal_metadata; eauto.
Qed.

(** ** Loading and saving *)

Section Dispatching.

Variable os : os_env.
Variable plugins : list plugin.
Variable subclasses : list signal_class.

(** The sibling path: no plugin for the extension is an [IOError]. *)
Lemma load_no_reader (filename : string) (lazy : bool) (kwargs : gmap string pyval) :
  isfile os filename = true ->
  readers_for plugins filename = [] ->
  load os plugins subclasses filename lazy kwargs
  = Raise (Exn IOError (CouldNotRead filename)).
Proof. intros Hfile Hr. unfold load. by rewrite Hfile, Hr. Qed.

(** [load] does not handle the [None] of [_plugin_from_footprints]: the
    attribute access on it fails. *)
Lemma load_no_footprint_match (filename : string) (lazy : bool)
    (kwargs : gmap string pyval) :
  isfile os filename = true ->
  (1 < length (readers_for plugins filename))%nat ->
  is_hdf5 os filename = true ->
  _plugin_from_footprints os filename (readers_for plugins filename) = Ok None ->
  load os plugins subclasses filename lazy kwargs
  = Raise (Exn AttributeError (NoAttribute "NoneType" "file_reader")).
Proof.
  intros Hfile Hn Hh5 Hnone. unfold load. rewrite Hfile. cbn [negb andb].
  destruct (readers_for plugins filename) as [|r0 rs] eqn:E; [simpl in Hn; lia|].
  apply Nat.ltb_lt in Hn. rewrite Hn, Hh5. cbn [andb]. by rewrite Hnone.
Qed.

Lemma save_plan_effects (filename : string) (signal : signal) (overwrite : overwrite_arg)
    (add_scan : option bool) (kwargs : gmap string pyval) :
  existsb is_file_writer
    (save_plan os plugins filename signal overwrite add_scan kwargs).2 = false.
Proof.
  unfold save_plan. destruct (save_target filename) as [ext target].
  destruct (find_writer plugins ext) as [writer|]; [|done].
  destruct (negb _); [done|].
  unfold add_scan_block, write_decision.
  destruct (_ && _ && _); [destruct add_scan as [[|]|]|];
    try destruct (_get_input_bool os target);
    by destruct overwrite as [|[|]|].
Qed.

(** Without a call of the file writer the signal is unchanged. *)
Lemma save_only_after_write (filename : string) (signal : signal)
    (overwrite : overwrite_arg) (add_scan : option bool) (kwargs : gmap string pyval) :
  writer_called (_save os plugins filename signal overwrite add_scan kwargs) = false ->
  signal_after (_save os plugins filename signal overwrite add_scan kwargs) = signal.
Proof.
  unfold _save, writer_called.
  destruct (save_plan os plugins filename signal overwrite add_scan kwargs)
    as [[plan|e] effects]; [|done].
  destruct (wp_write plan); [|done].
  destruct (file_writer _ _ _ _);
    [destruct (path_split (abspath os (wp_filename plan)))|]; cbn [events];
    rewrite existsb_app; cbn; rewrite orb_true_r; discriminate.
Qed.

(** C10. When [_save] settles on not writing, it returns normally with the
    signal as it was and without a call of the plugin's file writer among its
    effects; and in every call of [_save], bookkeeping fields that differ
    afterwards mean that the file writer was called. *)
Theorem save_skip_leaves_signal (filename : string) (signal : signal)
    (overwrite : overwrite_arg) (add_scan : option bool) (kwargs : gmap string pyval)
    (plan : write_plan) (effects : list event) :
  save_plan os plugins filename signal overwrite add_scan kwargs = (Ok plan, effects) ->
  wp_write plan = false ->
  _save os plugins filename signal overwrite add_scan kwargs
  = {| outcome := Ok (); signal_after := signal; events := effects |}
  /\ existsb is_file_writer effects = false
  /\ forall filename' signal' overwrite' add_scan' kwargs',
       tmp (signal_after (_save os plugins filename' signal' overwrite' add_scan' kwargs'))
       <> tmp signal' ->
       writer_called (_save os plugins filename' signal' overwrite' add_scan' kwargs')
       = true.
Proof.
  intros Hplan Hwrite. split; [|split].
  - unfold _save. by rewrite Hplan, Hwrite.
  - pose proof (save_plan_effects filename signal overwrite add_scan kwargs) as H.
    by rewrite Hplan in H.
  - intros filename' signal' overwrite' add_scan' kwargs' Hne.
    destruct (writer_called _) eqn:E; [done|].
    apply save_only_after_write in E. by rewrite E in Hne.
Qed.

(** [overwrite=False] against an existing file settles on not writing,
    unless a scan is to be added to a kikuchipy h5ebsd file. *)
Lemma save_plan_skip (filename : string) (signal : signal) (add_scan : option bool)
    (kwargs : gmap string pyval) (ext target : string) (writer : plugin) :
  save_target filename = (ext, target) ->
  find_writer plugins ext = Some writer ->
  can_write (am_signal_dimension signal) (am_navigation_dimension signal) writer = true ->
  isfile os target = true ->
  (format_name writer =? "kikuchipy_h5ebsd")%string = false \/ add_scan = Some false ->
  exists plan,
    save_plan os plugins filename signal (OvBool false) add_scan kwargs
    = (Ok plan, [EnsureDirectory target])
    /\ wp_write plan = false.
Proof.
  intros Ht Hw Hcan Hfile Hadd. unfold save_plan. rewrite Ht, Hw, Hcan, Hfile.
  cbn [negb]. unfold add_scan_block. destruct Hadd as [-> | ->].
  - cbn. eauto.
  - destruct (_ =? _)%string; cbn; eauto.
Qed.

(** C3, as amended. For a save to an existing file in the kikuchipy h5ebsd
    format with [overwrite=False]: with [add_scan=False] nothing is written,
    the writer is not called and the signal keeps its bookkeeping fields;
    with [add_scan=True] the writer is called with the append directive
    [add_scan=True] among its keyword arguments. *)
Theorem save_existing_h5ebsd (filename : string) (signal : signal)
    (kwargs : gmap string pyval) (ext target : string) (writer : plugin) :
  save_target filename = (ext, target) ->
  find_writer plugins ext = Some writer ->
  format_name writer = "kikuchipy_h5ebsd" ->
  can_write (am_signal_dimension signal) (am_navigation_dimension signal) writer = true ->
  isfile os target = true ->
  _save os plugins filename signal (OvBool false) (Some false) kwargs
  = {| outcome := Ok (); signal_after := signal; events := [EnsureDirectory target] |}
  /\ events (_save os plugins filename signal (OvBool false) (Some true) kwargs)
     = [EnsureDirectory target;
        FileWriter "kikuchipy_h5ebsd" target (<["add_scan" := PBool true]> kwargs)].
Proof.
  intros Ht Hw Hname Hcan Hfile. split.
  - unfold _save, save_plan. rewrite Ht, Hw, Hcan, Hfile. cbn [negb].
    unfold add_scan_block. rewrite Hname. cbn. done.
  - unfold _save, save_plan. rewrite Ht, Hw, Hcan, Hfile. cbn [negb].
    unfold add_scan_block. rewrite Hname. cbn.
    destruct (file_writer writer target signal _);
      [destruct (path_split (abspath os target))|]; cbn; by rewrite Hname.
Qed.

End Dispatching.

(** ** The properties on concrete inputs *)

Lemma manufacturer_match_wins_witness :
  h5py_File Samples.os "/data/marked.h5" = Ok Samples.marked_h5
  /\ _hdf5group2dict Samples.marked_h5 !! "manufacturer" = Some (PStr "manufacturer")
  /\ read_dataset Samples.marked_h5 (PStr "manufacturer") = Ok (HArray [HBytes "kikuchipy"])
  /\ unwrap_manufacturer (HArray [HBytes "kikuchipy"]) = HStr "kikuchipy"
  /\ List.find (fun q => has_footprint q
                         && bool_decide (manufacturer q = Some (lower "kikuchipy")))
               Samples.plugins = Some Samples.kikuchipy_h5ebsd
  /\ manufacturer_pass Samples.marked_h5 (_hdf5group2dict Samples.marked_h5)
       (List.filter has_manufacturer (List.filter has_footprint Samples.plugins))
     = Ok (Some Samples.kikuchipy_h5ebsd)
  /\ _plugin_from_footprints Samples.os "/data/marked.h5" Samples.plugins
     = Ok (Some Samples.kikuchipy_h5ebsd).
Proof.
  repeat (split; [vm_compute; reflexivity|]).
  apply (manufacturer_match_wins Samples.os "/data/marked.h5" Samples.plugins
           Samples.marked_h5 (PStr "manufacturer") (HArray [HBytes "kikuchipy"])
           "kikuchipy" Samples.kikuchipy_h5ebsd);
    vm_compute; reflexivity.
Defined.

(** On that file the structural pass alone would select the EMsoft plugin,
    which is registered first and whose footprint is present. *)
Example structural_pass_would_differ :
  structural_pass (_hdf5group2dict Samples.marked_h5)
                  (List.filter has_footprint Samples.plugins)
  = Ok (Some Samples.emsoft_ecp_master_pattern).
Proof. vm_compute. reflexivity. Qed.

(** The example of the specification: the footprint [["a/b", "c"]] does not
    match a container with only [a/b], and matches once [c] is there. *)
Example structural_pass_partial_footprint :
  structural_pass (_hdf5group2dict Samples.only_a_b) [Samples.two_paths] = Ok None
  /\ structural_pass (_hdf5group2dict Samples.a_b_and_c) [Samples.two_paths]
     = Ok (Some Samples.two_paths).
Proof. split; vm_compute; reflexivity. Qed.

(** A footprint path that runs through a dataset makes the lookup raise. *)
Example structural_pass_through_dataset :
  footprint_lookup (_hdf5group2dict Samples.a_b_and_c) "c/d"
  = Raise (Exn TypeError (Other "argument is not iterable")).
Proof. vm_compute. reflexivity. Qed.

(** C6. An HDF5 file whose top level holds a dataset [EMData], a group [A]
    with a member [B], and a dataset [C], matched against the EMsoft ECP
    plugin (footprint [emdata/ecpmaster]) and, after it, a plugin with the
    footprint [a/b], [c]. The second plugin is the first, and the only one,
    all of whose footprint paths are present in the structure map; without
    the dataset [EMData] it is the one selected. With it, no plugin is
    selected: the lookup of [emdata/ecpmaster] asks [key in obj] of the entry
    of a dataset, the number 1, and the structural pass, the footprint
    matching and [load] raise a [TypeError]. *)
Theorem structural_pass_raises_before_full_match :
  fully_present (_hdf5group2dict MoreSamples.dataset_in_the_way) Samples.two_paths
  /\ ~ fully_present (_hdf5group2dict MoreSamples.dataset_in_the_way)
                     Samples.emsoft_ecp_master_pattern
  /\ structural_pass (_hdf5group2dict Samples.a_b_and_c)
                     [Samples.emsoft_ecp_master_pattern; Samples.two_paths]
     = Ok (Some Samples.two_paths)
  /\ structural_pass (_hdf5group2dict MoreSamples.dataset_in_the_way)
                     [Samples.emsoft_ecp_master_pattern; Samples.two_paths]
     = Raise (Exn TypeError (Other "argument is not iterable"))
  /\ _plugin_from_footprints (MoreSamples.os_holding MoreSamples.dataset_in_the_way)
       "/data/marked.h5" [Samples.emsoft_ecp_master_pattern; Samples.two_paths]
     = Raise (Exn TypeError (Other "argument is not iterable"))
  /\ load (MoreSamples.os_holding MoreSamples.dataset_in_the_way)
          [Samples.emsoft_ecp_master_pattern; Samples.two_paths] Samples.subclasses
          "/data/marked.h5" false ∅
     = Raise (Exn TypeError (Other "argument is not iterable")).
Proof.
  split.
  { repeat constructor; eexists; vm_compute; reflexivity. }
  split.
  { intros H. apply Forall_inv in H. destruct H as [v Hv]. vm_compute in Hv.
    discriminate. }
  repeat split; vm_compute; reflexivity.
Qed.

(** C1. An empty HDF5 container with the extension [h5]: two registered
    plugins read that extension, neither pass of the footprint matching
    finds a plugin, and [load] fails with an [AttributeError] on [None], not
    with the [IOError] that reports an unreadable file. *)
Theorem load_unmatched_hdf5_attribute_error :
  length (readers_for Samples.plugins "/data/empty.h5") = 2%nat
  /\ is_hdf5 Samples.os "/data/empty.h5" = true
  /\ _plugin_from_footprints Samples.os "/data/empty.h5"
       (readers_for Samples.plugins "/data/empty.h5") = Ok None
  /\ load Samples.os Samples.plugins Samples.subclasses "/data/empty.h5" false ∅
     = Raise (Exn AttributeError (NoAttribute "NoneType" "file_reader")).
Proof. repeat split; vm_compute; reflexivity. Qed.

(** The file of the tests with an extension that no plugin reads. *)
Example load_unsupported_extension :
  load Samples.os Samples.plugins Samples.subclasses "/data/unsupported.h4" false ∅
  = Raise (Exn IOError (CouldNotRead "/data/unsupported.h4")).
Proof. vm_compute. reflexivity. Qed.

Lemma assign_signal_subclass_exactly_one_witness :
  dtype_understood "uint8" = true
  /\ 0 <= 2
  /\ (forall c, _assign_signal_subclass Samples.subclasses "uint8" 2 "EBSD" true = Ok c
                <-> dtype_dim_type_matches Samples.subclasses "real" 2 "EBSD" true = [c])
  /\ (length (dtype_dim_type_matches Samples.subclasses "real" 2 "EBSD" true) <> 1%nat ->
      _assign_signal_subclass Samples.subclasses "uint8" 2 "EBSD" true
      = Raise (Exn ValueError (NoSignalsMatch "real" 2 "EBSD")))
  /\ (forall c,
        In c (dtype_dim_type_matches Samples.subclasses "real" 2 "EBSD" true)
        <-> In c Samples.subclasses /\ _lazy c = true /\ _dtype c = "real"
            /\ _signal_dimension c = 2
            /\ ("EBSD" = _signal_type c \/ In "EBSD" (_alias_signal_types c))).
Proof.
  split; [reflexivity|]. split; [lia|].
  apply (assign_signal_subclass_exactly_one Samples.subclasses "uint8" 2 "EBSD" true);
    [reflexivity | lia].
Defined.

(** The two checks that come first, for every input: a data type that is
    not understood raises the error of the data type, and with a data type
    that is understood a negative signal dimension raises the error of the
    dimension. *)
Lemma assign_signal_subclass_guards (subclasses : list signal_class)
    (dtype_name : string) (signal_dimension : Z) (signal_type : string) (lazy : bool) :
  (dtype_understood dtype_name = false ->
   _assign_signal_subclass subclasses dtype_name signal_dimension signal_type lazy
   = Raise (Exn ValueError (DataTypeNotUnderstood dtype_name)))
  /\ (dtype_understood dtype_name = true -> signal_dimension < 0 ->
      _assign_signal_subclass subclasses dtype_name signal_dimension signal_type lazy
      = Raise (Exn ValueError (SignalDimensionMustBe signal_dimension))).
Proof.
  unfold _assign_signal_subclass. split.
  - by intros ->.
  - intros -> Hneg. cbn [negb].
    destruct (Z.ltb_spec signal_dimension 0) as [_|Hge]; [done | lia].
Qed.

(** The inputs of the tests. *)
Example assign_signal_subclass_tests :
  _assign_signal_subclass Samples.subclasses "complex128" 2 "EBSD" true
  = Raise (Exn ValueError (DataTypeNotUnderstood "complex128"))
  /\ _assign_signal_subclass Samples.subclasses "uint8" 2 "EBSD" false = Ok Samples.EBSD
  /\ _assign_signal_subclass Samples.subclasses "uint8" 2 "EBSD" true = Ok Samples.LazyEBSD
  /\ _assign_signal_subclass Samples.subclasses "uint8" 2 "" false
     = Raise (Exn ValueError (NoSignalsMatch "real" 2 "")).
Proof. repeat split; vm_compute; reflexivity. Qed.

(** C7, as stated, fails on a negative dimension, an input of the tests: no
    registered class matches the four criteria, and the error that is raised
    names the dimension only. *)
Lemma assign_signal_subclass_negative_dimension :
  dtype_understood "uint8" = true
  /\ dtype_dim_type_matches Samples.subclasses "real" (-1) "EBSD" false = []
  /\ _assign_signal_subclass Samples.subclasses "uint8" (-1) "EBSD" false
     = Raise (Exn ValueError (SignalDimensionMustBe (-1)))
  /\ _assign_signal_subclass Samples.subclasses "uint8" (-1) "EBSD" false
     <> Raise (Exn ValueError (NoSignalsMatch "real" (-1) "EBSD")).
Proof. repeat split; try (vm_compute; reflexivity). vm_compute. discriminate. Qed.

Lemma dict2signal_record_by_witness :
  sd_metadata (Samples.ebsd_record (Some (PStr "image")))
  = Some (Samples.ebsd_metadata (Some (PStr "image")))
  /\ Samples.ebsd_metadata (Some (PStr "image")) !! "Signal"
     = Some (PDict (<["record_by" := PStr "image"]> (<["signal_type" := PStr "EBSD"]> ∅)))
  /\ (forall v,
        (<["record_by" := PStr "image"]> (<["signal_type" := PStr "EBSD"]> ∅) : gmap string pyval)
          !! "record_by" = Some v ->
        v <> PStr "image" ->
        _dict2signal Samples.subclasses (Samples.ebsd_record (Some (PStr "image"))) false
        = Raise (Exn ValueError OnlyRecordByImage))
  /\ ((<["record_by" := PStr "image"]> (<["signal_type" := PStr "EBSD"]> ∅) : gmap string pyval)
        !! "record_by" = Some (PStr "image") ->
      forall sig,
        _dict2signal Samples.subclasses (Samples.ebsd_record (Some (PStr "image"))) false
        = Ok sig ->
        sd_metadata (signal_args sig)
        = Some (<["Signal" := PDict (delete "record_by"
                   (<["record_by" := PStr "image"]> (<["signal_type" := PStr "EBSD"]> ∅)))]>
                  (Samples.ebsd_metadata (Some (PStr "image")))))
  /\ ((<["record_by" := PStr "image"]> (<["signal_type" := PStr "EBSD"]> ∅) : gmap string pyval)
        !! "record_by" = None ->
      check_record_by (Samples.ebsd_metadata (Some (PStr "image")))
      = Ok (Samples.ebsd_metadata (Some (PStr "image")))
      /\ forall sig,
           _dict2signal Samples.subclasses (Samples.ebsd_record (Some (PStr "image"))) false
           = Ok sig ->
           sd_metadata (signal_args sig) = Some (Samples.ebsd_metadata (Some (PStr "image")))).
Proof.
  split; [reflexivity|]. split; [vm_compute; reflexivity|].
  apply (dict2signal_record_by Samples.subclasses
           (Samples.ebsd_record (Some (PStr "image"))) false
           (Samples.ebsd_metadata (Some (PStr "image")))
           (<["record_by" := PStr "image"]> (<["signal_type" := PStr "EBSD"]> ∅)));
    [reflexivity | vm_compute; reflexivity].
Defined.

(** The record of the tests, with [record_by] set to ["not-image"], and the
    record as the reader delivers it: the signal built from it has lost the
    field. *)
Example dict2signal_tests :
  _dict2signal Samples.subclasses (Samples.ebsd_record (Some (PStr "not-image"))) false
  = Raise (Exn ValueError OnlyRecordByImage)
  /\ exists sig,
       _dict2signal Samples.subclasses (Samples.ebsd_record (Some (PStr "image"))) false
       = Ok sig
       /\ signal_cls sig = Samples.EBSD
       /\ sd_metadata (signal_args sig) = Some (Samples.ebsd_metadata None).
Proof.
  split; [vm_compute; reflexivity|].
  eexists. split; [vm_compute; reflexivity|]. split; vm_compute; reflexivity.
Qed.

(** C2, as stated, fails for a record without the field: its metadata have
    a [Signal] mapping with no [record_by], and the conversion raises nothing
    and returns an [EBSD] signal built from the unchanged metadata. *)
Lemma dict2signal_absent_record_by :
  (exists s, Samples.ebsd_metadata None !! "Signal" = Some (PDict s)
             /\ s !! "record_by" = None)
  /\ exists sig,
       _dict2signal Samples.subclasses (Samples.ebsd_record None) false = Ok sig
       /\ signal_cls sig = Samples.EBSD
       /\ sd_metadata (signal_args sig) = Some (Samples.ebsd_metadata None).
Proof.
  split.
  - eexists. split; vm_compute; reflexivity.
  - eexists. split; [vm_compute; reflexivity|]. split; vm_compute; reflexivity.
Qed.

Lemma save_existing_h5ebsd_witness :
  save_target "/data/marked.h5" = ("h5", "/data/marked.h5")
  /\ find_writer Samples.plugins "h5" = Some Samples.kikuchipy_h5ebsd
  /\ format_name Samples.kikuchipy_h5ebsd = "kikuchipy_h5ebsd"
  /\ can_write (am_signal_dimension Samples.ebsd_signal)
               (am_navigation_dimension Samples.ebsd_signal)
               Samples.kikuchipy_h5ebsd = true
  /\ isfile Samples.os "/data/marked.h5" = true
  /\ _save Samples.os Samples.plugins "/data/marked.h5" Samples.ebsd_signal
           (OvBool false) (Some false) ∅
     = {| outcome := Ok (); signal_after := Samples.ebsd_signal;
          events := [EnsureDirectory "/data/marked.h5"] |}
  /\ events (_save Samples.os Samples.plugins "/data/marked.h5" Samples.ebsd_signal
                   (OvBool false) (Some true) ∅)
     = [EnsureDirectory "/data/marked.h5";
        FileWriter "kikuchipy_h5ebsd" "/data/marked.h5" (<["add_scan" := PBool true]> ∅)].
Proof.
  repeat (split; [vm_compute; reflexivity|]).
  apply (save_existing_h5ebsd Samples.os Samples.plugins "/data/marked.h5"
           Samples.ebsd_signal ∅ "h5" "/data/marked.h5" Samples.kikuchipy_h5ebsd);
    vm_compute; reflexivity.
Defined.

(** C3, as stated, fails: the save of the tests, to an existing kikuchipy
    h5ebsd file with [overwrite=False] and [add_scan=False], returns without
    a call of the file writer, so no scan is appended. *)
Lemma save_add_scan_false_writes_nothing :
  find_writer Samples.plugins "h5" = Some Samples.kikuchipy_h5ebsd
  /\ isfile Samples.os "/data/marked.h5" = true
  /\ outcome (_save Samples.os Samples.plugins "/data/marked.h5" Samples.ebsd_signal
                    (OvBool false) (Some false) ∅) = Ok ()
  /\ writer_called (_save Samples.os Samples.plugins "/data/marked.h5" Samples.ebsd_signal
                          (OvBool false) (Some false) ∅) = false
  /\ events (_save Samples.os Samples.plugins "/data/marked.h5" Samples.ebsd_signal
                   (OvBool false) (Some false) ∅)
     = [EnsureDirectory "/data/marked.h5"].
Proof. repeat split; vm_compute; reflexivity. Qed.

Lemma save_skip_leaves_signal_witness :
  save_plan Samples.os Samples.plugins "/data/marked.h5" Samples.ebsd_signal
            (OvBool false) None ∅
  = (Ok {| wp_ext := "h5"; wp_filename := "/data/marked.h5";
           wp_writer := Samples.kikuchipy_h5ebsd;
           wp_kwargs := <["add_scan" := PBool false]> ∅; wp_write := false |},
     [EnsureDirectory "/data/marked.h5"; AskAddScan "/data/marked.h5"])
  /\ _save Samples.os Samples.plugins "/data/marked.h5" Samples.ebsd_signal
           (OvBool false) None ∅
     = {| outcome := Ok (); signal_after := Samples.ebsd_signal;
          events := [EnsureDirectory "/data/marked.h5"; AskAddScan "/data/marked.h5"] |}
  /\ existsb is_file_writer
       [EnsureDirectory "/data/marked.h5"; AskAddScan "/data/marked.h5"] = false
  /\ forall filename' signal' overwrite' add_scan' kwargs',
       tmp (signal_after (_save Samples.os Samples.plugins filename' signal' overwrite'
                                add_scan' kwargs'))
       <> tmp signal' ->
       writer_called (_save Samples.os Samples.plugins filename' signal' overwrite'
                            add_scan' kwargs')
       = true.
Proof.
  split; [vm_compute; reflexivity|].
  apply (save_skip_leaves_signal Samples.os Samples.plugins "/data/marked.h5"
           Samples.ebsd_signal (OvBool false) None ∅
           {| wp_ext := "h5"; wp_filename := "/data/marked.h5";
              wp_writer := Samples.kikuchipy_h5ebsd;
              wp_kwargs := <["add_scan" := PBool false]> ∅; wp_write := false |}
           [EnsureDirectory "/data/marked.h5"; AskAddScan "/data/marked.h5"]);
    vm_compute; reflexivity.
Defined.

(** A save without extension to a new file: [h5] is appended, the file is
    written and the bookkeeping fields are set. *)
Example save_new_file :
  outcome (_save Samples.os Samples.plugins "/data/new" Samples.ebsd_signal OvNone None ∅)
  = Ok ()
  /\ tmp (signal_after (_save Samples.os Samples.plugins "/data/new" Samples.ebsd_signal
                              OvNone None ∅))
     = {| folder := Some "/data"; filename_of := Some "new"; extension := Some "h5" |}
  /\ events (_save Samples.os Samples.plugins "/data/new" Samples.ebsd_signal OvNone None ∅)
     = [EnsureDirectory "/data/new.h5"; AskOverwrite "/data/new.h5";
        FileWriter "kikuchipy_h5ebsd" "/data/new.h5" ∅].
Proof. repeat split; vm_compute; reflexivity. Qed.

(** * Further properties *)

(** ** More on footprint matching *)

Lemma manufacturer_loop_member (man : h5value) (ps : list plugin) (p : plugin) :
  manufacturer_loop man ps = Ok (Some p) -> In p ps.
Proof.
  induction ps as [|q ps IH]; [discriminate|]. simpl.
  destruct (man_lower man) as [m|]; [|discriminate]. cbn [mbind result_bind bind].
  destruct (bool_decide _).
  - intros H. inversion H. by left.
  - intros H. right. by apply IH.
Qed.

Lemma structural_pass_member (d : gmap string pyval) (ps : list plugin) (p : plugin) :
  structural_pass d ps = Ok (Some p) -> In p ps.
Proof.
  induction ps as [|q ps IH]; [discriminate|]. simpl.
  destruct (count_matches d _ 0) as [m|]; [|discriminate]. cbn [mbind result_bind bind].
  destruct (_ =? _).
  - intros H. inversion H. by left.
  - intros H. right. by apply IH.
Qed.

Lemma plugin_from_footprints_member (os : os_env) (filename : string)
    (plugins : list plugin) (p : plugin) :
  _plugin_from_footprints os filename plugins = Ok (Some p) ->
  In p plugins /\ has_footprint p = true.
Proof.
  unfold _plugin_from_footprints. intros H.
  apply bind_ok_inv in H as (f & _ & H).
  apply bind_ok_inv in H as (m & Hm & H).
  apply filter_In. destruct m as [q|].
  - inversion H; subst q. unfold manufacturer_pass in Hm.
    destruct (_ !! "manufacturer"); [|discriminate].
    apply bind_ok_inv in Hm as (man & _ & Hm).
    apply manufacturer_loop_member in Hm. by apply filter_In in Hm as [Hm _].
  - by apply structural_pass_member in H.
Qed.

(** X1. A plugin that [_plugin_from_footprints] returns is one of the plugins
    it was given, and one that declares a footprint. *)
Theorem footprint_match_is_candidate (os : os_env) (filename : string)
    (plugins : list plugin) (p : plugin) :
  _plugin_from_footprints os filename plugins = Ok (Some p) ->
  In p plugins /\ has_footprint p = true.
Proof. apply plugin_from_footprints_member. Qed.

(** The structure map records members of the group only. *)
Lemma hdf5group2dict_from (g : list (string * h5obj)) (acc : gmap string pyval)
    (k : string) (v : pyval) :
  foldl (fun d kv => <[lower (lstrip kv.1) := _hdf5group2dict_obj kv.1 kv.2]> d) acc g
    !! k = Some v ->
  acc !! k = Some v
  \/ exists key obj, In (key, obj) g /\ lower (lstrip key) = k
                     /\ v = _hdf5group2dict_obj key obj.
Proof.
  revert acc. induction g as [|[key obj] g IH]; intros acc H; [by left|].
  cbn [foldl] in H. apply IH in H as [H | (key' & obj' & Hin & Hk & Hv)].
  - cbn [fst snd] in H. destruct (decide (lower (lstrip key) = k)) as [Heq|Hne].
    + rewrite Heq, lookup_insert_eq in H. inversion H.
      right. exists key, obj. split; [by left | done].
    + rewrite lookup_insert_ne in H by done. by left.
  - right. exists key', obj'. split; [by right | done].
Qed.

Lemma hdf5group2dict_lookup (g : list (string * h5obj)) (k : string) (v : pyval) :
  _hdf5group2dict g !! k = Some v ->
  exists key obj, In (key, obj) g /\ lower (lstrip key) = k
                  /\ v = _hdf5group2dict_obj key obj.
Proof.
  intros H. apply hdf5group2dict_from in H as [H | H]; [|done].
  by rewrite lookup_empty in H.
Qed.

Lemma find_first_key (g : list (string * h5obj)) (key : string) (obj : h5obj) :
  NoDup (g.*1) -> In (key, obj) g ->
  List.find (fun kv => String.eqb kv.1 key) g = Some (key, obj).
Proof.
  induction g as [|[k o] g IH]; intros Hnd Hin; [done|].
  cbn [fmap list_fmap fst] in Hnd. apply NoDup_cons in Hnd as [Hk Hnd].
  cbn [List.find fst]. destruct (String.eqb_spec k key) as [->|Hne].
  - destruct Hin as [Heq | Hin]; [by inversion Heq|].
    exfalso. apply Hk. apply list_elem_of_fmap. exists (key, obj).
    split; [done | by apply list_elem_of_In].
  - destruct Hin as [Heq | Hin]; [inversion Heq; congruence|]. by apply IH.
Qed.

(** X2. In a file whose top-level names are distinct, a string that
    [_hdf5group2dict] stores under ["manufacturer"] (the member being a
    dataset, not a group) is the name of a top-level dataset as the file
    spells it: the name normalises to ["manufacturer"], and reading the file
    at this name, as [_plugin_from_footprints] does, gives the value of that
    dataset. *)
Theorem manufacturer_key_rereads (f : list (string * h5obj)) (key : string) :
  NoDup (f.*1) ->
  _hdf5group2dict f !! "manufacturer" = Some (PStr key) ->
  lower (lstrip key) = "manufacturer"
  /\ exists value, In (key, H5Dataset value) f
                   /\ read_dataset f (PStr key) = Ok value.
Proof.
  intros Hnd H. apply hdf5group2dict_lookup in H as (k & obj & Hin & Hk & Hv).
  destruct obj as [members|value]; [discriminate|].
  cbn [_hdf5group2dict_obj] in Hv. rewrite Hk in Hv. cbn in Hv.
  inversion Hv; subst k. split; [done|]. exists value. split; [done|].
  unfold read_dataset. by rewrite (find_first_key _ _ _ Hnd Hin).
Qed.

Lemma lower_char_idem (c : ascii) : lower_char (lower_char c) = lower_char c.
Proof. destruct c as [[] [] [] [] [] [] [] []]; reflexivity. Qed.

Lemma lower_char_space (c : ascii) : is_space (lower_char c) = is_space c.
Proof. destruct c as [[] [] [] [] [] [] [] []]; reflexivity. Qed.

Lemma lower_idem (s : string) : lower (lower s) = lower s.
Proof. induction s as [|c s IH]; [done|]. simpl. by rewrite lower_char_idem, IH. Qed.

Lemma lstrip_lower (s : string) : lstrip (lower s) = lower (lstrip s).
Proof.
  induction s as [|c s IH]; [done|]. simpl. rewrite lower_char_space.
  by destruct (is_space c).
Qed.

Lemma lstrip_idem (s : string) : lstrip (lstrip s) = lstrip s.
Proof.
  induction s as [|c s IH]; [done|]. simpl.
  destruct (is_space c) eqn:E; [done|]. simpl. by rewrite E.
Qed.

(** A key of the structure map is its own normal form. *)
Lemma normal_key (key : string) :
  lower (lower (lstrip key)) = lower (lstrip key)
  /\ lstrip (lower (lstrip key)) = lower (lstrip key).
Proof. split; [apply lower_idem | by rewrite lstrip_lower, lstrip_idem]. Qed.

(** X3. Every key of the structure map of [_hdf5group2dict], at every
    depth, is lower-case and has no leading white space: a chain of keys
    that resolves in the map consists of such keys only. *)
Theorem resolved_paths_are_normalised (chain : list string) :
  forall (g : list (string * h5obj)) (v : pyval),
    walk (PDict (_hdf5group2dict g)) chain = Some v ->
    Forall (fun k => lower k = k /\ lstrip k = k) chain.
Proof.
  induction chain as [|k chain IH]; intros g v H; [constructor|].
  cbn [walk] in H. destruct (_hdf5group2dict g !! k) as [w|] eqn:E; [|discriminate].
  cbn in H. apply hdf5group2dict_lookup in E as (key & obj & _ & Hk & Hw).
  constructor.
  - subst k. apply normal_key.
  - destruct chain as [|k2 chain']; [constructor|].
    destruct obj as [members|value].
    + subst w. eapply (IH members). exact H.
    + subst w. cbn [_hdf5group2dict_obj] in H. by destruct (_ =? _)%string.
Qed.

(** X4. When the file has no manufacturer entry, or has one whose text no
    plugin with a footprint declares, [_plugin_from_footprints] returns what
    the structural pass over the plugins with a footprint returns. *)
Theorem manufacturer_mismatch_falls_through (os : os_env) (filename : string)
    (plugins : list plugin) (f : list (string * h5obj)) :
  h5py_File os filename = Ok f ->
  (_hdf5group2dict f !! "manufacturer" = None
   \/ exists val man s,
        _hdf5group2dict f !! "manufacturer" = Some val
        /\ read_dataset f val = Ok man
        /\ unwrap_manufacturer man = HStr s
        /\ forall p, In p plugins -> has_footprint p = true ->
                     manufacturer p <> Some (lower s)) ->
  _plugin_from_footprints os filename plugins
  = structural_pass (_hdf5group2dict f) (List.filter has_footprint plugins).
Proof.
  intros Hf H. apply plugin_from_footprints_structural; [done|].
  unfold manufacturer_pass.
  destruct H as [-> | (val & man & s & -> & Hman & Hs & Hno)]; [done|].
  rewrite Hman. cbn [mbind result_bind bind].
  rewrite Hs, manufacturer_loop_find. f_equal.
  destruct (List.find _ _) as [p|] eqn:E; [|done].
  apply find_some in E as [Hin Hp]. apply filter_In in Hin as [Hin _].
  apply filter_In in Hin as [Hin Hfp]. apply bool_decide_eq_true in Hp.
  exfalso. by apply (Hno p).
Qed.

(** X5. When the manufacturer dataset holds, after one array level is
    unwrapped, neither [str] nor [bytes], and a plugin with a footprint
    declares a manufacturer, [_plugin_from_footprints] raises the
    [AttributeError] of [man.lower()]. *)
Theorem manufacturer_not_text_raises (os : os_env) (filename : string)
    (plugins : list plugin) (f : list (string * h5obj)) (val : pyval) (man : h5value)
    (p : plugin) :
  h5py_File os filename = Ok f ->
  _hdf5group2dict f !! "manufacturer" = Some val ->
  read_dataset f val = Ok man ->
  (forall s, unwrap_manufacturer man <> HStr s) ->
  In p plugins -> has_footprint p = true -> has_manufacturer p = true ->
  _plugin_from_footprints os filename plugins
  = Raise (Exn AttributeError (NoAttribute "man" "lower")).
Proof.
  intros Hf Hd Hman Hs Hin Hfp Hm. unfold _plugin_from_footprints. rewrite Hf.
  cbn [mbind result_bind bind]. unfold manufacturer_pass. rewrite Hd, Hman.
  cbn [mbind result_bind bind].
  assert (Hp : In p (List.filter has_manufacturer (List.filter has_footprint plugins))).
  { apply filter_In. split; [|done]. by apply filter_In. }
  destruct (List.filter has_manufacturer _) as [|q qs]; [done|].
  cbn [manufacturer_loop]. destruct (unwrap_manufacturer man) as [s| | |] eqn:E;
    [by destruct (Hs s) | done | done | done].
Qed.

(** X6. [_exists] raises a [TypeError] when the chain goes on below a value
    that is a number: at such a value [key in obj] has no meaning. *)
Theorem lookup_through_leaf_raises (prefix : list string) :
  forall (obj : pyval) (n : Z) (rest : list string),
    prefix <> [] -> rest <> [] ->
    walk obj prefix = Some (PInt n) ->
    _exists obj (prefix ++ rest) = Raise (Exn TypeError (Other "argument is not iterable")).
Proof.
  induction prefix as [|k prefix IH]; intros obj n rest Hp Hr H; [done|].
  cbn [walk] in H. destruct obj as [| | | | |d]; try discriminate.
  destruct (d !! k) as [w|] eqn:E; [|discriminate]. cbn in H.
  cbn [app _exists py_in]. rewrite E. rewrite bool_decide_eq_true_2 by eauto.
  cbn [mbind result_bind bind py_item]. rewrite E.
  destruct prefix as [|k2 prefix'].
  - cbn in H. inversion H; subst w. destruct rest as [|r rest']; [done|]. done.
  - cbn [app]. change (k2 :: (prefix' ++ rest)%list) with ((k2 :: prefix') ++ rest)%list.
    by apply (IH w n).
Qed.

(** A plugin's footprint is fully present exactly when each of its paths,
    lower-cased and split at the slashes, resolves in the structure map. *)
Lemma footprint_present_iff_walk (d : gmap string pyval) (p : plugin) :
  fully_present d p
  <-> Forall (fun fp => is_Some (walk (PDict d) (split "/" (lower fp))))
             (default [] (footprint p)).
Proof.
  unfold fully_present, resolves. reflexivity.
Qed.

Lemma structural_pass_single (d : gmap string pyval) (p : plugin) :
  structural_pass d [p] = Ok (Some p) <-> fully_present d p.
Proof.
  cbn [structural_pass]. split.
  - intros H. apply bind_ok_inv in H as (m & Hm & H).
    destruct (count_matches_spec _ _ _ _ Hm) as (_ & _ & Hall & _).
    destruct (Z.eqb_spec m (Z.of_nat (length (default [] (footprint p)))));
      [|discriminate].
    apply Hall. lia.
  - intros H. rewrite (count_matches_full _ _ _ H). cbn [mbind result_bind bind].
    by rewrite Z.eqb_refl.
Qed.

(** X7. The footprint of the EMsoft ECP master pattern plugin: alone among the
    candidates, the plugin is chosen by the structural pass exactly when the
    structure map has a group under ["emdata"] with an entry ["ecpmaster"]. *)
Theorem emsoft_ecp_footprint (d : gmap string pyval) :
  structural_pass d [Samples.emsoft_ecp_master_pattern]
  = Ok (Some Samples.emsoft_ecp_master_pattern)
  <-> exists g v, d !! "emdata" = Some (PDict g) /\ g !! "ecpmaster" = Some v.
Proof.
  rewrite structural_pass_single, footprint_present_iff_walk.
  change (default [] (footprint Samples.emsoft_ecp_master_pattern))
    with ["emdata/ecpmaster"].
  rewrite Forall_singleton.
  change (split "/" (lower "emdata/ecpmaster")) with ["emdata"; "ecpmaster"].
  cbn [walk]. split.
  - intros [v H]. destruct (d !! "emdata") as [[| | | | |g]|]; try discriminate.
    cbn in H. destruct (g !! "ecpmaster") as [w|] eqn:E; [|discriminate]. eauto.
  - intros (g & v & -> & Hv). cbn. rewrite Hv. by eexists.
Qed.

(** ** More on signal-class resolution *)

Lemma assign_ok_inv (subclasses : list signal_class) (dtype_name : string)
    (signal_dimension : Z) (signal_type : string) (lazy : bool) (c : signal_class) :
  _assign_signal_subclass subclasses dtype_name signal_dimension signal_type lazy = Ok c ->
  dtype_understood dtype_name = true
  /\ 0 <= signal_dimension
  /\ dtype_dim_type_matches subclasses "real" signal_dimension signal_type lazy = [c].
Proof.
  unfold _assign_signal_subclass.
  destruct (dtype_understood dtype_name); [|discriminate]. cbn [negb].
  destruct (Z.ltb_spec signal_dimension 0) as [?|Hdim]; [discriminate|].
  destruct (dtype_dim_type_matches _ _ _ _ _) as [|s [|s' l]]; try discriminate.
  intros H. inversion H. done.
Qed.

Lemma assign_ok_criteria (subclasses : list signal_class)
    (dtype_name : string) (signal_dimension : Z) (signal_type : string) (lazy : bool)
    (c : signal_class) :
  _assign_signal_subclass subclasses dtype_name signal_dimension signal_type lazy = Ok c ->
  In c subclasses
  /\ _lazy c = lazy
  /\ _dtype c = "real"
  /\ _signal_dimension c = signal_dimension
  /\ (signal_type = _signal_type c \/ In signal_type (_alias_signal_types c))
  /\ dtype_understood dtype_name = true
  /\ 0 <= signal_dimension.
Proof.
  intros H. apply assign_ok_inv in H as (Hdt & Hdim & Hm).
  assert (Hin : In c (dtype_dim_type_matches subclasses "real" signal_dimension
                        signal_type lazy)) by (rewrite Hm; by left).
  apply matches_criteria in Hin. tauto.
Qed.

(** X8. A class that [_assign_signal_subclass] returns is a registered one
    that meets the request: same laziness, the data type class ["real"], the
    signal dimension asked for, and the signal type as its own or among its
    aliases; the data type name is then one of those understood and the
    signal dimension is not negative. *)
Theorem assigned_class_meets_request (subclasses : list signal_class)
    (dtype_name : string) (signal_dimension : Z) (signal_type : string) (lazy : bool)
    (c : signal_class) :
  _assign_signal_subclass subclasses dtype_name signal_dimension signal_type lazy = Ok c ->
  In c subclasses
  /\ _lazy c = lazy
  /\ _dtype c = "real"
  /\ _signal_dimension c = signal_dimension
  /\ (signal_type = _signal_type c \/ In signal_type (_alias_signal_types c))
  /\ dtype_understood dtype_name = true
  /\ 0 <= signal_dimension.
Proof. apply assign_ok_criteria. Qed.

Lemma filter_perm {A} (f : A -> bool) (l l' : list A) :
  Permutation l l' -> Permutation (List.filter f l) (List.filter f l').
Proof.
  induction 1 as [|x l l' _ IH|x y l|l l' l'' _ IH1 _ IH2]; simpl.
  - constructor.
  - destruct (f x); [by constructor | done].
  - destruct (f x), (f y); try reflexivity. apply perm_swap.
  - by etransitivity.
Qed.

(** X9. The result of [_assign_signal_subclass], a class or an error, does
    not depend on the order in which the signal classes are registered. *)
Theorem assign_independent_of_registration_order (subclasses subclasses' : list signal_class)
    (dtype_name : string) (signal_dimension : Z) (signal_type : string) (lazy : bool) :
  Permutation subclasses subclasses' ->
  _assign_signal_subclass subclasses dtype_name signal_dimension signal_type lazy
  = _assign_signal_subclass subclasses' dtype_name signal_dimension signal_type lazy.
Proof.
  intros Hp. unfold _assign_signal_subclass.
  destruct (negb _); [done|]. destruct (_ <? _); [done|].
  assert (Hm : Permutation
                 (dtype_dim_type_matches subclasses "real" signal_dimension signal_type lazy)
                 (dtype_dim_type_matches subclasses' "real" signal_dimension signal_type lazy)).
  { unfold dtype_dim_type_matches. by do 4 apply filter_perm. }
  destruct (dtype_dim_type_matches subclasses _ _ _ _) as [|s [|s2 l]].
  - apply Permutation_nil in Hm. by rewrite Hm.
  - apply Permutation_length_1_inv in Hm. by rewrite Hm.
  - pose proof (Permutation_length Hm) as Hlen.
    destruct (dtype_dim_type_matches subclasses' _ _ _ _) as [|t [|t2 l']];
      simpl in Hlen; try lia; done.
Qed.

(** ** More on the conversion of records *)

Lemma py_in_dict (key : string) (s : gmap string pyval) :
  py_in key (PDict s) = Ok (bool_decide (is_Some (s !! key))).
Proof. done. Qed.

Lemma check_record_by_inv (md md' : gmap string pyval) :
  check_record_by md = Ok md' ->
  md' = md
  \/ exists s, md !! "Signal" = Some (PDict s)
               /\ s !! "record_by" = Some (PStr "image")
               /\ md' = <["Signal" := PDict (delete "record_by" s)]> md.
Proof.
  unfold check_record_by. destruct (md !! "Signal") as [sig|] eqn:E.
  - intros H. apply bind_ok_inv in H as ([|] & Hin & H).
    + apply bind_ok_inv in H as (v & Hv & H).
      destruct (is_image v) eqn:Ei; [|discriminate]. cbn [negb] in H.
      destruct sig as [| | | | |s]; try discriminate.
      right. exists s. split; [done|]. split; [|by inversion H].
      cbn [py_item] in Hv. destruct (s !! "record_by") as [w|]; [|discriminate].
      inversion Hv; subst w. destruct v; try discriminate.
      cbn in Ei. apply String.eqb_eq in Ei. by subst.
    + left. by inversion H.
  - intros H. left. by inversion H.
Qed.

(** X10. The metadata that the [record_by] check of [_dict2signal] returns
    pass the check unchanged, give the same signal type, and differ from the
    metadata given at most under ["Signal"]. *)
Theorem check_record_by_settles (md md' : gmap string pyval) :
  check_record_by md = Ok md' ->
  check_record_by md' = Ok md'
  /\ read_signal_type md' = read_signal_type md
  /\ forall k, k <> "Signal" -> md' !! k = md !! k.
Proof.
  intros H. destruct (check_record_by_inv _ _ H) as [-> | (s & Hs & Hr & ->)];
    [done|].
  split; [|split].
  - rewrite (check_record_by_dict _ (delete "record_by" s)) by apply lookup_insert_eq.
    by rewrite lookup_delete_eq.
  - unfold read_signal_type. rewrite lookup_insert_eq, Hs, !py_in_dict.
    cbn [py_item]. by rewrite lookup_delete_ne.
  - intros k Hk. by rewrite lookup_insert_ne.
Qed.

Lemma dict2signal_class_of (subclasses : list signal_class) (sd : signal_dict)
    (lazy : bool) (sig : signal) :
  _dict2signal subclasses sd lazy = Ok sig ->
  In (signal_cls sig) subclasses
  /\ _signal_dimension (signal_cls sig) = 2
  /\ _lazy (signal_cls sig) = lazy
  /\ made_lazy sig = lazy
  /\ sd_data (signal_args sig) = sd_data sd
  /\ sd_original_metadata (signal_args sig) = sd_original_metadata sd
  /\ exists data, sd_data sd = Some data
                  /\ dtype_understood (array_dtype_name data) = true.
Proof.
  intros H. unfold _dict2signal in H.
  apply bind_ok_inv in H as ([ty sd'] & Hty & H).
  apply bind_ok_inv in H as (data & Hdata & H).
  apply bind_ok_inv in H as (cls & Hcls & H).
  inversion H; subst sig; clear H. cbn.
  assert (Hsd : sd_data sd' = sd_data sd
                /\ sd_original_metadata sd' = sd_original_metadata sd).
  { destruct (sd_metadata sd) as [md|].
    - apply bind_ok_inv in Hty as (md' & _ & Hty).
      apply bind_ok_inv in Hty as (ty' & _ & Hty). by inversion Hty.
    - by inversion Hty. }
  destruct ty as [| | |ty| |]; try (by destruct (negb _)).
  apply assign_ok_criteria in Hcls
    as (Hin & Hlazy & _ & Hdim & _ & Hdt & _).
  destruct Hsd as [Hd Ho]. rewrite Hd in Hdata.
  destruct (sd_data sd) as [data'|] eqn:Ed; [|discriminate].
  inversion Hdata; subst data'.
  repeat split; try tauto; try done. by exists data.
Qed.

(** X11. A signal that [_dict2signal] returns has a registered class of
    signal dimension two and of the laziness asked for, is made lazy exactly
    when asked, and carries the data and the original metadata of the record;
    the record has data of an understood data type. *)
Theorem dict2signal_class (subclasses : list signal_class) (sd : signal_dict)
    (lazy : bool) (sig : signal) :
  _dict2signal subclasses sd lazy = Ok sig ->
  In (signal_cls sig) subclasses
  /\ _signal_dimension (signal_cls sig) = 2
  /\ _lazy (signal_cls sig) = lazy
  /\ made_lazy sig = lazy
  /\ sd_data (signal_args sig) = sd_data sd
  /\ sd_original_metadata (signal_args sig) = sd_original_metadata sd
  /\ exists data, sd_data sd = Some data
                  /\ dtype_understood (array_dtype_name data) = true.
Proof. apply dict2signal_class_of. Qed.

(** ** More on loading *)

Lemma filter_none {A} (f : A -> bool) (l : list A) :
  (forall x, In x l -> f x = false) -> List.filter f l = [].
Proof.
  induction l as [|x l IH]; intros H; [done|]. simpl.
  rewrite (H x) by (by left). apply IH. intros y Hy. apply H. by right.
Qed.

(** X12. [load] of a file that exists, or of a pattern that [glob] matches,
    whose lower-cased extension no plugin lists, raises the [IOError] that
    the file could not be read. *)
Theorem load_unread_extension (os : os_env) (plugins : list plugin)
    (subclasses : list signal_class) (filename : string) (lazy : bool)
    (kwargs : gmap string pyval) :
  isfile os filename = true \/ glob os filename <> [] ->
  (forall p, In p plugins ->
     str_in (lower (slice_from 1 (splitext filename).2)) (file_extensions p) = false) ->
  load os plugins subclasses filename lazy kwargs
  = Raise (Exn IOError (CouldNotRead filename)).
Proof.
  intros Hthere Hno. unfold load.
  assert (Hgate : negb (isfile os filename) && (length (glob os filename) =? 0)%nat = false).
  { destruct Hthere as [-> | Hg]; [done|].
    destruct (glob os filename); [done|]. cbn. apply andb_false_r. }
  rewrite Hgate. unfold readers_for. by rewrite (filter_none _ _ Hno).
Qed.

Lemma load_loop_length (os : os_env) (subclasses : list signal_class)
    (sds : list signal_dict) (lazy : bool) :
  forall filename out,
    load_loop os subclasses sds lazy filename = Ok out ->
    length out = length sds
    /\ Forall (fun s => is_Some (folder (tmp s)) /\ is_Some (filename_of (tmp s))
                        /\ is_Some (extension (tmp s))
                        /\ In (signal_cls s) subclasses /\ _lazy (signal_cls s) = lazy) out.
Proof.
  induction sds as [|sd sds IH]; intros filename out H; cbn [load_loop] in H.
  - inversion H. split; [done | constructor].
  - apply bind_ok_inv in H as (s & Hs & H).
    destruct (path_split (abspath os filename)) as [directory name].
    destruct (splitext name) as [stem ext].
    apply bind_ok_inv in H as (rest & Hrest & H). inversion H; subst out.
    destruct (IH _ _ Hrest) as [Hlen Hall]. split; [simpl; by f_equal|].
    constructor; [|done]. cbn.
    apply dict2signal_class_of in Hs as (Hin & _ & Hlz & _).
    repeat split; by eauto.
Qed.

(** X14. When [load] returns, a plugin that lists the lower-cased extension
    has read the file; the result is one signal exactly when the reader gave
    one record, and else a list with a signal for each record; every signal
    has the folder, file name and extension recorded and is of a registered
    class of the laziness asked for. *)
Theorem load_one_or_many (os : os_env) (plugins : list plugin)
    (subclasses : list signal_class) (filename : string) (lazy : bool)
    (kwargs : gmap string pyval) (out : load_out) :
  load os plugins subclasses filename lazy kwargs = Ok out ->
  exists reader records,
    In reader plugins
    /\ str_in (lower (slice_from 1 (splitext filename).2)) (file_extensions reader) = true
    /\ file_reader reader filename lazy kwargs = Ok records
    /\ match out with
       | One s => length records = 1%nat
       | Many l => length l = length records /\ length records <> 1%nat
       end
    /\ Forall (fun s => is_Some (folder (tmp s)) /\ is_Some (filename_of (tmp s))
                        /\ is_Some (extension (tmp s))
                        /\ In (signal_cls s) subclasses /\ _lazy (signal_cls s) = lazy)
              (match out with One s => [s] | Many l => l end).
Proof.
  unfold load. destruct (_ && _); [discriminate|]. intros H.
  apply bind_ok_inv in H as (reader & Hreader & H).
  destruct reader as [reader|]; [|discriminate].
  apply bind_ok_inv in H as (records & Hrecords & H).
  apply bind_ok_inv in H as (signals & Hloop & H).
  apply load_loop_length in Hloop as [Hlen Hall].
  assert (Hin : In reader (readers_for plugins filename)).
  { destruct (readers_for plugins filename) as [|r0 rs] eqn:E; [discriminate|].
    destruct (_ && _).
    - apply plugin_from_footprints_member in Hreader. tauto.
    - inversion Hreader. by left. }
  apply filter_In in Hin as [Hin Hext].
  exists reader, records. split; [done|]. split; [done|]. split; [done|].
  destruct signals as [|s [|s2 l]]; inversion H; subst out; cbn in *.
  - split; [split; [done | lia] | done].
  - split; [lia | done].
  - split; [split; [done | lia] | done].
Qed.

(** X13. When at most one plugin lists the extension, or the file is not an
    HDF5 file, [load] does not probe footprints: it never opens the file
    itself, so with the readers of the plugins fixed its result is the same
    whatever [h5py.File] would give it, and where it returns, the file was
    read by the first plugin, in registration order, that lists the
    extension. What the selected reader reads of the file is part of the
    reader and not of this statement. *)
Theorem load_without_footprints (os os' : os_env) (plugins : list plugin)
    (subclasses : list signal_class) (filename : string) (lazy : bool)
    (kwargs : gmap string pyval) :
  isfile os' = isfile os -> glob os' = glob os -> is_hdf5 os' = is_hdf5 os ->
  abspath os' = abspath os ->
  (length (readers_for plugins filename) <= 1)%nat \/ is_hdf5 os filename = false ->
  load os' plugins subclasses filename lazy kwargs
  = load os plugins subclasses filename lazy kwargs
  /\ forall out,
       load os plugins subclasses filename lazy kwargs = Ok out ->
       exists reader rest records,
         readers_for plugins filename = reader :: rest
         /\ file_reader reader filename lazy kwargs = Ok records.
Proof.
  intros Hf Hg Hh Ha Hcase. unfold load. rewrite Hf, Hg, Hh.
  destruct (_ && _); [by split|].
  assert (Hloop : forall sds name, load_loop os' subclasses sds lazy name
                                   = load_loop os subclasses sds lazy name).
  { induction sds as [|sd sds IH]; intros name; [done|]. cbn [load_loop].
    rewrite Ha. destruct (_dict2signal _ _ _); [|done]. cbn [mbind result_bind bind].
    destruct (path_split _), (splitext _). by rewrite IH. }
  destruct (readers_for plugins filename) as [|r0 rs]; [by split|].
  assert (Hsel : (1 <? length (r0 :: rs))%nat && is_hdf5 os filename = false).
  { destruct Hcase as [Hlen | ->]; [|apply andb_false_r].
    destruct (Nat.ltb_spec 1 (length (r0 :: rs))); [lia | done]. }
  rewrite Hsel. cbn [mbind result_bind bind].
  destruct (file_reader r0 _ _ _) as [records|e] eqn:Er; [|by split].
  cbn [mbind result_bind bind]. split; [by rewrite Hloop|].
  intros out _. by exists r0, rs, records.
Qed.

(** ** More on saving *)

Lemma find_none_of {A} (f : A -> bool) (l : list A) :
  (forall x, In x l -> f x = false) -> List.find f l = None.
Proof.
  induction l as [|x l IH]; intros H; [done|]. simpl.
  rewrite (H x) by (by left). apply IH. intros y Hy. apply H. by right.
Qed.

(** X15. When no plugin that writes lists the lower-cased extension, [_save]
    raises the [ValueError] that names the extension, before any effect, and
    leaves the signal as it was. *)
Theorem save_unsupported_extension (os : os_env) (plugins : list plugin)
    (filename : string) (signal : signal) (overwrite : overwrite_arg)
    (add_scan : option bool) (kwargs : gmap string pyval) :
  (forall p, In p plugins ->
     str_in (lower (save_target filename).1) (file_extensions p) && writes_truthy p
     = false) ->
  _save os plugins filename signal overwrite add_scan kwargs
  = {| outcome := Raise (Exn ValueError (ExtNotSupported (save_target filename).1));
       signal_after := signal; events := [] |}.
Proof.
  intros Hno. unfold _save, save_plan. destruct (save_target filename) as [ext target].
  cbn [fst] in *. unfold find_writer. by rewrite (find_none_of _ _ Hno).
Qed.

(** The plan names a writer that lists the extension and writes the shape. *)
Lemma save_plan_writer (os : os_env) (plugins : list plugin)
    (filename : string) (signal : signal) (overwrite : overwrite_arg)
    (add_scan : option bool) (kwargs : gmap string pyval)
    (plan : write_plan) (effects : list event) :
  save_plan os plugins filename signal overwrite add_scan kwargs = (Ok plan, effects) ->
  In (wp_writer plan) plugins
  /\ str_in (lower (wp_ext plan)) (file_extensions (wp_writer plan)) = true
  /\ writes_truthy (wp_writer plan) = true
  /\ can_write (am_signal_dimension signal) (am_navigation_dimension signal)
               (wp_writer plan) = true
  /\ (wp_ext plan, wp_filename plan) = save_target filename
  /\ wp_ext plan <> "".
Proof.
  unfold save_plan. destruct (save_target filename) as [ext target] eqn:Et.
  destruct (find_writer plugins ext) as [writer|] eqn:Ew; [|discriminate].
  destruct (can_write _ _ writer) eqn:Ec; [|discriminate]. cbn [negb].
  destruct (add_scan_block _ _ _ _ _ _ _) as [[ov kw] asked1].
  destruct (write_decision _ _ _ _) as [[write|e] asked2]; [|discriminate].
  intros H. inversion H; subst plan; cbn.
  apply find_some in Ew as [Hin Hf]. apply andb_true_iff in Hf as [Hext Hw].
  repeat split; try done.
  unfold save_target in Et.
  destruct (String.eqb_spec (slice_from 1 (splitext filename).2) "");
    inversion Et; subst; done.
Qed.

(** X16. Whenever [_save] calls a file writer, it is that of a registered
    plugin that writes, lists the lower-cased extension and supports the
    signal and navigation dimensions of the signal, and it is called on the
    file name with the extension in place. *)
Theorem save_writer_supports_request (os : os_env) (plugins : list plugin)
    (filename : string) (signal : signal) (overwrite : overwrite_arg)
    (add_scan : option bool) (kwargs : gmap string pyval)
    (format target : string) (kw : gmap string pyval) :
  In (FileWriter format target kw)
     (events (_save os plugins filename signal overwrite add_scan kwargs)) ->
  target = (save_target filename).2
  /\ exists writer,
       In writer plugins
       /\ format = format_name writer
       /\ str_in (lower (save_target filename).1) (file_extensions writer) = true
       /\ writes_truthy writer = true
       /\ can_write (am_signal_dimension signal) (am_navigation_dimension signal)
                    writer = true.
Proof.
  unfold _save. pose proof (save_plan_effects os plugins filename signal overwrite
                              add_scan kwargs) as Hnone.
  destruct (save_plan os plugins filename signal overwrite add_scan kwargs)
    as [[plan|e] effects] eqn:Ep; cbn [snd] in Hnone.
  - assert (Hno : ~ In (FileWriter format target kw) effects).
    { intros Hin. assert (existsb is_file_writer effects = true); [|congruence].
      apply existsb_exists. by exists (FileWriter format target kw). }
    apply save_plan_writer in Ep as (Hin & Hext & Hw & Hc & Ht & _).
    assert (Hlast : In (FileWriter format target kw)
                      (effects ++ [FileWriter (format_name (wp_writer plan))
                                     (wp_filename plan) (wp_kwargs plan)]) ->
                    format = format_name (wp_writer plan) /\ target = wp_filename plan).
    { intros H. apply in_app_or in H as [H | [H | []]]; [done|]. by inversion H. }
    rewrite <- Ht. cbn [fst snd].
    destruct (wp_write plan); [|done].
    destruct (file_writer _ _ _ _);
      [destruct (path_split (abspath os (wp_filename plan)))|]; cbn [events];
      intros H; apply Hlast in H as [-> ->]; (split; [done|]);
      exists (wp_writer plan); done.
  - cbn [events]. intros Hin. exfalso.
    assert (existsb is_file_writer effects = true); [|congruence].
    apply existsb_exists. by exists (FileWriter format target kw).
Qed.

(** X17. With [overwrite=True] and a writer that supports the signal, [_save]
    ensures the directory and calls the writer with the keyword arguments as
    given, without asking anything, whatever [add_scan] is. *)
Theorem save_overwrite_true_writes (os : os_env) (plugins : list plugin)
    (filename : string) (signal : signal) (add_scan : option bool)
    (kwargs : gmap string pyval) (writer : plugin) :
  find_writer plugins (save_target filename).1 = Some writer ->
  can_write (am_signal_dimension signal) (am_navigation_dimension signal) writer = true ->
  events (_save os plugins filename signal (OvBool true) add_scan kwargs)
  = [EnsureDirectory (save_target filename).2;
     FileWriter (format_name writer) (save_target filename).2 kwargs].
Proof.
  intros Hw Hc. unfold _save, save_plan.
  destruct (save_target filename) as [ext target]. cbn [fst snd] in *.
  rewrite Hw, Hc. cbn [negb]. unfold add_scan_block. cbn [is_True negb].
  rewrite andb_false_r. cbn.
  by destruct (file_writer writer target signal kwargs);
    [destruct (path_split (abspath os target))|].
Qed.

(** X18. With a writer that supports the signal, an [overwrite] that is
    neither [None] nor a bool makes [_save] raise the [ValueError] about the
    parameter, after the directory is ensured and without a question or a
    write, when [add_scan] is [False], or the file does not exist, or the
    writer is not that of h5ebsd files. *)
Theorem save_bad_overwrite (os : os_env) (plugins : list plugin)
    (filename : string) (signal : signal) (v : pyval) (add_scan : option bool)
    (kwargs : gmap string pyval) (writer : plugin) :
  find_writer plugins (save_target filename).1 = Some writer ->
  can_write (am_signal_dimension signal) (am_navigation_dimension signal) writer = true ->
  add_scan = Some false
  \/ isfile os (save_target filename).2 = false
  \/ (format_name writer =? "kikuchipy_h5ebsd")%string = false ->
  _save os plugins filename signal (OvOther v) add_scan kwargs
  = {| outcome := Raise (Exn ValueError OverwriteParameter);
       signal_after := signal;
       events := [EnsureDirectory (save_target filename).2] |}.
Proof.
  intros Hw Hc Hcase. unfold _save, save_plan.
  destruct (save_target filename) as [ext target]. cbn [fst snd] in *.
  rewrite Hw, Hc. cbn [negb]. unfold add_scan_block. cbn [is_True negb].
  destruct Hcase as [-> | [-> | ->]].
  - by destruct (_ && _ && _).
  - by rewrite andb_false_r.
  - done.
Qed.

(** [add_scan=True] on an existing h5ebsd file writes with
    [add_scan=True] among the keyword arguments, whatever [overwrite] is. *)
Lemma save_add_scan_overrides_overwrite (os : os_env) (plugins : list plugin)
    (filename : string) (signal : signal) (overwrite : overwrite_arg)
    (kwargs : gmap string pyval) (writer : plugin) :
  find_writer plugins (save_target filename).1 = Some writer ->
  can_write (am_signal_dimension signal) (am_navigation_dimension signal) writer = true ->
  format_name writer = "kikuchipy_h5ebsd" ->
  isfile os (save_target filename).2 = true ->
  overwrite <> OvBool true ->
  events (_save os plugins filename signal overwrite (Some true) kwargs)
  = [EnsureDirectory (save_target filename).2;
     FileWriter "kikuchipy_h5ebsd" (save_target filename).2
                (<["add_scan" := PBool true]> kwargs)].
Proof.
  intros Hw Hc Hname Hfile Hov. unfold _save, save_plan.
  destruct (save_target filename) as [ext target]. cbn [fst snd] in *.
  rewrite Hw, Hc, Hfile. cbn [negb]. unfold add_scan_block. rewrite Hname.
  assert (Ht : is_True overwrite = false) by (by destruct overwrite as [|[|]|]).
  rewrite Ht. cbn.
  destruct (file_writer writer target signal _);
    [destruct (path_split (abspath os target))|]; cbn; by rewrite Hname.
Qed.

(** X19. Whenever [_save] ends with an exception the signal is as it was, and
    no call of [_save] calls a file writer more than once. *)
Theorem save_failure_leaves_signal (os : os_env) (plugins : list plugin)
    (filename : string) (signal : signal) (overwrite : overwrite_arg)
    (add_scan : option bool) (kwargs : gmap string pyval) :
  (forall e, outcome (_save os plugins filename signal overwrite add_scan kwargs) = Raise e ->
             signal_after (_save os plugins filename signal overwrite add_scan kwargs)
             = signal)
  /\ (length (List.filter is_file_writer
                (events (_save os plugins filename signal overwrite add_scan kwargs)))
      <= 1)%nat.
Proof.
  unfold _save. pose proof (save_plan_effects os plugins filename signal overwrite
                              add_scan kwargs) as Hnone.
  destruct (save_plan os plugins filename signal overwrite add_scan kwargs)
    as [[plan|e] effects]; cbn [snd] in Hnone.
  - assert (Hf : List.filter is_file_writer effects = []).
    { apply filter_none. intros x Hx. destruct (is_file_writer x) eqn:E; [|done].
      assert (existsb is_file_writer effects = true); [|congruence].
      apply existsb_exists. eauto. }
    destruct (wp_write plan).
    + destruct (file_writer _ _ _ _);
        [destruct (path_split (abspath os (wp_filename plan)))|]; cbn;
        (split; [done || discriminate | rewrite List.filter_app, Hf; cbn; lia]).
    + cbn. split; [done | rewrite Hf; cbn; lia].
  - cbn. split; [done|].
    rewrite filter_none; [cbn; lia|]. intros x Hx.
    destruct (is_file_writer x) eqn:E; [|done].
    assert (existsb is_file_writer effects = true); [|congruence].
    apply existsb_exists. eauto.
Qed.

(** After a write that succeeded the signal records where it was saved. *)
Lemma save_records_target (os : os_env) (plugins : list plugin)
    (filename : string) (signal : signal) (overwrite : overwrite_arg)
    (add_scan : option bool) (kwargs : gmap string pyval) :
  outcome (_save os plugins filename signal overwrite add_scan kwargs) = Ok () ->
  writer_called (_save os plugins filename signal overwrite add_scan kwargs) = true ->
  tmp (signal_after (_save os plugins filename signal overwrite add_scan kwargs))
  = {| folder := Some (path_split (abspath os (save_target filename).2)).1;
       filename_of :=
         Some (splitext (path_split (abspath os (save_target filename).2)).2).1;
       extension := Some (save_target filename).1 |}
  /\ (save_target filename).1 <> "".
Proof.
  unfold _save, writer_called.
  pose proof (save_plan_effects os plugins filename signal overwrite add_scan kwargs)
    as Hnone.
  destruct (save_plan os plugins filename signal overwrite add_scan kwargs)
    as [[plan|e] effects] eqn:Ep; cbn [snd] in Hnone; [|discriminate].
  apply save_plan_writer in Ep as (_ & _ & _ & _ & Ht & Hne). rewrite <- Ht.
  cbn [fst snd]. destruct (wp_write plan).
  - destruct (file_writer _ _ _ _); [|discriminate].
    destruct (path_split (abspath os (wp_filename plan))) as [directory name].
    cbn. done.
  - cbn. congruence.
Qed.

(** ** The extensions of the writers *)

Lemma default_write_ext_from_spec (plugins : list plugin) :
  forall (acc S : gset string) (e : string),
    Registry.default_write_ext_from plugins acc = Ok S ->
    e ∈ S ->
    e ∈ acc
    \/ exists p, In p plugins /\ writes_truthy p = true /\ In e (file_extensions p).
Proof.
  induction plugins as [|p plugins IH]; intros acc S e H He; cbn in H.
  - inversion H; subst. by left.
  - destruct (writes_truthy p) eqn:Ew.
    + apply bind_ok_inv in H as (x & Hx & H).
      destruct (IH _ _ _ H He) as [Hacc | (q & Hq & Hw & Hin)].
      * apply elem_of_union in Hacc as [Hx' | Hacc]; [|by left].
        apply elem_of_singleton in Hx'. subst x. right. exists p.
        split; [by left|]. split; [done|].
        unfold py_index in Hx. destruct (_ && _); [|discriminate].
        destruct (file_extensions p !! _) eqn:El; [|discriminate].
        inversion Hx; subst. apply list_elem_of_In. eapply list_elem_of_lookup_2, El.
      * right. exists q. split; [by right | done].
    + destruct (IH _ _ _ H He) as [Hacc | (q & Hq & Hw & Hin)]; [by left|].
      right. exists q. split; [by right | done].
Qed.

(** X20. Every lower-case extension in [default_write_ext] is one that
    [_save] finds a writer for: a plugin that writes and lists it. *)
Theorem default_extension_finds_writer (plugins : list plugin) (S : gset string)
    (e : string) :
  Registry.default_write_ext plugins = Ok S ->
  e ∈ S ->
  lower e = e ->
  exists writer, find_writer plugins e = Some writer
                 /\ writes_truthy writer = true
                 /\ In e (file_extensions writer).
Proof.
  intros H He Hl.
  destruct (default_write_ext_from_spec _ _ _ _ H He) as [Hacc | (p & Hp & Hw & Hin)];
    [by apply not_elem_of_empty in Hacc|].
  unfold find_writer. rewrite Hl.
  destruct (List.find _ plugins) as [w|] eqn:E.
  - apply find_some in E as [_ Hf]. apply andb_true_iff in Hf as [Hx Hy].
    exists w. split; [done|]. split; [done|]. by apply str_in_In.
  - exfalso. eapply find_none in E; [|exact Hp]. cbn in E.
    apply andb_false_iff in E as [E | E]; [|congruence].
    apply str_in_In in Hin. congruence.
Qed.

(** ** More on the rechunk planner *)

(** What [_reduce_chunks_dict] can return. *)
Lemma reduce_chunks_dict_inv (a : dask_array) (chunk_bytes : Q)
    (plan : gmap Z chunk_directive) :
  _reduce_chunks_dict a chunk_bytes = Ok plan ->
  let nav_chunksize := all_but_last 2 (chunksize a) in
  let nav_ndim := Z.of_nat (length nav_chunksize) in
  let base := set_all whole (py_range nav_ndim (nav_ndim + 2))
                      (set_all Auto (py_range 0 nav_ndim) ∅) in
  plan = base
  \/ exists idx_min c,
       nav_ndim = 2
       /\ np_argmin nav_chunksize = Ok idx_min
       /\ py_index nav_chunksize idx_min = Ok c
       /\ merge_fits c (chunksize a) chunk_bytes = true
       /\ plan = <[idx_min := whole]> base.
Proof.
  unfold _reduce_chunks_dict. cbv zeta.
  destruct (Z.eqb_spec (Z.of_nat (length (all_but_last 2 (chunksize a)))) 2) as [Hn|Hn].
  - intros H. apply bind_ok_inv in H as (idx_min & Hmin & H).
    apply bind_ok_inv in H as (c & Hc & H).
    destruct (merge_fits c (chunksize a) chunk_bytes) eqn:Hf; inversion H.
    + right. exists idx_min, c. done.
    + by left.
  - intros H. inversion H. by left.
Qed.

Lemma base_plan_lookup (nav_ndim k : Z) :
  0 <= nav_ndim ->
  set_all whole (py_range nav_ndim (nav_ndim + 2))
          (set_all Auto (py_range 0 nav_ndim) ∅) !! k
  = if decide (nav_ndim <= k < nav_ndim + 2) then Some whole
    else if decide (0 <= k < nav_ndim) then Some Auto else None.
Proof.
  intros Hn. rewrite !lookup_set_all.
  destruct (decide (nav_ndim <= k < nav_ndim + 2)) as [H|H].
  - rewrite decide_True; [done | by apply elem_of_py_range].
  - rewrite decide_False by (by rewrite elem_of_py_range).
    destruct (decide (0 <= k < nav_ndim)) as [H'|H'].
    + rewrite decide_True; [done | by apply elem_of_py_range].
    + rewrite decide_False by (by rewrite elem_of_py_range). apply lookup_empty.
Qed.

Lemma plan_signal_axes (a : dask_array) (chunk_bytes : Q)
    (plan : gmap Z chunk_directive) (k : Z) :
  _reduce_chunks_dict a chunk_bytes = Ok plan ->
  Z.of_nat (length (all_but_last 2 (chunksize a))) <= k
    < Z.of_nat (length (all_but_last 2 (chunksize a))) + 2 ->
  plan !! k = Some whole.
Proof.
  intros H Hk. apply reduce_chunks_dict_inv in H. cbv zeta in H.
  destruct H as [-> | (idx & c & _ & _ & _ & _ & ->)].
  - rewrite base_plan_lookup by lia. by rewrite decide_True.
  - destruct (decide (idx = k)) as [->|Hne]; [by rewrite lookup_insert_eq|].
    rewrite lookup_insert_ne by done. rewrite base_plan_lookup by lia.
    by rewrite decide_True.
Qed.

Lemma reduce_chunks_signal_axes (normalize_chunks :
    gmap Z chunk_directive -> option (list Z) -> byte_limit -> dtype ->
    result (list (list Z)))
    (a : dask_array) (chunk_bytes : Q) (dtype_out : dtype) (result : list (list Z)) :
  (2 <= length (chunks a))%nat ->
  _reduce_chunks normalize_chunks a chunk_bytes dtype_out = Ok result ->
  length result = length (chunks a)
  /\ last_n 2 result = last_n 2 (chunks a).
Proof.
  intros Hrank H.
  assert (Hplan : exists plan, _reduce_chunks_dict a chunk_bytes = Ok plan).
  { unfold _reduce_chunks in H. destruct (_reduce_chunks_dict a chunk_bytes); [eauto|done]. }
  destruct Hplan as [plan Hplan].
  destruct (reduce_chunks_reuses_old normalize_chunks a chunk_bytes dtype_out plan result
              Hplan H) as [Hlen Hold].
  split; [done|]. unfold last_n. rewrite Hlen.
  assert (Hnav : length (all_but_last 2 (chunksize a)) = (length (chunks a) - 2)%nat).
  { unfold all_but_last, chunksize. rewrite length_take, length_fmap. lia. }
  apply list_eq. intros i. rewrite !lookup_drop.
  destruct (decide (i < 2)%nat) as [Hi|Hi].
  - apply Hold; [lia|]. apply (plan_signal_axes a chunk_bytes); [done|]. lia.
  - rewrite !lookup_ge_None_2; [done | lia | lia].
Qed.

(** X21. The chunk tuple of [_reduce_chunks] has an entry for each axis of the
    array, and its last two entries are the old chunks of the last two
    axes. *)
Theorem reduce_chunks_keeps_signal_axes (normalize_chunks :
    gmap Z chunk_directive -> option (list Z) -> byte_limit -> dtype ->
    result (list (list Z)))
    (a : dask_array) (chunk_bytes : Q) (dtype_out : dtype) (result : list (list Z)) :
  (2 <= length (chunks a))%nat ->
  _reduce_chunks normalize_chunks a chunk_bytes dtype_out = Ok result ->
  length result = length (chunks a)
  /\ last_n 2 result = last_n 2 (chunks a).
Proof. apply reduce_chunks_signal_axes. Qed.

(** X22. In the dict that [_reduce_chunks] hands to Dask, a navigation axis is
    whole only when there are two navigation axes, the axis is the one
    [np.argmin] picks, and the planner's own test holds for its chunk extent
    [c]: [c * np.prod(chunksize[-2:]) * 4 < chunk_bytes] in [int64]
    arithmetic, which is not a bound on the bytes of the merged chunk; the
    other navigation axis is then automatic. *)
Theorem reduce_chunks_forces_at_most_one (a : dask_array) (chunk_bytes : Q)
    (plan : gmap Z chunk_directive) (i : Z) :
  _reduce_chunks_dict a chunk_bytes = Ok plan ->
  0 <= i < Z.of_nat (length (all_but_last 2 (chunksize a))) ->
  plan !! i = Some whole ->
  length (all_but_last 2 (chunksize a)) = 2%nat
  /\ np_argmin (all_but_last 2 (chunksize a)) = Ok i
  /\ (exists c, py_index (all_but_last 2 (chunksize a)) i = Ok c
                /\ merge_fits c (chunksize a) chunk_bytes = true)
  /\ plan !! (1 - i) = Some Auto.
Proof.
  intros H Hi Hw. apply reduce_chunks_dict_inv in H. cbv zeta in H.
  destruct H as [-> | (idx & c & Hn & Hmin & Hc & Hf & ->)].
  - rewrite base_plan_lookup in Hw by lia.
    rewrite decide_False, decide_True in Hw by lia. discriminate.
  - destruct (decide (idx = i)) as [->|Hne].
    + split; [lia|]. split; [done|]. split; [eauto|].
      assert (Hi01 : i = 0 \/ i = 1) by lia.
      rewrite lookup_insert_ne by lia. rewrite base_plan_lookup by lia.
      rewrite decide_False, decide_True by lia. done.
    + rewrite lookup_insert_ne in Hw by done. rewrite base_plan_lookup in Hw by lia.
      rewrite decide_False, decide_True in Hw by lia. discriminate.
Qed.

(** The dict that [get_chunking] hands to Dask, entry by entry. *)
Lemma get_chunking_plan_covers_axes (nav_dim sig_dim : Z) (chunk_shape : option Z)
    (k : Z) :
  get_chunking_dict nav_dim sig_dim chunk_shape !! k
  = if decide (nav_dim <= k < nav_dim + sig_dim) then Some whole
    else if decide (0 <= k < nav_dim)
         then Some (match chunk_shape with None => Auto | Some c => Edge c end)
         else None.
Proof.
  unfold get_chunking_dict. rewrite !lookup_set_all.
  destruct (decide (nav_dim <= k < nav_dim + sig_dim)) as [H|H].
  - rewrite decide_True; [done | by apply elem_of_py_range].
  - rewrite decide_False by (by rewrite elem_of_py_range).
    destruct (decide (0 <= k < nav_dim)) as [H'|H'].
    + rewrite decide_True; [done | by apply elem_of_py_range].
    + rewrite decide_False by (by rewrite elem_of_py_range). apply lookup_empty.
Qed.

(** ** More on the decomposition chunk balancer *)

Lemma halve_loop_nonpositive (suggested_size : Q) (fuel : nat) :
  (suggested_size <= 0)%Q ->
  forall s0 s1, 0 <= num_val s0 -> 0 <= num_val s1 ->
  halve_loop fuel suggested_size (s0, s1) = None.
Proof.
  intros Hs. induction fuel as [|fuel IH]; intros s0 s1 H0 H1; cbn [halve_loop fst snd].
  - destruct (Qlt_b _ _) eqn:E; [|done]. apply Qlt_b_true in E.
    pose proof (Qlt_le_trans _ _ _ E Hs) as H. unfold Qlt, inject_Z in H. simpl in H. lia.
  - destruct (Qlt_b _ _) eqn:E.
    + apply Qlt_b_true in E.
      pose proof (Qlt_le_trans _ _ _ E Hs) as H. unfold Qlt, inject_Z in H. simpl in H. lia.
    + unfold halve_larger. destruct (Z.leb_spec (num_val s1) (num_val s0)).
      * apply IH; simpl; [apply Z.div_pos; lia | done].
      * apply IH; simpl; [done | apply Z.div_pos; lia].
Qed.

(** X23. Under a negative megabyte budget [_rechunk_learning_results], given
    arrays of equal trailing extents, never returns: the sizes stay at or
    above the budget however often they are halved. *)
Theorem rechunk_negative_budget_never_returns (factors loadings : ndarray)
    (mbytes_chunk : Q) (n : Z) :
  (mbytes_chunk < 0)%Q ->
  py_index (nd_shape factors) (-1) = Ok n ->
  py_index (nd_shape loadings) (-1) = Ok n ->
  0 <= nbytes factors -> 0 <= nbytes loadings ->
  forall fuel, _rechunk_learning_results fuel factors loadings mbytes_chunk = None.
Proof.
  intros Hm Hf Hl H0 H1 fuel. unfold _rechunk_learning_results. rewrite Hf, Hl.
  rewrite Z.eqb_refl. cbn [negb].
  assert (Hs : (suggested_size mbytes_chunk < 0)%Q).
  { unfold suggested_size. unfold Qlt, Qmult in *. simpl in *. lia. }
  assert (Hne : Qeq_bool (suggested_size mbytes_chunk) 0 = false).
  { destruct (Qeq_bool _ _) eqn:E; [|done]. apply Qeq_bool_iff in E.
    rewrite E in Hs. by apply Qlt_irrefl in Hs. }
  rewrite Hne.
  assert (Hle : Qle_bool (inject_Z (nbytes factors)) (suggested_size mbytes_chunk) = false).
  { destruct (Qle_bool _ _) eqn:E; [|done]. apply Qle_bool_iff in E.
    pose proof (Qle_lt_trans _ _ _ E Hs) as H. unfold Qlt, inject_Z in H. simpl in H. lia. }
  rewrite Hle. unfold start_sizes.
  rewrite halve_loop_nonpositive; [done | by apply Qlt_le_weak | done | done].
Qed.

Lemma rechunk_ok_inv (fuel : nat) (factors loadings : ndarray)
    (mbytes_chunk : Q) (chunks : list (Z * Z)) :
  _rechunk_learning_results fuel factors loadings mbytes_chunk = Some (Ok chunks) ->
  exists e0 e2,
    chunks = [(e0, -1); (e2, -1)]
    /\ (Qle_bool (inject_Z (nbytes factors)) (suggested_size mbytes_chunk) = true ->
        e0 = -1)
    /\ py_index (nd_shape factors) (-1) = py_index (nd_shape loadings) (-1).
Proof.
  unfold _rechunk_learning_results.
  destruct (py_index (nd_shape factors) (-1)) as [f_last|]; [|intros H; by inversion H].
  destruct (py_index (nd_shape loadings) (-1)) as [l_last|]; [|intros H; by inversion H].
  destruct (Z.eqb_spec f_last l_last) as [->|]; [|intros H; by inversion H]. cbn [negb].
  destruct (Qeq_bool _ _); [intros H; by inversion H|].
  destruct (Qle_bool _ _).
  - intros H. inversion H as [H']. apply bind_ok_inv in H' as (n2 & _ & H').
    destruct (_ && _); [discriminate|]. destruct (_ =? 0); [discriminate|].
    inversion H'. eauto.
  - destruct (halve_loop _ _ _) as [sizes|]; [|discriminate].
    intros H. inversion H as [H'].
    apply bind_ok_inv in H' as (fc & _ & H'). apply bind_ok_inv in H' as (lc & _ & H').
    apply bind_ok_inv in H' as (n0 & _ & H'). apply bind_ok_inv in H' as (e0 & _ & H').
    apply bind_ok_inv in H' as (n2 & _ & H'). apply bind_ok_inv in H' as (e2 & _ & H').
    inversion H'. exists e0, e2. split; [done|]. split; [discriminate | done].
Qed.

(** X24. The chunks of [_rechunk_learning_results] are two pairs that both
    leave the last axis whole; when the factors fit the budget their first
    axis is whole as well; and the trailing extents of the arrays are
    equal. *)
Theorem rechunk_trailing_axes_whole (fuel : nat) (factors loadings : ndarray)
    (mbytes_chunk : Q) (chunks : list (Z * Z)) :
  _rechunk_learning_results fuel factors loadings mbytes_chunk = Some (Ok chunks) ->
  exists e0 e2,
    chunks = [(e0, -1); (e2, -1)]
    /\ (Qle_bool (inject_Z (nbytes factors)) (suggested_size mbytes_chunk) = true ->
        e0 = -1)
    /\ py_index (nd_shape factors) (-1) = py_index (nd_shape loadings) (-1).
Proof. apply rechunk_ok_inv. Qed.

(** ** Overlap between chunks *)

Lemma overlap_loop_spec (is_chunked : list bool) (n_neighbours : list Z) :
  forall (i : Z) (acc d : gmap Z Z),
    0 <= i ->
    (forall k, i <= k -> acc !! k = None) ->
    Lazy.overlap_loop is_chunked i n_neighbours acc = Ok d ->
    forall k n,
      d !! k = Some n
      <-> (k < i /\ acc !! k = Some n)
          \/ (i <= k /\ n_neighbours !! Z.to_nat (k - i) = Some n
              /\ is_chunked !! Z.to_nat k = Some true).
Proof.
  induction n_neighbours as [|m rest IH]; intros i acc d Hi Hacc H k n;
    cbn [Lazy.overlap_loop] in H.
  - inversion H; subst d. split.
    + intros Hk. left. split; [|done].
      destruct (Z.lt_ge_cases k i); [done|]. rewrite Hacc in Hk by lia. discriminate.
    + intros [[_ Hk] | (_ & Hk & _)]; [done | by rewrite lookup_nil in Hk].
  - apply bind_ok_inv in H as (c & Hc & H).
    replace i with (Z.of_nat (Z.to_nat i)) in Hc by lia. apply py_index_nat in Hc.
    assert (Hacc' : forall k', i + 1 <= k' ->
              (if c then <[i := m]> acc else acc) !! k' = None).
    { intros k' Hk'. destruct c; [|apply Hacc; lia].
      rewrite lookup_insert_ne by lia. apply Hacc. lia. }
    rewrite (IH (i + 1) _ d ltac:(lia) Hacc' H k n). clear H. split.
    + intros [[Hlt Hk] | (Hle & Hk & Hch)].
      * destruct (decide (k = i)) as [->|Hne].
        -- right. split; [lia|]. rewrite Z.sub_diag. cbn.
           destruct c; [|rewrite Hacc in Hk by lia; discriminate].
           rewrite lookup_insert_eq in Hk. by split.
        -- left. split; [lia|]. destruct c; [|done].
           by rewrite lookup_insert_ne in Hk.
      * right. split; [lia|]. split; [|done].
        replace (Z.to_nat (k - i)) with (S (Z.to_nat (k - (i + 1)))) by lia. done.
    + intros [[Hlt Hk] | (Hle & Hk & Hch)].
      * left. split; [lia|]. destruct c; [|done]. by rewrite lookup_insert_ne by lia.
      * destruct (decide (k = i)) as [->|Hne].
        -- left. split; [lia|]. rewrite Z.sub_diag in Hk. cbn in Hk.
           inversion Hk; subst m. rewrite Hch in Hc. inversion Hc; subst c.
           by rewrite lookup_insert_eq.
        -- right. split; [lia|]. split; [|done].
           replace (Z.to_nat (k - i)) with (S (Z.to_nat (k - (i + 1)))) in Hk by lia.
           done.
Qed.

(** X25. Where the chunk extents before the signal axes are as many as the
    navigation axes, the keys of the dict of [_get_chunk_overlap_depth] are
    the navigation axes whose chunk extent differs from the extent of the
    axis, each with the number of neighbours of the window along it. *)
Theorem overlap_depth_only_chunked_axes (n_neighbours : list Z) (signal_dimension : Z)
    (navigation_shape chunksize : list Z) (d : gmap Z Z) :
  length (Lazy.py_take (- signal_dimension) chunksize) = length navigation_shape ->
  Lazy._get_chunk_overlap_depth n_neighbours signal_dimension navigation_shape chunksize
  = Ok d ->
  forall k n,
    d !! k = Some n
    <-> 0 <= k
        /\ n_neighbours !! Z.to_nat k = Some n
        /\ exists c s, Lazy.py_take (- signal_dimension) chunksize !! Z.to_nat k = Some c
                       /\ reverse navigation_shape !! Z.to_nat k = Some s
                       /\ c <> s.
Proof.
  intros Hlen H k n. unfold Lazy._get_chunk_overlap_depth in H.
  apply bind_ok_inv in H as (is_chunked & Hic & H).
  unfold Lazy.np_not_equal in Hic. rewrite length_reverse in Hic.
  rewrite Hlen, Nat.eqb_refl in Hic. inversion Hic; subst is_chunked; clear Hic.
  rewrite (overlap_loop_spec _ _ 0 ∅ d (Z.le_refl 0) (fun k _ => lookup_empty k) H k n).
  rewrite Z.sub_0_r, lookup_zip_with. split.
  - intros [[_ Hk] | (Hk & Hn & Hc)]; [by rewrite lookup_empty in Hk|].
    split; [done|]. split; [done|].
    destruct (Lazy.py_take _ chunksize !! Z.to_nat k) as [c|]; [|discriminate].
    destruct (reverse navigation_shape !! Z.to_nat k) as [s|]; [|discriminate].
    cbn in Hc. inversion Hc as [Hcs]. apply negb_true_iff, Z.eqb_neq in Hcs.
    by exists c, s.
  - intros (Hk & Hn & c & s & -> & -> & Hne). right. split; [done|]. split; [done|].
    cbn. f_equal. by apply negb_true_iff, Z.eqb_neq.
Qed.

Lemma overlap_loop_unchunked (is_chunked : list bool) (n_neighbours : list Z) :
  Forall (fun c => c = false) is_chunked ->
  forall (i : nat) (acc : gmap Z Z),
    (i + length n_neighbours <= length is_chunked)%nat ->
    Lazy.overlap_loop is_chunked (Z.of_nat i) n_neighbours acc = Ok acc.
Proof.
  intros Hall. induction n_neighbours as [|m rest IH]; intros i acc Hlen; [done|].
  cbn [Lazy.overlap_loop]. cbn [length] in Hlen.
  destruct (is_chunked !! i) as [c|] eqn:E;
    [|apply lookup_ge_None in E; lia].
  assert (c = false) as ->.
  { rewrite Forall_forall in Hall. apply Hall. eapply list_elem_of_lookup_2, E. }
  apply py_index_nat in E. rewrite E. cbn [mbind result_bind bind].
  replace (Z.of_nat i + 1) with (Z.of_nat (S i)) by lia. apply IH. lia.
Qed.

(** X26. When no navigation axis is chunked, [_get_chunk_overlap_depth]
    returns the empty dict. *)
Theorem overlap_depth_unchunked_empty (n_neighbours : list Z) (signal_dimension : Z)
    (navigation_shape chunksize : list Z) :
  Lazy.py_take (- signal_dimension) chunksize = reverse navigation_shape ->
  (length n_neighbours <= length navigation_shape)%nat ->
  Lazy._get_chunk_overlap_depth n_neighbours signal_dimension navigation_shape chunksize
  = Ok ∅.
Proof.
  intros Heq Hlen. unfold Lazy._get_chunk_overlap_depth. rewrite Heq.
  unfold Lazy.np_not_equal. rewrite Nat.eqb_refl. cbn [mbind result_bind bind].
  apply (overlap_loop_unchunked _ _) with (i := 0%nat).
  - apply Forall_forall. intros c Hc. apply list_elem_of_lookup in Hc as [i Hi].
    rewrite lookup_zip_with in Hi.
    destruct (reverse navigation_shape !! i) as [x|]; [|discriminate]. cbn in Hi.
    inversion Hi. by rewrite Z.eqb_refl.
  - rewrite length_zip_with, length_reverse. lia.
Qed.

(** A window of more axes than the navigation space makes the
    comprehension index past the end. *)
Lemma overlap_depth_window_too_large (n_neighbours : list Z) (signal_dimension : Z)
    (navigation_shape chunksize : list Z) :
  length (Lazy.py_take (- signal_dimension) chunksize) = length navigation_shape ->
  (length navigation_shape < length n_neighbours)%nat ->
  Lazy._get_chunk_overlap_depth n_neighbours signal_dimension navigation_shape chunksize
  = Raise (Exn IndexError (Other "index out of range")).
Proof.
  intros Hlen Hlt. unfold Lazy._get_chunk_overlap_depth, Lazy.np_not_equal.
  rewrite length_reverse, Hlen, Nat.eqb_refl. cbn [mbind result_bind bind].
  set (ic := zip_with _ _ _).
  assert (Hic : length ic = length navigation_shape).
  { unfold ic. rewrite length_zip_with, length_reverse. lia. }
  clearbody ic.
  assert (Hgen : forall ns (i : nat) acc,
             (length ic < i + length ns)%nat -> (i <= length ic)%nat ->
             Lazy.overlap_loop ic (Z.of_nat i) ns acc
             = Raise (Exn IndexError (Other "index out of range"))).
  { induction ns as [|m rest IH]; intros i acc H1 H2; [cbn in H1; lia|].
    cbn [Lazy.overlap_loop]. destruct (decide (i = length ic)) as [->|Hne].
    - unfold py_index. destruct (_ <? 0) eqn:E0; [lia|].
      destruct (Z.ltb_spec (Z.of_nat (length ic)) (Z.of_nat (length ic))); [lia|].
      by rewrite andb_false_r.
    - destruct (ic !! i) as [c|] eqn:E; [|apply lookup_ge_None in E; lia].
      apply py_index_nat in E. rewrite E. cbn [mbind result_bind bind].
      replace (Z.of_nat i + 1) with (Z.of_nat (S i)) by lia.
      apply IH; cbn [length] in H1; lia. }
  apply (Hgen n_neighbours 0%nat); lia.
Qed.

(** ** Learning results *)

Lemma keep_components_2d (d0 d1 : Z) (components : Lazy.components) (s : list Z) :
  Lazy.keep_components [d0; d1] components = Ok s ->
  exists m, s = [d0; m] /\ forall d0', Lazy.keep_components [d0'; d1] components = Ok [d0'; m].
Proof.
  unfold Lazy.keep_components. destruct components as [|c|l].
  - intros H. inversion H. eauto.
  - intros H. inversion H. eauto.
  - destruct (forallb _ l); [|discriminate]. intros H. inversion H. eauto.
Qed.

Lemma keep_components_fails (d0 d0' d1 : Z) (components : Lazy.components) (e : exn) :
  Lazy.keep_components [d0; d1] components = Raise e ->
  Lazy.keep_components [d0'; d1] components = Raise e /\ e <> Exn ValueError LastDimensionsDiffer.
Proof.
  unfold Lazy.keep_components. destruct components as [|c|l]; try discriminate.
  destruct (forallb _ l); [discriminate|]. intros H. inversion H. done.
Qed.

Lemma py_index_last2 (a b : Z) : py_index [a; b] (-1) = Ok b.
Proof. reflexivity. Qed.

Lemma py_index_raise {A} (l : list A) (i : Z) (e : exn) :
  py_index l i = Raise e -> e = Exn IndexError (Other "index out of range").
Proof.
  unfold py_index. destruct (_ && _); [destruct (l !! _)|]; intros H; by inversion H.
Qed.

(** With a positive budget and equal trailing extents the balancer returns,
    and not with the error for differing last dimensions. *)
Lemma rechunk_returns_no_mismatch (factors loadings : ndarray) (mbytes_chunk : Q) (m : Z) :
  (0 < mbytes_chunk)%Q ->
  py_index (nd_shape factors) (-1) = Ok m ->
  py_index (nd_shape loadings) (-1) = Ok m ->
  forall fuel, (slack (start_sizes factors loadings) <= fuel)%nat ->
  exists r, _rechunk_learning_results fuel factors loadings mbytes_chunk = Some r
            /\ r <> Raise (Exn ValueError LastDimensionsDiffer).
Proof.
  intros Hpos Hf Hl fuel Hfuel. apply suggested_size_pos in Hpos.
  destruct (halve_loop_enough _ _ Hpos (start_sizes factors loadings) (le_n _))
    as (sizes & Hrun & _).
  pose proof (halve_loop_le _ _ _ _ _ Hfuel Hrun) as Hrun'.
  unfold _rechunk_learning_results.
  rewrite Hf, Hl, Z.eqb_refl. cbn [negb].
  destruct (Qeq_bool _ _); [by eexists|].
  destruct (Qle_bool _ _).
  - eexists. split; [done|].
    destruct (py_index _ 2) as [n2|e] eqn:E2;
      [|apply py_index_raise in E2; by subst e].
    cbn [mbind result_bind bind].
    destruct (_ && _); [done|]. by destruct (_ =? 0).
  - rewrite Hrun'. eexists. split; [done|].
    destruct (split_count (nbytes factors) sizes.1) as [fc|e] eqn:E1;
      [|unfold split_count in E1;
        repeat (match type of E1 with
                | context [match ?x with _ => _ end] => destruct x
                end; try discriminate); by inversion E1].
    cbn [mbind result_bind bind].
    destruct (split_count (nbytes loadings) sizes.2) as [lc|e] eqn:E3;
      [|unfold split_count in E3;
        repeat (match type of E3 with
                | context [match ?x with _ => _ end] => destruct x
                end; try discriminate); by inversion E3].
    cbn [mbind result_bind bind].
    destruct (py_index _ 0) as [n0|e] eqn:E4;
      [|apply py_index_raise in E4; by subst e].
    cbn [mbind result_bind bind]. unfold edge_length.
    destruct (fc =? 0); [done|]. cbn [mbind result_bind bind].
    destruct (py_index _ 2) as [n2|e] eqn:E5;
      [|apply py_index_raise in E5; by subst e].
    cbn [mbind result_bind bind]. by destruct (lc =? 0).
Qed.

(** X27. For factors and loadings of two axes with as many components each,
    [_update_learning_results] returns or raises, and never with the error
    of [_rechunk_learning_results] for differing last dimensions: both
    arrays keep the same components. *)
Theorem update_learning_results_returns (factors loadings : Lazy.learning_array)
    (components : Lazy.components) (dtype_out : dtype) (p n k : Z) :
  nd_shape (Lazy.la_array factors) = [p; k] ->
  nd_shape (Lazy.la_array loadings) = [n; k] ->
  exists fuel, forall fuel', (fuel <= fuel')%nat ->
    exists r, Lazy._update_learning_results fuel' factors loadings components dtype_out
              = Some r
              /\ r <> Raise (Exn ValueError LastDimensionsDiffer).
Proof.
  intros Hf Hl. unfold Lazy._update_learning_results, Lazy.prepare. rewrite Hf, Hl.
  destruct (Lazy.keep_components [p; k] components) as [s|e] eqn:E.
  - apply keep_components_2d in E as (m & -> & Hany). rewrite (Hany n).
    cbn [mbind result_bind bind Lazy.la_dask].
    destruct (Lazy.la_dask factors && Lazy.la_dask loadings).
    + set (f' := {| nd_shape := [p; m]; nd_itemsize := itemsize dtype_out |}).
      set (l' := {| nd_shape := [n; m]; nd_itemsize := itemsize dtype_out |}).
      cbn [Lazy.la_array].
      exists (slack (start_sizes f' l')). intros fuel' Hfuel.
      destruct (rechunk_returns_no_mismatch f' l' 100 m eq_refl
                  (py_index_last2 p m) (py_index_last2 n m) fuel' Hfuel)
        as (r & Hr & Hne).
      rewrite Hr. destruct r as [chunks|e]; [|eexists; split; [done|congruence]].
      eexists. split; [done|].
      destruct (_rechunk_learning_results fuel' f' l' 100) as [[cs|]|] eqn:Er;
        try discriminate.
      inversion Hr; subst cs. apply rechunk_ok_inv in Er as (e0 & e2 & -> & _). done.
    + exists 0%nat. intros fuel' _. eexists. split; done.
  - apply (keep_components_fails _ n) in E as [E Hne].
    cbn [mbind result_bind bind]. exists 0%nat. intros fuel' _. eexists.
    split; [done|]. congruence.
Qed.

(** X28. The arrays that [_update_learning_results] returns have the item
    size of [dtype_out] and the shapes left by the selection of components;
    they are rechunked only when both are Dask arrays, and then with the last
    axis whole. *)
Theorem update_learning_results_result (fuel : nat)
    (factors loadings factors' loadings' : Lazy.learning_array)
    (components : Lazy.components) (dtype_out : dtype) :
  Lazy._update_learning_results fuel factors loadings components dtype_out
  = Some (Ok (factors', loadings')) ->
  nd_itemsize (Lazy.la_array factors') = itemsize dtype_out
  /\ nd_itemsize (Lazy.la_array loadings') = itemsize dtype_out
  /\ Lazy.keep_components (nd_shape (Lazy.la_array factors)) components
     = Ok (nd_shape (Lazy.la_array factors'))
  /\ Lazy.keep_components (nd_shape (Lazy.la_array loadings)) components
     = Ok (nd_shape (Lazy.la_array loadings'))
  /\ (Lazy.la_dask factors && Lazy.la_dask loadings = false ->
      Lazy.la_rechunked factors' = Lazy.la_rechunked factors
      /\ Lazy.la_rechunked loadings' = Lazy.la_rechunked loadings)
  /\ (Lazy.la_dask factors && Lazy.la_dask loadings = true ->
      exists e0 e2, Lazy.la_rechunked factors' = Some (e0, -1)
                    /\ Lazy.la_rechunked loadings' = Some (e2, -1)).
Proof.
  unfold Lazy._update_learning_results, Lazy.prepare.
  destruct (Lazy.keep_components (nd_shape (Lazy.la_array factors)) components)
    as [sf|]; [|discriminate].
  destruct (Lazy.keep_components (nd_shape (Lazy.la_array loadings)) components)
    as [sl|]; [|discriminate].
  cbn [mbind result_bind bind Lazy.la_dask Lazy.la_array].
  destruct (Lazy.la_dask factors && Lazy.la_dask loadings).
  - destruct (_rechunk_learning_results _ _ _ _) as [[cs|]|] eqn:Er; try discriminate.
    apply rechunk_ok_inv in Er as (e0 & e2 & -> & _).
    cbn. intros H. inversion H; subst. cbn.
    repeat split; try done. intros _. eauto.
  - intros H. inversion H; subst. cbn. repeat split; done.
Qed.

(** ** Dask arrays of signals *)

Lemma with_chunks_inv (shape : list Z) (dt : dtype) (new_chunks : list (list Z))
    (a : dask_array) :
  Lazy.with_chunks shape dt new_chunks = Ok a ->
  chunks a = new_chunks /\ array_dtype a = dt /\ Dask.shape a = shape.
Proof.
  unfold Lazy.with_chunks. case_bool_decide as Hs; [|discriminate].
  intros H. inversion H. done.
Qed.

Section DaskArrays.

Variable normalize_chunks :
  gmap Z chunk_directive -> option (list Z) -> byte_limit -> dtype ->
  result (list (list Z)).

(** X29. For a signal that holds a Dask array, [get_dask_array] returns a Dask
    array of the same shape and of the data type asked for (its own, if
    none); without [rechunk] the chunks are those of the signal, and with it
    the chunks of the last two axes still are. *)
Theorem get_dask_array_of_lazy (signal : Lazy.signal) (target : option dtype)
    (kwargs : Lazy.chunk_kwargs) (a : dask_array) (r : Lazy.signal_array) :
  Lazy.data signal = Lazy.OnDask a ->
  Lazy.get_dask_array normalize_chunks signal target kwargs = Ok r ->
  exists a',
    r = Lazy.OnDask a'
    /\ shape a' = shape a
    /\ array_dtype a' = default (array_dtype a) target
    /\ (Lazy.kw_rechunk kwargs = false -> chunks a' = chunks a)
    /\ ((2 <= length (chunks a))%nat ->
        length (chunks a') = length (chunks a)
        /\ last_n 2 (chunks a') = last_n 2 (chunks a)).
Proof.
  intros Hd H. unfold Lazy.get_dask_array in H. rewrite Hd in H.
  cbn [Lazy.dtype_of] in H.
  assert (Hdt : match target with Some d => d | None => array_dtype a end
                = default (array_dtype a) target) by (by destruct target).
  rewrite Hdt in H. clear Hdt.
  destruct (Lazy.kw_rechunk kwargs).
  - apply bind_ok_inv in H as (x & Hx & H). inversion H; subst r; clear H.
    apply bind_ok_inv in Hx as (new & Hnew & Hx).
    apply bind_ok_inv in Hx as (a' & Ha' & Hx). inversion Hx; subst x; clear Hx.
    apply with_chunks_inv in Ha' as (Hc & Hdt & Hs).
    eexists. split; [done|]. cbn. split; [|split; [done|]].
    { unfold shape in *. cbn. done. }
    split; [done|]. intros Hrank. rewrite Hc.
    unfold Lazy.reduce_chunks_with in Hnew.
    destruct (default (LimNum 8000000) (Lazy.kw_chunk_bytes kwargs)) as [|q|s].
    + destruct (_ =? 2); [discriminate|].
      eapply (reduce_chunks_signal_axes
                (fun d s _ t => normalize_chunks d s LimNone t) a 0); [done|].
      exact Hnew.
    + by eapply reduce_chunks_signal_axes.
    + destruct (_ =? 2); [discriminate|].
      eapply (reduce_chunks_signal_axes
                (fun d s' _ t => normalize_chunks d s' (LimStr s) t) a 0); [done|].
      exact Hnew.
  - inversion H; subst r. eexists. split; [done|]. cbn. done.
Qed.

Hypothesis normalize_whole :
  forall chunks_dict shape limit dtype chunks (i : nat) (n : Z),
    normalize_chunks chunks_dict (Some shape) limit dtype = Ok chunks ->
    chunks_dict !! Z.of_nat i = Some (Edge (-1)) ->
    shape !! i = Some n ->
    chunks !! i = Some [n].

(** X30. For a signal in memory, [get_dask_array] returns a Dask array of the
    shape of the data and of the data type asked for, with every signal axis
    in one chunk. *)
Theorem get_dask_array_of_memory (signal : Lazy.signal) (target : option dtype)
    (kwargs : Lazy.chunk_kwargs) (s : list Z) (dt : dtype) (r : Lazy.signal_array) :
  Lazy.data signal = Lazy.InMemory s dt ->
  Lazy.is_lazy signal = false ->
  Lazy.get_dask_array normalize_chunks signal target kwargs = Ok r ->
  exists a,
    r = Lazy.OnDask a
    /\ shape a = s
    /\ array_dtype a = default dt target
    /\ forall (i : nat) (n : Z),
         Lazy.nav_dimension signal <= Z.of_nat i
           < Lazy.nav_dimension signal + Lazy.sig_dimension signal ->
         s !! i = Some n ->
         chunks a !! i = Some [n].
Proof.
  intros Hd Hlazy H. unfold Lazy.get_dask_array in H. rewrite Hd, Hlazy in H.
  cbn [Lazy.dtype_of] in H.
  assert (Hdt : match target with Some d => d | None => dt end = default dt target)
    by (by destruct target).
  rewrite Hdt in H. clear Hdt.
  apply bind_ok_inv in H as (x & Hx & H). inversion H; subst r; clear H.
  apply bind_ok_inv in Hx as (cs & Hcs & Hx).
  apply bind_ok_inv in Hx as (a & Ha & Hx). inversion Hx; subst x; clear Hx.
  apply with_chunks_inv in Ha as (Hc & Hdt & Hs).
  eexists. split; [done|]. cbn. split; [by unfold shape in *|]. split; [done|].
  intros i n Hi Hn. rewrite Hc.
  unfold get_chunking in Hcs. cbn in Hcs.
  eapply normalize_whole; [exact Hcs | | exact Hn].
  by apply get_chunking_dict_signal.
Qed.

End DaskArrays.

(** ** The further properties on concrete inputs *)

Lemma footprint_match_is_candidate_witness :
  _plugin_from_footprints Samples.os "/data/marked.h5" Samples.plugins
  = Ok (Some Samples.kikuchipy_h5ebsd)
  /\ In Samples.kikuchipy_h5ebsd Samples.plugins
  /\ has_footprint Samples.kikuchipy_h5ebsd = true.
Proof.
  split; [vm_compute; reflexivity|].
  apply (footprint_match_is_candidate Samples.os "/data/marked.h5" Samples.plugins
           Samples.kikuchipy_h5ebsd).
  vm_compute. reflexivity.
Defined.

Lemma manufacturer_key_rereads_witness :
  NoDup (MoreSamples.edax_h5.*1)
  /\ _hdf5group2dict MoreSamples.edax_h5 !! "manufacturer" = Some (PStr "Manufacturer")
  /\ lower (lstrip "Manufacturer") = "manufacturer"
  /\ exists value, In ("Manufacturer", H5Dataset value) MoreSamples.edax_h5
                   /\ read_dataset MoreSamples.edax_h5 (PStr "Manufacturer") = Ok value.
Proof.
  split; [apply (bool_decide_unpack (NoDup _)); vm_compute; exact I|].
  split; [vm_compute; reflexivity|].
  apply (manufacturer_key_rereads MoreSamples.edax_h5 "Manufacturer");
    [apply (bool_decide_unpack (NoDup _)); vm_compute; exact I | vm_compute; reflexivity].
Defined.

Lemma resolved_paths_are_normalised_witness :
  walk (PDict (_hdf5group2dict Samples.marked_h5)) ["emdata"; "ecpmaster"]
  = Some (PDict ∅)
  /\ Forall (fun k => lower k = k /\ lstrip k = k) ["emdata"; "ecpmaster"].
Proof.
  split; [vm_compute; reflexivity|].
  apply (resolved_paths_are_normalised ["emdata"; "ecpmaster"] Samples.marked_h5
           (PDict ∅)).
  vm_compute. reflexivity.
Defined.

Lemma manufacturer_mismatch_falls_through_witness :
  h5py_File (MoreSamples.os_holding MoreSamples.edax_h5) "/data/marked.h5"
  = Ok MoreSamples.edax_h5
  /\ (_hdf5group2dict MoreSamples.edax_h5 !! "manufacturer" = None
      \/ exists val man s,
           _hdf5group2dict MoreSamples.edax_h5 !! "manufacturer" = Some val
           /\ read_dataset MoreSamples.edax_h5 val = Ok man
           /\ unwrap_manufacturer man = HStr s
           /\ forall p, In p Samples.plugins -> has_footprint p = true ->
                        manufacturer p <> Some (lower s))
  /\ _plugin_from_footprints (MoreSamples.os_holding MoreSamples.edax_h5)
       "/data/marked.h5" Samples.plugins
     = structural_pass (_hdf5group2dict MoreSamples.edax_h5)
                       (List.filter has_footprint Samples.plugins).
Proof.
  assert (H : _hdf5group2dict MoreSamples.edax_h5 !! "manufacturer" = None
      \/ exists val man s,
           _hdf5group2dict MoreSamples.edax_h5 !! "manufacturer" = Some val
           /\ read_dataset MoreSamples.edax_h5 val = Ok man
           /\ unwrap_manufacturer man = HStr s
           /\ forall p, In p Samples.plugins -> has_footprint p = true ->
                        manufacturer p <> Some (lower s)).
  { right. exists (PStr "Manufacturer"), (HBytes "EDAX"), "EDAX".
    split; [vm_compute; reflexivity|]. split; [vm_compute; reflexivity|].
    split; [reflexivity|].
    intros p [<- | [<- | []]] _; vm_compute; discriminate. }
  split; [reflexivity|]. split; [exact H|].
  apply (manufacturer_mismatch_falls_through
           (MoreSamples.os_holding MoreSamples.edax_h5) "/data/marked.h5"
           Samples.plugins MoreSamples.edax_h5); [reflexivity | exact H].
Defined.

Lemma manufacturer_not_text_raises_witness :
  h5py_File (MoreSamples.os_holding MoreSamples.numbered_h5) "/data/marked.h5"
  = Ok MoreSamples.numbered_h5
  /\ _hdf5group2dict MoreSamples.numbered_h5 !! "manufacturer" = Some (PStr "Manufacturer")
  /\ read_dataset MoreSamples.numbered_h5 (PStr "Manufacturer") = Ok (HNumber 7)
  /\ (forall s, unwrap_manufacturer (HNumber 7) <> HStr s)
  /\ In Samples.kikuchipy_h5ebsd Samples.plugins
  /\ has_footprint Samples.kikuchipy_h5ebsd = true
  /\ has_manufacturer Samples.kikuchipy_h5ebsd = true
  /\ _plugin_from_footprints (MoreSamples.os_holding MoreSamples.numbered_h5)
       "/data/marked.h5" Samples.plugins
     = Raise (Exn AttributeError (NoAttribute "man" "lower")).
Proof.
  split; [reflexivity|]. split; [vm_compute; reflexivity|].
  split; [vm_compute; reflexivity|]. split; [intros s; discriminate|].
  split; [right; left; reflexivity|]. split; [vm_compute; reflexivity|].
  split; [vm_compute; reflexivity|].
  apply (manufacturer_not_text_raises
           (MoreSamples.os_holding MoreSamples.numbered_h5) "/data/marked.h5"
           Samples.plugins MoreSamples.numbered_h5 (PStr "Manufacturer") (HNumber 7)
           Samples.kikuchipy_h5ebsd);
    try (vm_compute; reflexivity); [intros s; discriminate | right; left; reflexivity].
Defined.

Lemma lookup_through_leaf_raises_witness :
  ["c"] <> []
  /\ ["d"] <> []
  /\ walk (PDict (_hdf5group2dict Samples.a_b_and_c)) ["c"] = Some (PInt 1)
  /\ _exists (PDict (_hdf5group2dict Samples.a_b_and_c)) (["c"] ++ ["d"])
     = Raise (Exn TypeError (Other "argument is not iterable")).
Proof.
  split; [discriminate|]. split; [discriminate|]. split; [vm_compute; reflexivity|].
  apply (lookup_through_leaf_raises ["c"] (PDict (_hdf5group2dict Samples.a_b_and_c))
           1 ["d"]); [discriminate | discriminate | vm_compute; reflexivity].
Defined.

Lemma assigned_class_meets_request_witness :
  _assign_signal_subclass Samples.subclasses "uint8" 2 "EBSD" true = Ok Samples.LazyEBSD
  /\ In Samples.LazyEBSD Samples.subclasses
  /\ _lazy Samples.LazyEBSD = true
  /\ _dtype Samples.LazyEBSD = "real"
  /\ _signal_dimension Samples.LazyEBSD = 2
  /\ ("EBSD" = _signal_type Samples.LazyEBSD
      \/ In "EBSD" (_alias_signal_types Samples.LazyEBSD))
  /\ dtype_understood "uint8" = true
  /\ 0 <= 2.
Proof.
  split; [vm_compute; reflexivity|].
  apply (assigned_class_meets_request Samples.subclasses "uint8" 2 "EBSD" true
           Samples.LazyEBSD).
  vm_compute. reflexivity.
Defined.

Lemma assign_independent_of_registration_order_witness :
  Permutation Samples.subclasses [Samples.LazyEBSD; Samples.EBSD]
  /\ _assign_signal_subclass Samples.subclasses "uint8" 2 "EBSD" false
     = _assign_signal_subclass [Samples.LazyEBSD; Samples.EBSD] "uint8" 2 "EBSD" false.
Proof.
  split; [apply perm_swap|].
  apply (assign_independent_of_registration_order Samples.subclasses
           [Samples.LazyEBSD; Samples.EBSD] "uint8" 2 "EBSD" false).
  apply perm_swap.
Defined.

Lemma check_record_by_settles_witness :
  check_record_by (Samples.ebsd_metadata (Some (PStr "image")))
  = Ok (Samples.ebsd_metadata None)
  /\ check_record_by (Samples.ebsd_metadata None) = Ok (Samples.ebsd_metadata None)
  /\ read_signal_type (Samples.ebsd_metadata None)
     = read_signal_type (Samples.ebsd_metadata (Some (PStr "image")))
  /\ forall k, k <> "Signal" ->
       Samples.ebsd_metadata None !! k
       = Samples.ebsd_metadata (Some (PStr "image")) !! k.
Proof.
  split; [vm_compute; reflexivity|].
  apply (check_record_by_settles (Samples.ebsd_metadata (Some (PStr "image")))
           (Samples.ebsd_metadata None)).
  vm_compute. reflexivity.
Defined.

Lemma dict2signal_class_witness :
  _dict2signal Samples.subclasses (Samples.ebsd_record (Some (PStr "image"))) false
  = Ok Samples.ebsd_signal
  /\ In (signal_cls Samples.ebsd_signal) Samples.subclasses
  /\ _signal_dimension (signal_cls Samples.ebsd_signal) = 2
  /\ _lazy (signal_cls Samples.ebsd_signal) = false
  /\ made_lazy Samples.ebsd_signal = false
  /\ sd_data (signal_args Samples.ebsd_signal)
     = sd_data (Samples.ebsd_record (Some (PStr "image")))
  /\ sd_original_metadata (signal_args Samples.ebsd_signal)
     = sd_original_metadata (Samples.ebsd_record (Some (PStr "image")))
  /\ exists data, sd_data (Samples.ebsd_record (Some (PStr "image"))) = Some data
                  /\ dtype_understood (array_dtype_name data) = true.
Proof.
  split; [vm_compute; reflexivity|].
  apply (dict2signal_class Samples.subclasses (Samples.ebsd_record (Some (PStr "image")))
           false Samples.ebsd_signal).
  vm_compute. reflexivity.
Defined.

Lemma load_unread_extension_witness :
  (isfile Samples.os "/data/unsupported.h4" = true
   \/ glob Samples.os "/data/unsupported.h4" <> [])
  /\ (forall p, In p Samples.plugins ->
        str_in (lower (slice_from 1 (splitext "/data/unsupported.h4").2))
               (file_extensions p) = false)
  /\ load Samples.os Samples.plugins Samples.subclasses "/data/unsupported.h4" false ∅
     = Raise (Exn IOError (CouldNotRead "/data/unsupported.h4")).
Proof.
  assert (Hno : forall p, In p Samples.plugins ->
            str_in (lower (slice_from 1 (splitext "/data/unsupported.h4").2))
                   (file_extensions p) = false).
  { intros p [<- | [<- | []]]; vm_compute; reflexivity. }
  split; [left; vm_compute; reflexivity|]. split; [exact Hno|].
  apply (load_unread_extension Samples.os Samples.plugins Samples.subclasses
           "/data/unsupported.h4" false ∅); [left; vm_compute; reflexivity | exact Hno].
Defined.

Lemma load_without_footprints_witness :
  isfile (MoreSamples.os_holding Samples.marked_h5) = isfile Samples.os
  /\ glob (MoreSamples.os_holding Samples.marked_h5) = glob Samples.os
  /\ is_hdf5 (MoreSamples.os_holding Samples.marked_h5) = is_hdf5 Samples.os
  /\ abspath (MoreSamples.os_holding Samples.marked_h5) = abspath Samples.os
  /\ ((length (readers_for [Samples.kikuchipy_h5ebsd] "/data/empty.h5") <= 1)%nat
      \/ is_hdf5 Samples.os "/data/empty.h5" = false)
  /\ load (MoreSamples.os_holding Samples.marked_h5) [Samples.kikuchipy_h5ebsd]
          Samples.subclasses "/data/empty.h5" false ∅
     = load Samples.os [Samples.kikuchipy_h5ebsd] Samples.subclasses
            "/data/empty.h5" false ∅
  /\ forall out,
       load Samples.os [Samples.kikuchipy_h5ebsd] Samples.subclasses
            "/data/empty.h5" false ∅ = Ok out ->
       exists reader rest records,
         readers_for [Samples.kikuchipy_h5ebsd] "/data/empty.h5" = reader :: rest
         /\ file_reader reader "/data/empty.h5" false ∅ = Ok records.
Proof.
  repeat (split; [reflexivity|]).
  split; [left; vm_compute; lia|].
  apply (load_without_footprints Samples.os (MoreSamples.os_holding Samples.marked_h5)
           [Samples.kikuchipy_h5ebsd] Samples.subclasses "/data/empty.h5" false ∅);
    try reflexivity.
  left. vm_compute. lia.
Defined.

Lemma load_one_or_many_witness :
  load Samples.os Samples.plugins Samples.subclasses "/data/marked.h5" false ∅
  = Ok (One MoreSamples.loaded_signal)
  /\ exists reader records,
       In reader Samples.plugins
       /\ str_in (lower (slice_from 1 (splitext "/data/marked.h5").2))
                 (file_extensions reader) = true
       /\ file_reader reader "/data/marked.h5" false ∅ = Ok records
       /\ length records = 1%nat
       /\ Forall (fun s => is_Some (folder (tmp s)) /\ is_Some (filename_of (tmp s))
                           /\ is_Some (extension (tmp s))
                           /\ In (signal_cls s) Samples.subclasses
                           /\ _lazy (signal_cls s) = false)
                 [MoreSamples.loaded_signal].
Proof.
  split; [vm_compute; reflexivity|].
  apply (load_one_or_many Samples.os Samples.plugins Samples.subclasses
           "/data/marked.h5" false ∅ (One MoreSamples.loaded_signal)).
  vm_compute. reflexivity.
Defined.

Lemma save_unsupported_extension_witness :
  (forall p, In p Samples.plugins ->
     str_in (lower (save_target "/data/marked.h4").1) (file_extensions p)
     && writes_truthy p = false)
  /\ _save Samples.os Samples.plugins "/data/marked.h4" Samples.ebsd_signal
           OvNone None ∅
     = {| outcome := Raise (Exn ValueError
                              (ExtNotSupported (save_target "/data/marked.h4").1));
          signal_after := Samples.ebsd_signal; events := [] |}.
Proof.
  assert (Hno : forall p, In p Samples.plugins ->
            str_in (lower (save_target "/data/marked.h4").1) (file_extensions p)
            && writes_truthy p = false).
  { intros p [<- | [<- | []]]; vm_compute; reflexivity. }
  split; [exact Hno|].
  apply (save_unsupported_extension Samples.os Samples.plugins "/data/marked.h4"
           Samples.ebsd_signal OvNone None ∅ Hno).
Defined.

Lemma save_writer_supports_request_witness :
  In (FileWriter "kikuchipy_h5ebsd" "/data/new.h5" ∅)
     (events (_save Samples.os Samples.plugins "/data/new" Samples.ebsd_signal
                    OvNone None ∅))
  /\ "/data/new.h5" = (save_target "/data/new").2
  /\ exists writer,
       In writer Samples.plugins
       /\ "kikuchipy_h5ebsd" = format_name writer
       /\ str_in (lower (save_target "/data/new").1) (file_extensions writer) = true
       /\ writes_truthy writer = true
       /\ can_write (am_signal_dimension Samples.ebsd_signal)
                    (am_navigation_dimension Samples.ebsd_signal) writer = true.
Proof.
  assert (Hin : In (FileWriter "kikuchipy_h5ebsd" "/data/new.h5" ∅)
                   (events (_save Samples.os Samples.plugins "/data/new"
                                  Samples.ebsd_signal OvNone None ∅))).
  { vm_compute. right. right. left. reflexivity. }
  split; [exact Hin|].
  apply (save_writer_supports_request Samples.os Samples.plugins "/data/new"
           Samples.ebsd_signal OvNone None ∅ "kikuchipy_h5ebsd" "/data/new.h5" ∅ Hin).
Defined.

Lemma save_overwrite_true_writes_witness :
  find_writer Samples.plugins (save_target "/data/marked.h5").1
  = Some Samples.kikuchipy_h5ebsd
  /\ can_write (am_signal_dimension Samples.ebsd_signal)
               (am_navigation_dimension Samples.ebsd_signal)
               Samples.kikuchipy_h5ebsd = true
  /\ events (_save Samples.os Samples.plugins "/data/marked.h5" Samples.ebsd_signal
                   (OvBool true) None ∅)
     = [EnsureDirectory (save_target "/data/marked.h5").2;
        FileWriter (format_name Samples.kikuchipy_h5ebsd)
                   (save_target "/data/marked.h5").2 ∅].
Proof.
  split; [vm_compute; reflexivity|]. split; [vm_compute; reflexivity|].
  apply (save_overwrite_true_writes Samples.os Samples.plugins "/data/marked.h5"
           Samples.ebsd_signal None ∅ Samples.kikuchipy_h5ebsd);
    vm_compute; reflexivity.
Defined.

Lemma save_bad_overwrite_witness :
  find_writer Samples.plugins (save_target "/data/marked.h5").1
  = Some Samples.kikuchipy_h5ebsd
  /\ can_write (am_signal_dimension Samples.ebsd_signal)
               (am_navigation_dimension Samples.ebsd_signal)
               Samples.kikuchipy_h5ebsd = true
  /\ (Some false = Some false
      \/ isfile Samples.os (save_target "/data/marked.h5").2 = false
      \/ (format_name Samples.kikuchipy_h5ebsd =? "kikuchipy_h5ebsd")%string = false)
  /\ _save Samples.os Samples.plugins "/data/marked.h5" Samples.ebsd_signal
           (OvOther (PStr "False")) (Some false) ∅
     = {| outcome := Raise (Exn ValueError OverwriteParameter);
          signal_after := Samples.ebsd_signal;
          events := [EnsureDirectory (save_target "/data/marked.h5").2] |}.
Proof.
  split; [vm_compute; reflexivity|]. split; [vm_compute; reflexivity|].
  split; [left; reflexivity|].
  apply (save_bad_overwrite Samples.os Samples.plugins "/data/marked.h5"
           Samples.ebsd_signal (PStr "False") (Some false) ∅ Samples.kikuchipy_h5ebsd);
    [vm_compute; reflexivity | vm_compute; reflexivity | left; reflexivity].
Defined.

Lemma default_extension_finds_writer_witness :
  Registry.default_write_ext Samples.plugins = Ok {[ "h5" ]}
  /\ "h5" ∈ ({[ "h5" ]} : gset string)
  /\ lower "h5" = "h5"
  /\ exists writer, find_writer Samples.plugins "h5" = Some writer
                    /\ writes_truthy writer = true
                    /\ In "h5" (file_extensions writer).
Proof.
  assert (H : Registry.default_write_ext Samples.plugins = Ok {[ "h5" ]}).
  { vm_compute. reflexivity. }
  split; [exact H|]. split; [apply elem_of_singleton_2; reflexivity|].
  split; [reflexivity|].
  apply (default_extension_finds_writer Samples.plugins {[ "h5" ]} "h5" H);
    [apply elem_of_singleton_2; reflexivity | reflexivity].
Defined.

Lemma reduce_chunks_keeps_signal_axes_witness :
  (2 <= length (chunks Samples.scan_3x4))%nat
  /\ _reduce_chunks Samples.normalize_chunks_unit Samples.scan_3x4 8000000
                    Samples.float32
     = Ok [[2; 1]; [1; 1; 1; 1]; [60]; [60]]
  /\ length [[2; 1]; [1; 1; 1; 1]; [60]; [60]] = length (chunks Samples.scan_3x4)
  /\ last_n 2 [[2; 1]; [1; 1; 1; 1]; [60]; [60]] = last_n 2 (chunks Samples.scan_3x4).
Proof.
  split; [vm_compute; lia|]. split; [vm_compute; reflexivity|].
  apply (reduce_chunks_keeps_signal_axes Samples.normalize_chunks_unit Samples.scan_3x4
           8000000 Samples.float32 [[2; 1]; [1; 1; 1; 1]; [60]; [60]]);
    [vm_compute; lia | vm_compute; reflexivity].
Defined.

Lemma reduce_chunks_forces_at_most_one_witness :
  _reduce_chunks_dict Samples.scan_3x4 8000000
  = Ok (<[0 := whole]> (set_all whole (py_range 2 4) (set_all Auto (py_range 0 2) ∅)))
  /\ 0 <= 0 < Z.of_nat (length (all_but_last 2 (chunksize Samples.scan_3x4)))
  /\ (<[0 := whole]> (set_all whole (py_range 2 4) (set_all Auto (py_range 0 2) ∅)))
       !! 0 = Some whole
  /\ length (all_but_last 2 (chunksize Samples.scan_3x4)) = 2%nat
  /\ np_argmin (all_but_last 2 (chunksize Samples.scan_3x4)) = Ok 0
  /\ (exists c, py_index (all_but_last 2 (chunksize Samples.scan_3x4)) 0 = Ok c
                /\ merge_fits c (chunksize Samples.scan_3x4) 8000000 = true)
  /\ (<[0 := whole]> (set_all whole (py_range 2 4) (set_all Auto (py_range 0 2) ∅)))
       !! (1 - 0) = Some Auto.
Proof.
  split; [vm_compute; reflexivity|]. split; [vm_compute; split; congruence|].
  split; [vm_compute; reflexivity|].
  apply (reduce_chunks_forces_at_most_one Samples.scan_3x4 8000000
           (<[0 := whole]> (set_all whole (py_range 2 4) (set_all Auto (py_range 0 2) ∅)))
           0);
    [vm_compute; reflexivity | vm_compute; split; congruence | vm_compute; reflexivity].
Defined.

Lemma rechunk_negative_budget_never_returns_witness :
  (-1 < 0)%Q
  /\ py_index (nd_shape Samples.factors_100) (-1) = Ok 100
  /\ py_index (nd_shape Samples.loadings_100) (-1) = Ok 100
  /\ 0 <= nbytes Samples.factors_100
  /\ 0 <= nbytes Samples.loadings_100
  /\ forall fuel,
       _rechunk_learning_results fuel Samples.factors_100 Samples.loadings_100 (-1)
       = None.
Proof.
  split; [reflexivity|]. split; [reflexivity|]. split; [reflexivity|].
  split; [vm_compute; discriminate|]. split; [vm_compute; discriminate|].
  apply (rechunk_negative_budget_never_returns Samples.factors_100 Samples.loadings_100
           (-1) 100);
    [reflexivity | reflexivity | reflexivity
     | vm_compute; discriminate | vm_compute; discriminate].
Defined.

Lemma rechunk_trailing_axes_whole_witness :
  _rechunk_learning_results 5 Samples.factors_100 Samples.loadings_100 1
  = Some (Ok [(900, -1); (1250, -1)])
  /\ exists e0 e2,
       [(900, -1); (1250, -1)] = [(e0, -1); (e2, -1)]
       /\ (Qle_bool (inject_Z (nbytes Samples.factors_100)) (suggested_size 1) = true ->
           e0 = -1)
       /\ py_index (nd_shape Samples.factors_100) (-1)
          = py_index (nd_shape Samples.loadings_100) (-1).
Proof.
  split; [vm_compute; reflexivity|].
  apply (rechunk_trailing_axes_whole 5 Samples.factors_100 Samples.loadings_100 1
           [(900, -1); (1250, -1)]).
  vm_compute. reflexivity.
Defined.

Lemma overlap_depth_only_chunked_axes_witness :
  length (Lazy.py_take (- 2) [2; 4; 60; 60]) = length [4; 3]
  /\ Lazy._get_chunk_overlap_depth [1; 1] 2 [4; 3] [2; 4; 60; 60] = Ok (<[0 := 1]> ∅)
  /\ forall k n,
       (<[0 := 1]> ∅ : gmap Z Z) !! k = Some n
       <-> 0 <= k
           /\ [1; 1] !! Z.to_nat k = Some n
           /\ exists c s, Lazy.py_take (- 2) [2; 4; 60; 60] !! Z.to_nat k = Some c
                          /\ reverse [4; 3] !! Z.to_nat k = Some s
                          /\ c <> s.
Proof.
  split; [reflexivity|]. split; [vm_compute; reflexivity|].
  apply (overlap_depth_only_chunked_axes [1; 1] 2 [4; 3] [2; 4; 60; 60] (<[0 := 1]> ∅));
    [reflexivity | vm_compute; reflexivity].
Defined.

Lemma overlap_depth_unchunked_empty_witness :
  Lazy.py_take (- 2) [3; 4; 60; 60] = reverse [4; 3]
  /\ (length [1; 1] <= length [4; 3])%nat
  /\ Lazy._get_chunk_overlap_depth [1; 1] 2 [4; 3] [3; 4; 60; 60] = Ok ∅.
Proof.
  split; [reflexivity|]. split; [simpl; lia|].
  apply (overlap_depth_unchunked_empty [1; 1] 2 [4; 3] [3; 4; 60; 60]);
    [reflexivity | simpl; lia].
Defined.

Lemma update_learning_results_returns_witness :
  nd_shape (Lazy.la_array MoreSamples.lazy_factors) = [3600; 100]
  /\ nd_shape (Lazy.la_array MoreSamples.lazy_loadings) = [10000; 100]
  /\ exists fuel, forall fuel', (fuel <= fuel')%nat ->
       exists r, Lazy._update_learning_results fuel' MoreSamples.lazy_factors
                   MoreSamples.lazy_loadings (Lazy.FirstComponents 10) Samples.float32
                 = Some r
                 /\ r <> Raise (Exn ValueError LastDimensionsDiffer).
Proof.
  split; [reflexivity|]. split; [reflexivity|].
  apply (update_learning_results_returns MoreSamples.lazy_factors
           MoreSamples.lazy_loadings (Lazy.FirstComponents 10) Samples.float32
           3600 10000 100); reflexivity.
Defined.

Lemma update_learning_results_result_witness :
  Lazy._update_learning_results 0 MoreSamples.lazy_factors MoreSamples.lazy_loadings
    (Lazy.FirstComponents 10) Samples.float32
  = Some (Ok (MoreSamples.ten_factors, MoreSamples.ten_loadings))
  /\ nd_itemsize (Lazy.la_array MoreSamples.ten_factors) = itemsize Samples.float32
  /\ nd_itemsize (Lazy.la_array MoreSamples.ten_loadings) = itemsize Samples.float32
  /\ Lazy.keep_components (nd_shape (Lazy.la_array MoreSamples.lazy_factors))
       (Lazy.FirstComponents 10)
     = Ok (nd_shape (Lazy.la_array MoreSamples.ten_factors))
  /\ Lazy.keep_components (nd_shape (Lazy.la_array MoreSamples.lazy_loadings))
       (Lazy.FirstComponents 10)
     = Ok (nd_shape (Lazy.la_array MoreSamples.ten_loadings))
  /\ (Lazy.la_dask MoreSamples.lazy_factors && Lazy.la_dask MoreSamples.lazy_loadings
      = false ->
      Lazy.la_rechunked MoreSamples.ten_factors
      = Lazy.la_rechunked MoreSamples.lazy_factors
      /\ Lazy.la_rechunked MoreSamples.ten_loadings
         = Lazy.la_rechunked MoreSamples.lazy_loadings)
  /\ (Lazy.la_dask MoreSamples.lazy_factors && Lazy.la_dask MoreSamples.lazy_loadings
      = true ->
      exists e0 e2,
        Lazy.la_rechunked MoreSamples.ten_factors = Some (e0, -1)
        /\ Lazy.la_rechunked MoreSamples.ten_loadings = Some (e2, -1)).
Proof.
  split; [vm_compute; reflexivity|].
  apply (update_learning_results_result 0 MoreSamples.lazy_factors
           MoreSamples.lazy_loadings MoreSamples.ten_factors MoreSamples.ten_loadings
           (Lazy.FirstComponents 10) Samples.float32).
  vm_compute. reflexivity.
Defined.

Lemma get_dask_array_of_lazy_witness :
  Lazy.data MoreSamples.lazy_scan = Lazy.OnDask Samples.scan_3x4
  /\ Lazy.get_dask_array Samples.normalize_chunks_unit MoreSamples.lazy_scan
       (Some Samples.float32) MoreSamples.rechunk_kwargs
     = Ok (Lazy.OnDask {| chunks := [[2; 1]; [1; 1; 1; 1]; [60]; [60]];
                          array_dtype := Samples.float32 |})
  /\ exists a',
       Lazy.OnDask {| chunks := [[2; 1]; [1; 1; 1; 1]; [60]; [60]];
                      array_dtype := Samples.float32 |} = Lazy.OnDask a'
       /\ shape a' = shape Samples.scan_3x4
       /\ array_dtype a' = default (array_dtype Samples.scan_3x4) (Some Samples.float32)
       /\ (Lazy.kw_rechunk MoreSamples.rechunk_kwargs = false ->
           chunks a' = chunks Samples.scan_3x4)
       /\ ((2 <= length (chunks Samples.scan_3x4))%nat ->
           length (chunks a') = length (chunks Samples.scan_3x4)
           /\ last_n 2 (chunks a') = last_n 2 (chunks Samples.scan_3x4)).
Proof.
  split; [reflexivity|]. split; [vm_compute; reflexivity|].
  apply (get_dask_array_of_lazy Samples.normalize_chunks_unit MoreSamples.lazy_scan
           (Some Samples.float32) MoreSamples.rechunk_kwargs Samples.scan_3x4);
    [reflexivity | vm_compute; reflexivity].
Defined.

Lemma get_dask_array_of_memory_witness :
  Lazy.data MoreSamples.memory_scan = Lazy.InMemory [3; 4; 60; 60] Samples.uint8
  /\ Lazy.is_lazy MoreSamples.memory_scan = false
  /\ Lazy.get_dask_array Samples.normalize_chunks_unit MoreSamples.memory_scan None
       MoreSamples.chunk_shape_2
     = Ok (Lazy.OnDask {| chunks := [[2; 1]; [2; 2]; [60]; [60]];
                          array_dtype := Samples.uint8 |})
  /\ exists a,
       Lazy.OnDask {| chunks := [[2; 1]; [2; 2]; [60]; [60]];
                      array_dtype := Samples.uint8 |} = Lazy.OnDask a
       /\ shape a = [3; 4; 60; 60]
       /\ array_dtype a = default Samples.uint8 None
       /\ forall (i : nat) (n : Z),
            Lazy.nav_dimension MoreSamples.memory_scan <= Z.of_nat i
              < Lazy.nav_dimension MoreSamples.memory_scan
                + Lazy.sig_dimension MoreSamples.memory_scan ->
            [3; 4; 60; 60] !! i = Some n ->
            chunks a !! i = Some [n].
Proof.
  split; [reflexivity|]. split; [reflexivity|]. split; [vm_compute; reflexivity|].
  apply (get_dask_array_of_memory Samples.normalize_chunks_unit
           normalize_chunks_unit_whole MoreSamples.memory_scan None
           MoreSamples.chunk_shape_2 [3; 4; 60; 60] Samples.uint8);
    [reflexivity | reflexivity | vm_compute; reflexivity].
Defined.
